(** * Movie recommendation service: scoring and fuzzy-resolution engine

    A shallow embedding of [services/recommendation_service.py] and the
    properties of its three operations (search, recommend, details) and
    of the lazy loading of the model artifact.

    Numbers are modelled as the code has them: [vote_average], similarity
    and score values are IEEE binary64 floats (Rocq's primitive floats),
    [vote_count], [top_n], [min_votes] and [limit] are Python integers
    ([Z]).  Library routines the service calls (rapidfuzz, pandas, NumPy,
    scikit-learn, pickle) are modelled by their documented behaviour; the
    routines without a counterpart in Rocq ([numpy.log1p], the file
    system and [pickle.load]) are the fields of an environment record
    over which every definition and theorem is parameterised. *)

From Stdlib Require Import String Ascii ZArith List Bool Lia.
From Stdlib Require Import Floats Sorted Permutation.
Import ListNotations.

Set Warnings "-inexact-float".

(* ================================================================= *)
(** ** IEEE binary64: ordering and rounding facts *)

Module F64.

Local Open Scope float_scope.

(** [a] ranks at least as high as [b] in a descending sort where
    not-a-number scores are placed last. *)
Definition fge (a b : float) : bool := is_nan b || (b <=? a).

(** Conversion of an integer of any size to the nearest float, ties to
    even, as [float(int)] and NumPy's cast of an [int64] do: exact up to
    [2^53] in magnitude.  (Beyond the range of the floats the result is
    an infinity, where Python raises [OverflowError]; the service
    converts string lengths, vote counts and rounded mantissas only.) *)
Definition of_Z (z : Z) : float :=
  SF2Prim (binary_normalize prec emax z 0 false).

(** [x >= z] for a float [x] and a Python [int] [z].  Python compares
    the two exactly: an integer of at most 48 bits is converted, without
    error, and compared as a float; a larger one is compared with the
    exact value of [x], never through a rounded conversion. *)
Definition int_le_float (z : Z) (x : float) : bool :=
  if (Z.abs z <? 2 ^ 48)%Z then of_Z z <=? x
  else
    match Prim2SF x with
    | S754_nan => false
    | S754_infinity s => negb s
    | S754_zero _ => (z <=? 0)%Z
    | S754_finite s m e =>
        let v := if s then Zneg m else Zpos m in
        if (0 <=? e)%Z then (z <=? v * 2 ^ e)%Z
        else (z * 2 ^ (- e) <=? v)%Z
    end.

(** Nearest integer to [n / d] for [d > 0], ties to even. *)
Definition div_half_even (n d : Z) : Z :=
  let q := (n / d)%Z in
  let r := (n mod d)%Z in
  match (2 * r ?= d)%Z with
  | Lt => q
  | Gt => (q + 1)%Z
  | Eq => if Z.even q then q else (q + 1)%Z
  end.

(** Python's [round(x, ndigits)] on a Python float, [ndigits >= 0]: the
    decimal with [ndigits] places nearest to the exact value of [x]
    (ties to even), converted back to the nearest float.  Infinities
    and NaN are returned unchanged by this model, as are values with no
    fractional part.  The result is exact while
    [|x| * 10^ndigits < 2^53]. *)
Definition round (x : float) (ndigits : nat) : float :=
  match Prim2SF x with
  | S754_finite s m e =>
      if (0 <=? e)%Z then x
      else
        let p := (10 ^ Z.of_nat ndigits)%Z in
        let k := div_half_even (Zpos m * p) (2 ^ (- e)) in
        let r := of_Z k / of_Z p in
        if s then - r else r
  | _ => x
  end.

(** [numpy.rint]: the nearest integer, ties to even, with the sign of
    the argument; infinities and NaN are returned unchanged. *)
Definition rint (x : float) : float :=
  match Prim2SF x with
  | S754_finite s m e =>
      if (0 <=? e)%Z then x
      else
        let r := of_Z (div_half_even (Zpos m) (2 ^ (- e))) in
        if s then - r else r
  | _ => x
  end.

(** [round(x, decimals)] on a [numpy.float64], [decimals >= 0]: NumPy
    scales, rounds to an integer and scales back, every step in double
    precision: [rint(x * 10**decimals) / 10**decimals].  Unlike
    [round] it rounds the product, not the exact decimal value:
    [6.35] gives [6.4] and [7.45] gives [7.4]. *)
Definition np_round (x : float) (decimals : nat) : float :=
  let p := of_Z (10 ^ Z.of_nat decimals) in
  rint (x * p) / p.

Definition SFnan (x : spec_float) : bool :=
  match x with S754_nan => true | _ => false end.

(** Rank of a value that is not NaN in the order [SFcompare] decides:
    sign class first, then exponent and mantissa lexicographically. *)
Definition SFkey (x : spec_float) : Z * (Z * Z) :=
  match x with
  | S754_nan => (0, (0, 0))
  | S754_infinity true => (-2, (0, 0))
  | S754_infinity false => (2, (0, 0))
  | S754_zero _ => (0, (0, 0))
  | S754_finite true m e => (-1, (- e, - Zpos m))
  | S754_finite false m e => (1, (e, Zpos m))
  end%Z.

Definition lex3 (a b : Z * (Z * Z)) : comparison :=
  match (fst a ?= fst b)%Z with
  | Eq => match (fst (snd a) ?= fst (snd b))%Z with
          | Eq => (snd (snd a) ?= snd (snd b))%Z
          | c => c
          end
  | c => c
  end.

(** A reference [log] for running examples: argument reduction to
    [[sqrt 1/2, sqrt 2)] and the series of [2 atanh s].  It agrees with
    the mathematical function to a few units in the last place, which
    is all the examples need; the theorems hold for any [log1p]. *)
Definition atanh_terms : list float :=
  map (fun k => 1 / of_Z (2 * Z.of_nat k + 1)) (seq 0 14).

Definition log_ref (y : float) : float :=
  let (m, e) := Z.frexp y in
  let (m, e) := if m <? 0.70710678118654757 then (m * 2, (e - 1)%Z) else (m, e) in
  let s := (m - 1) / (m + 1) in
  let t := s * s in
  2 * s * fold_right (fun c acc => c + t * acc) 0 atanh_terms
  + of_Z e * 0.69314718055994529.

Definition log1p_ref (x : float) : float :=
  if is_nan x then x
  else if x =? 0 then x
  else if x <? -1 then nan
  else if x =? -1 then neg_infinity
  else if x =? infinity then x
  else log_ref (1 + x).

End F64.

(* ================================================================= *)
(** ** Python values, exceptions and the method monad *)

(** Exceptions raised on the paths the service can take. *)
Inductive exn : Type :=
| FileNotFoundError
| UnpicklingError
| KeyError (key : string)
| TypeError
| AttributeError
| IndexError
| ValueError
| RuntimeError
| OverflowError.

(** Outcome of an expression: an exception or a value. *)
Definition result (A : Type) : Type := (exn + A)%type.
Definition Raise {A : Type} (e : exn) : result A := inl e.
Definition Ok {A : Type} (a : A) : result A := inr a.

Definition rbind {A B : Type} (r : result A) (k : A -> result B) : result B :=
  match r with
  | inl e => inl e
  | inr a => k a
  end.

(** Pairs each element of a sequence with its position, as
    [enumerate] and a default [RangeIndex] do. *)
Definition indexed {A : Type} (l : list A) : list (nat * A) :=
  combine (seq 0 (length l)) l.

(** Descending sort on a float key, not-a-number keys last; entries
    with equal keys are kept in their original order. *)
Section SortDesc.
Context {A : Type} (key : A -> float).

Fixpoint insert_desc (x : A) (l : list A) : list A :=
  match l with
  | [] => [x]
  | y :: l' =>
      if F64.fge (key x) (key y) then x :: l else y :: insert_desc x l'
  end.

Definition sort_desc (l : list A) : list A := fold_right insert_desc [] l.

(** [x] is ranked no lower than [y]. *)
Definition ranks (x y : A) : Prop := F64.fge (key x) (key y) = true.

(** The [n] best entries, best first, entries whose key is NaN filling
    up after all the others; nothing for [n <= 0].  This is the
    selection of rapidfuzz, which orders equal scores by position, and
    of [DataFrame.nlargest(n, column)] ([keep='first']).  pandas
    promises the order of rows with equal keys only while [n] is below
    the number of rows; how many rows are selected, that they come
    best first and that none left out ranks higher does not depend on
    it. *)
Definition nlargest (n : Z) (l : list A) : list A :=
  firstn (Z.to_nat n) (sort_desc l).
End SortDesc.

(* ================================================================= *)
(** ** rapidfuzz: [fuzz.ratio], [process.extract], [process.extractOne] *)

Module Fuzz.

Local Open Scope float_scope.

(** One row of the longest-common-subsequence table: [prev] is the row
    above (columns 1..n), [diag] and [left] the neighbouring cells. *)
Fixpoint lcs_row (c : ascii) (s2 : list ascii) (prev : list nat)
         (diag left : nat) : list nat :=
  match s2, prev with
  | b :: s2', up :: prev' =>
      let v := if Ascii.eqb c b then S diag else Nat.max up left in
      v :: lcs_row c s2' prev' up v
  | _, _ => []
  end.

(** Length of a longest common subsequence of two strings. *)
Definition lcs (s1 s2 : list ascii) : nat :=
  last (fold_left (fun row c => lcs_row c s2 row 0%nat 0%nat) s1
                  (repeat 0%nat (length s2)))
       0%nat.

(** Insertion/deletion distance between two strings. *)
Definition indel_distance (s1 s2 : list ascii) : nat :=
  (length s1 + length s2 - 2 * lcs s1 s2)%nat.

(** [fuzz.ratio(s1, s2)]: the normalized Indel similarity scaled to
    0..100, computed in double precision as the library does:
    [(1 - dist / (len1 + len2)) * 100], the normalized distance being 0
    when both strings are empty.  No preprocessing of the strings
    (the default [processor=None]). *)
Definition ratio (s1 s2 : string) : float :=
  let a := list_ascii_of_string s1 in
  let b := list_ascii_of_string s2 in
  let maximum := (length a + length b)%nat in
  let dist := indel_distance a b in
  let norm_dist :=
    if Nat.eqb maximum 0 then 0
    else F64.of_Z (Z.of_nat dist) / F64.of_Z (Z.of_nat maximum) in
  (1 - norm_dist) * 100.

(** A match: the choice, its score and its position among the choices. *)
Definition match_t : Type := (string * float * nat)%type.
Definition match_score (m : match_t) : float := snd (fst m).

(** Every choice with its score, in order of the choices. *)
Definition score_all (query : string) (choices : list string) : list match_t :=
  map (fun '(i, c) => (c, ratio query c, i)) (indexed choices).

(** The [limit] best matches, best first, equal scores in order of the
    choices. *)
Definition top_matches (query : string) (choices : list string) (limit : Z)
  : list match_t :=
  nlargest match_score limit (score_all query choices).

(** [process.extract(query, choices, scorer=fuzz.ratio, limit=limit)]
    for an integer [limit]: the [limit] best matches, a limit above the
    number of choices being lowered to it.  A negative [limit] makes
    the library resize its result vector to a size that cannot be
    allocated, which surfaces as a [RuntimeError]; one that does not
    even fit the library's 64-bit counter is refused with an
    [OverflowError]. *)
Definition extract (query : string) (choices : list string) (limit : Z)
  : result (list match_t) :=
  if (limit <? - 2 ^ 63)%Z then Raise OverflowError
  else if (limit <? 0)%Z then Raise RuntimeError
  else Ok (top_matches query choices limit).

(** One step of the scan of [process.extractOne]: a later choice
    replaces the current best only with a strictly higher score. *)
Definition better (best : option match_t) (m : match_t) : option match_t :=
  match best with
  | None => if 0 <=? match_score m then Some m else None
  | Some b => if match_score b <? match_score m then Some m else best
  end.

(** [process.extractOne(query, choices, scorer=fuzz.ratio)]: the first
    choice with the highest score, [None] when there is no choice.  (The
    library stops scanning at a score of 100, which cannot change the
    answer.) *)
Definition extractOne (query : string) (choices : list string)
  : option match_t :=
  fold_left better (score_all query choices) None.

End Fuzz.

(* ================================================================= *)
(** ** scikit-learn: [cosine_similarity] *)

Module Sklearn.

Local Open Scope float_scope.

Definition dot (x y : list float) : float :=
  fold_left (fun acc p => acc + fst p * snd p) (combine x y) 0.

(** Euclidean norm of a row, a zero norm being replaced by 1 as
    [normalize] does. *)
Definition row_norm (x : list float) : float :=
  let n := PrimFloat.sqrt (dot x x) in
  if n =? 0 then 1 else n.

Definition normalize (x : list float) : list float :=
  let n := row_norm x in map (fun v => v / n) x.

(** Entry [j] of [cosine_similarity(x.reshape(1, -1), Y)[0]] is
    [cosine_similarity x (Y[j])]: the dot product of the two normalized
    rows (summed left to right). *)
Definition cosine_similarity (x y : list float) : float :=
  dot (normalize x) (normalize y).

(** A row of [width] finite numbers. *)
Definition finite_row (width : nat) (y : list float) : bool :=
  Nat.eqb (length y) width && forallb is_finite y.

(** The input validation [cosine_similarity] starts with
    ([check_pairwise_arrays]): [x] must have at least one feature,
    every row of [Y] must have as many, and no entry of either may be
    NaN or infinite; otherwise [ValueError] is raised. *)
Definition check_pairwise_arrays (x : list float) (Y : list (list float))
  : bool :=
  (1 <=? length x)%nat && forallb is_finite x &&
  forallb (finite_row (length x)) Y.

End Sklearn.

(* ================================================================= *)
(** ** Data model *)

(** A row of the catalog dataframe. *)
Module Movie.
Record t : Type := mk {
  title : string;
  vote_average : float;
  vote_count : Z;
  overview : string;
  genres : string
}.
End Movie.

(** An entry of the list returned by [search_movie]. *)
Module SearchResult.
Record t : Type := mk {
  title : string;
  match_score : float;
  rating : float;
  votes : Z
}.
End SearchResult.

(** An entry of the ['recommendations'] list. *)
Module Recommendation.
Record t : Type := mk {
  title : string;
  rating : float;
  votes : Z;
  similarity : float;
  score : float
}.
End Recommendation.

(** The dictionary returned by [get_movie_details]. *)
Module MovieDetails.
Record t : Type := mk {
  title : string;
  rating : float;
  votes : Z;
  overview : string;
  genres : string
}.
End MovieDetails.

(** The dictionary returned by [get_recommendations]: either the keys
    ['error'] and ['suggestions'], or ['input_movie'],
    ['total_recommendations'] and ['recommendations']. *)
Inductive RecommendationResult : Type :=
| NotFound (error : string) (suggestions : list SearchResult.t)
| Recommendations (input_movie : string) (total_recommendations : nat)
                  (recommendations : list Recommendation.t).

(** The dataframe (rows in index order, default [RangeIndex]), the
    embedding matrix (one row per movie) and the flat list of titles. *)
Definition DataFrame : Type := list Movie.t.
Definition Matrix : Type := list (list float).

(** The unpickled dictionary, seen through the three keys the service
    reads; [None] stands for a missing key. *)
Record Bundle : Type := mkBundle {
  dataframe : option DataFrame;
  embeddings : option Matrix;
  movie_titles : option (list string)
}.

(** The attributes of a [RecommendationService] instance. *)
Record RecommendationService : Type := mkService {
  model_path : string;
  _model : option Bundle;
  _df : option DataFrame;
  _embeddings : option Matrix;
  _movie_titles : option (list string)
}.

(** [RecommendationService(model_path)]: nothing is loaded yet. *)
Definition __init__ (model_path : string) : RecommendationService :=
  mkService model_path None None None None.

(** What the service needs from its platform: the file system seen by
    [open(path, 'rb')] ([None]: no such file), [pickle.load] on the
    bytes read, and [numpy.log1p] on a float. *)
Record Env : Type := mkEnv {
  open_rb : string -> option (list Byte.byte);
  pickle_load : list Byte.byte -> result Bundle;
  log1p : float -> float
}.

(** A loaded service whose three collections are index-aligned: the
    title list is the title column of the dataframe, there is one
    embedding per row, the embeddings form a matrix of finite numbers
    with at least one column, and the vote counts are 64-bit integers,
    as the entries of an [int64] column are. *)
Definition aligned (self : RecommendationService) : Prop :=
  exists m df emb width,
    _model self = Some m /\ _df self = Some df /\
    _embeddings self = Some emb /\
    _movie_titles self = Some (map Movie.title df) /\
    length emb = length df /\
    (1 <= width)%nat /\
    forallb (Sklearn.finite_row width) emb = true /\
    Forall (fun m => (- 2 ^ 63 <= Movie.vote_count m < 2 ^ 63)%Z) df.

(** A method: it may update the attributes of [self] and it returns a
    value or raises. *)
Definition M (A : Type) : Type :=
  RecommendationService -> result A * RecommendationService.

Definition ret {A : Type} (a : A) : M A := fun self => (Ok a, self).
Definition raise {A : Type} (e : exn) : M A := fun self => (Raise e, self).
Definition lift {A : Type} (r : result A) : M A := fun self => (r, self).

Definition bind {A B : Type} (m : M A) (k : A -> M B) : M B :=
  fun self =>
    match m self with
    | (inl e, self') => (inl e, self')
    | (inr a, self') => k a self'
    end.

Declare Scope method_scope.
Delimit Scope method_scope with method.
Notation "x <- m ;; k" := (bind m (fun x => k))
  (at level 61, m at next level, right associativity) : method_scope.
Notation "m ;; k" := (bind m (fun _ => k))
  (at level 61, right associativity) : method_scope.

(** Reading an attribute that is still [None] and using it raises. *)
Definition attr {A : Type} (f : RecommendationService -> option A) : M A :=
  fun self =>
    match f self with
    | Some v => (Ok v, self)
    | None => (Raise TypeError, self)
    end.

(* ================================================================= *)
(** ** The service *)

Section Service.

Variable env : Env.

Local Open Scope method_scope.
Local Open Scope string_scope.

Definition set_model (m : Bundle) : M unit := fun self =>
  (Ok tt, mkService (model_path self) (Some m) (_df self)
                    (_embeddings self) (_movie_titles self)).

Definition set_df (df : DataFrame) : M unit := fun self =>
  (Ok tt, mkService (model_path self) (_model self) (Some df)
                    (_embeddings self) (_movie_titles self)).

Definition set_embeddings (e : Matrix) : M unit := fun self =>
  (Ok tt, mkService (model_path self) (_model self) (_df self)
                    (Some e) (_movie_titles self)).

Definition set_movie_titles (t : list string) : M unit := fun self =>
  (Ok tt, mkService (model_path self) (_model self) (_df self)
                    (_embeddings self) (Some t)).

(** [self._model[key]] *)
Definition getitem {A : Type} (key : string) (v : option A) : M A :=
  match v with
  | Some a => ret a
  | None => raise (KeyError key)
  end.

(** [_load_model]: open the file, unpickle it, read the three keys.
    Both [except] clauses log and re-raise, so every exception
    propagates unchanged; attributes assigned before it stay assigned. *)
Definition _load_model : M unit :=
  path <- (fun self => (Ok (model_path self), self)) ;;
  f <- match open_rb env path with
       | Some f => ret f
       | None => raise FileNotFoundError
       end ;;
  m <- lift (pickle_load env f) ;;
  set_model m ;;
  df <- getitem "dataframe" (dataframe m) ;;
  set_df df ;;
  e <- getitem "embeddings" (embeddings m) ;;
  set_embeddings e ;;
  t <- getitem "movie_titles" (movie_titles m) ;;
  set_movie_titles t.

(** The [model] property: load on first use, then return [self._model]. *)
Definition model : M (option Bundle) := fun self =>
  match _model self with
  | None => (_load_model ;; (fun self' => (Ok (_model self'), self'))) self
  | Some m => (Ok (Some m), self)
  end.

(** The loop of [search_movie] over the matches: each match is looked
    up in the dataframe by position ([iloc]).  The score is a Python
    float; the rating read off the row is a [numpy.float64], which
    [round] hands to NumPy. *)
Fixpoint search_results (df : option DataFrame) (matches : list Fuzz.match_t)
  : result (list SearchResult.t) :=
  match matches with
  | [] => Ok []
  | (_, score, idx) :: rest =>
      match df with
      | None => Raise AttributeError
      | Some rows =>
          match nth_error rows idx with
          | None => Raise IndexError
          | Some movie =>
              rbind (search_results df rest) (fun results =>
                Ok (SearchResult.mk (Movie.title movie)
                                    (F64.round score 1)
                                    (F64.np_round (Movie.vote_average movie) 1)
                                    (Movie.vote_count movie)
                    :: results))
          end
      end
  end.

(** How an entry of the search result is read off a match. *)
Definition entry_of (rows : DataFrame) (m : Fuzz.match_t)
           (r : SearchResult.t) : Prop :=
  exists movie,
    nth_error rows (snd m) = Some movie /\
    r = SearchResult.mk (Movie.title movie)
                        (F64.round (Fuzz.match_score m) 1)
                        (F64.np_round (Movie.vote_average movie) 1)
                        (Movie.vote_count movie).

Definition search_movie (query : string) (limit : Z)
  : M (list SearchResult.t) :=
  model ;;
  titles <- attr _movie_titles ;;
  matches <- lift (Fuzz.extract query titles limit) ;;
  fun self => (search_results (_df self) matches, self).

Definition find_movie (title : string) (threshold : Z) : M (option string) :=
  model ;;
  titles <- attr _movie_titles ;;
  ret match Fuzz.extractOne title titles with
      | Some (choice, score, _) =>
          if F64.int_le_float threshold score then Some choice else None
      | None => None
      end.

(** Python truth value of an [Optional[str]]: [None] and the empty
    string are false. *)
Definition truthy (s : option string) : bool :=
  match s with
  | Some t => negb (String.eqb t "")
  | None => false
  end.

(** [df[df['title'] == t]]: the rows with that title, with their index. *)
Definition rows_titled (df : DataFrame) (t : string) : list (nat * Movie.t) :=
  filter (fun r => String.eqb (Movie.title (snd r)) t) (indexed df).

(** A row of the working dataframe [df_work]. *)
Record WorkRow : Type := mkWorkRow {
  index : nat;
  movie : Movie.t;
  similarity : float;
  quality_score : float;
  final_score : float
}.

(** [df['vote_count'].max()] (the frame is not empty where it is used). *)
Definition vote_count_max (df : DataFrame) : Z :=
  match df with
  | [] => 0
  | m :: rest =>
      fold_left (fun acc r => Z.max acc (Movie.vote_count r)) rest
                (Movie.vote_count m)
  end.

Definition quality (m : Movie.t) (vmax : Z) : float :=
  ((Movie.vote_average m / 10) * 0.7 +
   (log1p env (F64.of_Z (Movie.vote_count m)) / log1p env (F64.of_Z vmax)) * 0.3)%float.

Definition final (sim q : float) : float := (sim * 0.6 + q * 0.4)%float.

(** The working dataframe: a copy of the catalog with the three computed
    columns.  Assigning a column of another length raises. *)
Definition work_frame (df : DataFrame) (similarities : list float)
  : result (list WorkRow) :=
  if Nat.eqb (length similarities) (length df) then
    let vmax := vote_count_max df in
    Ok (map (fun r =>
               let '((i, m), sim) := r in
               let q := quality m vmax in
               mkWorkRow i m sim q (final sim q))
            (combine (indexed df) similarities))
  else Raise ValueError.

(** The row that the working frame holds for catalog row [i]. *)
Definition work_row (df : DataFrame) (i : nat) (m : Movie.t) (sim : float)
  : WorkRow :=
  let q := quality m (vote_count_max df) in
  mkWorkRow i m sim q (final sim q).

(** The boolean mask of the filter step. *)
Definition keep (min_votes : Z) (min_rating : float) (movie_idx : nat)
           (r : WorkRow) : bool :=
  (min_votes <=? Movie.vote_count (movie r))%Z &&
  (min_rating <=? Movie.vote_average (movie r))%float &&
  negb (Nat.eqb (index r) movie_idx).

(** An entry of the result list; [iterrows] hands out Python floats, so
    the three [round] calls are Python's. *)
Definition format_row (r : WorkRow) : Recommendation.t :=
  Recommendation.mk (Movie.title (movie r))
                    (F64.round (Movie.vote_average (movie r)) 1)
                    (Movie.vote_count (movie r))
                    (F64.round (similarity r) 3)
                    (F64.round (final_score r) 3).

(** The rows selected by [get_recommendations] once the title is
    resolved, before they are formatted: the frame [recommendations]. *)
Definition recommended_rows (matched_title : string) (top_n min_votes : Z)
           (min_rating : float) : M (list WorkRow) :=
  df <- attr _df ;;
  movie_idx <- lift match rows_titled df matched_title with
                    | [] => Raise IndexError
                    | (i, _) :: _ => Ok i
                    end ;;
  emb <- attr _embeddings ;;
  movie_embedding <- lift match nth_error emb movie_idx with
                          | Some v => Ok v
                          | None => Raise IndexError
                          end ;;
  similarities <- lift (if Sklearn.check_pairwise_arrays movie_embedding emb
                        then Ok (map (Sklearn.cosine_similarity movie_embedding)
                                     emb)
                        else Raise ValueError) ;;
  df_work <- lift (work_frame df similarities) ;;
  let filtered := filter (keep min_votes min_rating movie_idx) df_work in
  ret (nlargest final_score top_n filtered).

Definition get_recommendations (movie_name : string) (top_n min_votes : Z)
           (min_rating : float) : M RecommendationResult :=
  model ;;
  matched_title <- find_movie movie_name 60 ;;
  match matched_title with
  | Some t =>
      if truthy matched_title then
        recommendations <- recommended_rows t top_n min_votes min_rating ;;
        let results := map format_row recommendations in
        ret (Recommendations t (length results) results)
      else
        suggestions <- search_movie movie_name 3 ;;
        ret (NotFound ("Movie '" ++ movie_name ++ "' not found") suggestions)
  | None =>
      suggestions <- search_movie movie_name 3 ;;
      ret (NotFound ("Movie '" ++ movie_name ++ "' not found") suggestions)
  end.

Definition get_movie_details (title : string) : M (option MovieDetails.t) :=
  model ;;
  matched_title <- find_movie title 60 ;;
  match matched_title with
  | Some t =>
      if truthy matched_title then
        df <- attr _df ;;
        match rows_titled df t with
        | [] => raise IndexError
        | (_, movie) :: _ =>
            ret (Some (MovieDetails.mk (Movie.title movie)
                                       (F64.np_round (Movie.vote_average movie) 1)
                                       (Movie.vote_count movie)
                                       (Movie.overview movie)
                                       (Movie.genres movie)))
        end
      else ret None
  | None => ret None
  end.

End Service.

(* ================================================================= *)
(** ** Request validation: [schemas/recommendation.py] *)

Module RecommendationRequest.

(** The validated body of [POST /recommend]. *)
Record t : Type := mk {
  title : string;
  top_n : Z;
  min_votes : Z;
  min_rating : float
}.

(** The characters [str.strip()] removes, those for which
    [str.isspace] holds, among the code points 0..255 that a character
    of a [string] stands for: the controls 9..13 and 28..31, the space,
    NEXT LINE (U+0085) and NO-BREAK SPACE (U+00A0). *)
Definition is_space (c : ascii) : bool :=
  let n := nat_of_ascii c in
  ((9 <=? n) && (n <=? 13) || (28 <=? n) && (n <=? 32)
   || (n =? 133) || (n =? 160))%nat.

Fixpoint lstrip (s : string) : string :=
  match s with
  | EmptyString => EmptyString
  | String c s' => if is_space c then lstrip s' else s
  end.

Fixpoint rstrip (s : string) : string :=
  match s with
  | EmptyString => EmptyString
  | String c s' =>
      match rstrip s' with
      | EmptyString => if is_space c then EmptyString else String c EmptyString
      | r => String c r
      end
  end.

(** [v.strip()] *)
Definition strip (s : string) : string := rstrip (lstrip s).

(** The validator [clean_title]. *)
Definition clean_title (v : string) : string := strip v.

(** Validation of a request body whose fields have the right types: the
    [Field] constraints first, then the validator of [title]; absent
    optional fields take their defaults.  [None]: the body is rejected. *)
Definition validate (title : string) (top_n min_votes : option Z)
           (min_rating : option float) : option t :=
  let top_n := match top_n with Some n => n | None => 10%Z end in
  let min_votes := match min_votes with Some n => n | None => 50%Z end in
  let min_rating := match min_rating with Some r => r | None => 6.0%float end in
  if ((1 <=? String.length title) && (String.length title <=? 200))%nat
     && ((1 <=? top_n) && (top_n <=? 50))%Z
     && (0 <=? min_votes)%Z
     && ((0 <=? min_rating) && (min_rating <=? 10))%float
  then Some (mk (clean_title title) top_n min_votes min_rating)
  else None.

End RecommendationRequest.

(* ================================================================= *)
(** ** The HTTP layer: the endpoint functions of [app.py] *)

(** The [detail] of an [HTTPException]: a text, the dictionary with
    ['error'] and ['suggestions'], or [str(e)] of a caught exception. *)
Inductive detail : Type :=
| Text (message : string)
| Suggest (error : string) (suggestions : list SearchResult.t)
| Str (e : exn).

(** What an endpoint function does: it returns a body (status 200) or
    raises an [HTTPException]. *)
Inductive response (A : Type) : Type :=
| Returned (body : A)
| HTTPException (status_code : Z) (d : detail).
Arguments Returned {A} body.
Arguments HTTPException {A} status_code d.

(** The body of [GET /search]. *)
Module SearchResponse.
Record t : Type := mk {
  query : string;
  total_results : nat;
  results : list SearchResult.t
}.
End SearchResponse.

(** The answer of [GET /health]: the dictionary with ['status'] =
    ['healthy'] and ['total_movies'], or the 503 response with
    ['status'] = ['unhealthy'] and ['error'] = [str(e)]. *)
Inductive health : Type :=
| Healthy (total_movies : nat)
| Unhealthy (e : exn).

(** An endpoint runs against the module-level [service]. *)
Definition Endpoint (A : Type) : Type :=
  RecommendationService -> response A * RecommendationService.

Section App.

Variable env : Env.

Local Open Scope string_scope.

(** [POST /recommend] on a validated request. *)
Definition recommend (req : RecommendationRequest.t)
  : Endpoint RecommendationResult :=
  fun service =>
    match get_recommendations env (RecommendationRequest.title req)
                              (RecommendationRequest.top_n req)
                              (RecommendationRequest.min_votes req)
                              (RecommendationRequest.min_rating req)
                              service with
    | (inr (NotFound error suggestions), service') =>
        (HTTPException 404 (Suggest error suggestions), service')
    | (inr result, service') => (Returned result, service')
    | (inl e, service') => (HTTPException 500 (Str e), service')
    end.

(** [GET /search] *)
Definition search (query : string) (limit : Z)
  : Endpoint SearchResponse.t :=
  fun service =>
    if (String.length query <? 2)%nat then
      (HTTPException 400 (Text "Query must be at least 2 characters"), service)
    else
      let limit := if (20 <? limit)%Z then 20%Z else limit in
      match search_movie env query limit service with
      | (inr results, service') =>
          (Returned (SearchResponse.mk query (length results) results),
           service')
      | (inl e, service') => (HTTPException 500 (Str e), service')
      end.

(** [GET /movie/{title}] *)
Definition get_movie (title : string) : Endpoint MovieDetails.t :=
  fun service =>
    match get_movie_details env title service with
    | (inr (Some details), service') => (Returned details, service')
    | (inr None, service') =>
        (HTTPException 404 (Text ("Movie '" ++ title ++ "' not found")),
         service')
    | (inl e, service') => (HTTPException 500 (Str e), service')
    end.

(** [GET /health] *)
Definition health_check (service : RecommendationService)
  : health * RecommendationService :=
  match model env service with
  | (inr _, service') =>
      match _df service' with
      | Some df => (Healthy (length df), service')
      | None => (Unhealthy TypeError, service')
      end
  | (inl e, service') => (Unhealthy e, service')
  end.

End App.

(* ================================================================= *)
(** ** The scoring formulas in the words of the specification *)

Module Spec.

Local Open Scope float_scope.

(** [quality = 0.7 * (rating / 10)
             + 0.3 * (log1p(voteCount) / log1p(maxVoteCountAcrossCatalog))] *)
Definition quality (log1p : float -> float) (rating : float)
           (voteCount maxVoteCountAcrossCatalog : Z) : float :=
  0.7 * (rating / 10) +
  0.3 * (log1p (F64.of_Z voteCount) / log1p (F64.of_Z maxVoteCountAcrossCatalog)).

(** [finalScore = 0.6 * similarity + 0.4 * quality] *)
Definition finalScore (similarity quality : float) : float :=
  0.6 * similarity + 0.4 * quality.

End Spec.

(* ================================================================= *)
(** ** Concrete catalogs and platforms for running the service *)

Module Examples.

Local Open Scope string_scope.
Local Open Scope float_scope.

Definition default_path : string := "./model/movie_recommender_model.pkl".

(** The bytes of the one file of the example file system. *)
Definition pickled : list Byte.byte := [Byte.x80; Byte.x04].

(** A platform whose only file, at the default path, unpickles to [b]. *)
Definition env_of (b : Bundle) : Env :=
  mkEnv (fun path => if String.eqb path default_path then Some pickled else None)
        (fun bytes =>
           match bytes with
           | [Byte.x80; Byte.x04] => Ok b
           | _ => Raise UnpicklingError
           end)
        F64.log1p_ref.

(** A catalog bundle whose title list is read off the dataframe. *)
Definition bundle_of (df : DataFrame) (emb : Matrix) : Bundle :=
  mkBundle (Some df) (Some emb) (Some (map Movie.title df)).

(** A freshly constructed service: nothing loaded yet. *)
Definition fresh : RecommendationService := __init__ default_path.

(** The service after its first successful use on that platform. *)
Definition loaded (b : Bundle) : RecommendationService :=
  snd (model (env_of b) fresh).

(** The ['recommendations'] entry of a returned dictionary. *)
Definition recommendations_of (r : result RecommendationResult)
  : list Recommendation.t :=
  match r with
  | inr (Recommendations _ _ recs) => recs
  | _ => []
  end.

Definition iron_man : DataFrame :=
  [ Movie.mk "Iron Man" 7.6 12000 "A billionaire builds a suit." "Action";
    Movie.mk "Iron Man 2" 6.8 9000 "The suit returns." "Action";
    Movie.mk "Iron Man 3" 6.9 8806 "The suit returns again." "Action";
    Movie.mk "The Matrix" 8.1 9500 "A hacker learns the truth." "Science Fiction" ].

Definition iron_man_embeddings : Matrix :=
  [ [1; 0; 0.1]; [0.9; 0.1; 0.1]; [0.8; 0.2; 0.1]; [0; 1; 0.5] ].

Definition iron_man_bundle : Bundle := bundle_of iron_man iron_man_embeddings.

(** A catalog with a rating that rounds down. *)
Definition heat_ronin : Bundle :=
  bundle_of [ Movie.mk "Heat" 8.2 100 "" ""; Movie.mk "Ronin" 6.04 100 "" "" ]
            [ [1; 0]; [0.8; 0.6] ].

(** A catalog in which two rows carry the same title. *)
Definition heat_twice : Bundle :=
  bundle_of [ Movie.mk "Heat" 8.2 100 "" ""; Movie.mk "Heat" 6.5 80 "" "";
              Movie.mk "Ronin" 7.0 90 "" "" ]
            [ [1; 0]; [0; 1]; [0.8; 0.6] ].

(** A catalog in which no movie has any vote. *)
Definition no_votes : Bundle :=
  bundle_of [ Movie.mk "Heat" 8.2 0 "" ""; Movie.mk "Ronin" 7.0 0 "" "" ]
            [ [1; 0]; [0.8; 0.6] ].

(** A bundle whose three collections have lengths 2, 1 and 3. *)
Definition misaligned : Bundle :=
  mkBundle (Some [ Movie.mk "Heat" 8.2 100 "" ""; Movie.mk "Ronin" 7.0 90 "" "" ])
           (Some [ [1; 0] ])
           (Some [ "Heat"; "Ronin"; "Alien" ]).

(** A catalog with one title, for the threshold of [find_movie]. *)
Definition ghost : Bundle :=
  bundle_of [ Movie.mk "Ghost" 7.1 5000 "" "" ] [ [1; 0] ].

End Examples.

(* ================================================================= *)
(** ** The invariant of the scan of [process.extractOne] *)

(** [best] is what the scan holds after the matches [seen]: nothing, if
    no score seen reaches 0; otherwise a match of [seen] that no earlier
    match equals or beats and that no later match beats. *)
Definition best_so_far (seen : list Fuzz.match_t)
           (best : option Fuzz.match_t) : Prop :=
  match best with
  | None =>
      Forall (fun x => (0 <=? Fuzz.match_score x)%float = false) seen
  | Some b =>
      (0 <=? Fuzz.match_score b)%float = true /\
      exists before after,
        seen = before ++ b :: after /\
        Forall (fun x => (Fuzz.match_score b <=? Fuzz.match_score x)%float
                         = false) before /\
        Forall (fun x => (Fuzz.match_score b <? Fuzz.match_score x)%float
                         = false) after
  end.

(* ================================================================= *)
(** ** More platforms and requests for running the service *)

Module Scenarios.

Import Examples.
Local Open Scope string_scope.
Local Open Scope float_scope.

(** A bundle in which the key ['embeddings'] is missing. *)
Definition no_embeddings : Bundle :=
  mkBundle (Some iron_man) None (Some (map Movie.title iron_man)).

(** A platform without any file. *)
Definition no_file : Env :=
  mkEnv (fun _ => None) (fun _ => Raise UnpicklingError) F64.log1p_ref.

(** A catalog whose ratings end in a 5 at the second decimal. *)
Definition half_ratings : Bundle :=
  bundle_of [ Movie.mk "Heat" 6.35 100 "" ""; Movie.mk "Ronin" 7.45 90 "" "" ]
            [ [1; 0]; [0.8; 0.6] ].

(** The Iron Man service after its first use. *)
Definition iron_man_service : RecommendationService := loaded iron_man_bundle.

(** The service left behind by a first use that failed on the missing
    key. *)
Definition half_loaded : RecommendationService :=
  snd (model (env_of no_embeddings) fresh).

End Scenarios.

(* ================================================================= *)
(** * Properties *)

(** ** Facts about binary64 comparison and arithmetic *)

Module F64Facts.

Import F64.
Local Open Scope float_scope.

Lemma SFcompare_refl (x : spec_float) :
  SFcompare x x = if SFnan x then None else Some Eq.
Proof.
  destruct x as [s | s | | s m e]; simpl; try reflexivity.
  - destruct s; reflexivity.
  - rewrite Z.compare_refl.
    change (Pos.compare_cont Eq m m) with (Pos.compare m m).
    rewrite Pos.compare_refl. destruct s; reflexivity.
Qed.

Lemma SFcompare_antisym (x y : spec_float) :
  SFcompare y x = option_map CompOpp (SFcompare x y).
Proof.
  destruct x as [s1 | s1 | | s1 m1 e1], y as [s2 | s2 | | s2 m2 e2];
    simpl; try reflexivity;
    try (destruct s1; reflexivity); try (destruct s2; reflexivity);
    try (destruct s1, s2; reflexivity).
  change (Pos.compare_cont Eq m1 m2) with (Pos.compare m1 m2).
  change (Pos.compare_cont Eq m2 m1) with (Pos.compare m2 m1).
  rewrite (Z.compare_antisym e1 e2), (Pos.compare_antisym m1 m2).
  destruct s1, s2; simpl; try reflexivity;
    destruct (e1 ?= e2)%Z; simpl; try reflexivity;
    destruct (m1 ?= m2)%positive; reflexivity.
Qed.

Lemma SFcompare_key (x y : spec_float) :
  SFnan x = false -> SFnan y = false ->
  SFcompare x y = Some (lex3 (SFkey x) (SFkey y)).
Proof.
  destruct x as [s1 | s1 | | s1 m1 e1], y as [s2 | s2 | | s2 m2 e2];
    simpl; intros Hx Hy; try discriminate;
    try (destruct s1; reflexivity); try (destruct s2; reflexivity);
    try (destruct s1, s2; reflexivity).
  change (Pos.compare_cont Eq m1 m2) with (Pos.compare m1 m2).
  destruct s1, s2; unfold lex3; simpl; try reflexivity.
  rewrite Z.compare_opp, (Z.compare_antisym e1 e2).
  destruct (e1 ?= e2)%Z; reflexivity.
Qed.

Lemma lex3_le_trans (a b c : Z * (Z * Z)) :
  lex3 a b <> Gt -> lex3 b c <> Gt -> lex3 a c <> Gt.
Proof.
  destruct a as [a1 [a2 a3]], b as [b1 [b2 b3]], c as [c1 [c2 c3]].
  unfold lex3; simpl.
  destruct (Z.compare_spec a1 b1), (Z.compare_spec b1 c1),
    (Z.compare_spec a1 c1); try lia; try congruence;
  destruct (Z.compare_spec a2 b2), (Z.compare_spec b2 c2),
    (Z.compare_spec a2 c2); try lia; try congruence;
  destruct (Z.compare_spec a3 b3), (Z.compare_spec b3 c3),
    (Z.compare_spec a3 c3); try lia; congruence.
Qed.

Lemma lex3_total (a b : Z * (Z * Z)) : lex3 a b <> Gt \/ lex3 b a <> Gt.
Proof.
  destruct a as [a1 [a2 a3]], b as [b1 [b2 b3]].
  unfold lex3; simpl.
  destruct (Z.compare_spec a1 b1), (Z.compare_spec b1 a1); try lia;
    try (left; congruence); try (right; congruence);
  destruct (Z.compare_spec a2 b2), (Z.compare_spec b2 a2); try lia;
    try (left; congruence); try (right; congruence);
  destruct (Z.compare_spec a3 b3), (Z.compare_spec b3 a3); try lia;
    try (left; congruence); try (right; congruence).
Qed.

Lemma SFleb_key (x y : spec_float) :
  SFleb x y = true <->
  SFnan x = false /\ SFnan y = false /\ lex3 (SFkey x) (SFkey y) <> Gt.
Proof.
  unfold SFleb. split.
  - intros H.
    assert (Hx : SFnan x = false).
    { destruct x; try reflexivity. simpl in H. discriminate. }
    assert (Hy : SFnan y = false).
    { destruct y; try reflexivity. destruct x; simpl in H; discriminate. }
    rewrite (SFcompare_key _ _ Hx Hy) in H.
    repeat split; try assumption.
    intros E; rewrite E in H; discriminate.
  - intros (Hx & Hy & H). rewrite (SFcompare_key _ _ Hx Hy).
    destruct (lex3 (SFkey x) (SFkey y)); congruence.
Qed.

Lemma is_nan_spec (x : float) : is_nan x = SFnan (Prim2SF x).
Proof.
  unfold is_nan. rewrite eqb_spec. unfold SFeqb.
  rewrite SFcompare_refl. destruct (SFnan (Prim2SF x)); reflexivity.
Qed.

Lemma leb_not_nan (x y : float) :
  (x <=? y) = true -> is_nan x = false /\ is_nan y = false.
Proof.
  rewrite leb_spec, !is_nan_spec, SFleb_key. tauto.
Qed.

Lemma leb_trans (x y z : float) :
  (x <=? y) = true -> (y <=? z) = true -> (x <=? z) = true.
Proof.
  rewrite !leb_spec, !SFleb_key.
  intros (Hx & Hy & H1) (_ & Hz & H2). repeat split; try assumption.
  eapply lex3_le_trans; eassumption.
Qed.

Lemma leb_total (x y : float) :
  is_nan x = false -> is_nan y = false ->
  (x <=? y) = true \/ (y <=? x) = true.
Proof.
  rewrite !is_nan_spec, !leb_spec, !SFleb_key. intros Hx Hy.
  destruct (lex3_total (SFkey (Prim2SF x)) (SFkey (Prim2SF y))); tauto.
Qed.

Lemma leb_refl (x : float) : is_nan x = false -> (x <=? x) = true.
Proof.
  intros H. destruct (leb_total x x H H); assumption.
Qed.

(** A score strictly below the threshold is not at or above it. *)
Lemma ltb_not_leb (x y : float) : (x <? y) = true -> (y <=? x) = false.
Proof.
  rewrite ltb_spec, leb_spec. unfold SFltb, SFleb.
  rewrite (SFcompare_antisym (Prim2SF x) (Prim2SF y)).
  destruct (SFcompare (Prim2SF x) (Prim2SF y)) as [[ | | ] | ]; simpl; congruence.
Qed.

Lemma leb_false_ltb (x y : float) :
  is_nan x = false -> is_nan y = false ->
  (y <=? x) = false -> (x <? y) = true.
Proof.
  rewrite !is_nan_spec, ltb_spec, leb_spec. unfold SFltb, SFleb.
  intros Hx Hy. rewrite (SFcompare_antisym (Prim2SF x) (Prim2SF y)).
  rewrite (SFcompare_key _ _ Hx Hy).
  destruct (lex3 _ _); simpl; congruence.
Qed.

Lemma fge_refl (a : float) : fge a a = true.
Proof.
  unfold fge. destruct (is_nan a) eqn:E; [reflexivity | ].
  simpl. now apply leb_refl.
Qed.

Lemma fge_total (a b : float) : fge a b = true \/ fge b a = true.
Proof.
  unfold fge.
  destruct (is_nan a) eqn:Ea; [right; reflexivity | ].
  destruct (is_nan b) eqn:Eb; [left; reflexivity | ].
  simpl. destruct (leb_total a b Ea Eb); auto.
Qed.

Lemma fge_trans (a b c : float) :
  fge a b = true -> fge b c = true -> fge a c = true.
Proof.
  unfold fge. destruct (is_nan c) eqn:Ec; [reflexivity | ]. simpl.
  intros Hab Hbc.
  destruct (leb_not_nan _ _ Hbc) as [_ Hb]. rewrite Hb in Hab. simpl in Hab.
  eapply leb_trans; eassumption.
Qed.

(** Among values that are not NaN, [fge] is the usual [>=]. *)
Lemma fge_leb (a b : float) :
  is_nan b = false -> fge a b = (b <=? a).
Proof. unfold fge. now intros ->. Qed.

Lemma SFmul_comm (x y : spec_float) : SF64mul x y = SF64mul y x.
Proof.
  unfold SF64mul.
  destruct x as [s1 | s1 | | s1 m1 e1], y as [s2 | s2 | | s2 m2 e2];
    simpl; try reflexivity; try (now rewrite xorb_comm).
  now rewrite xorb_comm, Pos.mul_comm, Z.add_comm.
Qed.

Lemma SFadd_comm (x y : spec_float) : SF64add x y = SF64add y x.
Proof.
  unfold SF64add.
  destruct x as [s1 | s1 | | s1 m1 e1], y as [s2 | s2 | | s2 m2 e2];
    simpl; try reflexivity; try (destruct s1, s2; reflexivity).
  now rewrite (Z.min_comm e1 e2), Z.add_comm.
Qed.

Lemma mul_comm (x y : float) : x * y = y * x.
Proof. apply Prim2SF_inj. rewrite !mul_spec. apply SFmul_comm. Qed.

Lemma add_comm (x y : float) : x + y = y + x.
Proof. apply Prim2SF_inj. rewrite !add_spec. apply SFadd_comm. Qed.

(** Arithmetic with a NaN operand yields NaN. *)
Lemma mul_nan_l (x y : float) : is_nan x = true -> is_nan (x * y) = true.
Proof.
  rewrite !is_nan_spec, mul_spec.
  destruct (Prim2SF x); try discriminate. reflexivity.
Qed.

Lemma add_nan_r (x y : float) : is_nan y = true -> is_nan (x + y) = true.
Proof.
  rewrite !is_nan_spec, add_spec.
  destruct (Prim2SF y); try discriminate. destruct (Prim2SF x); reflexivity.
Qed.

Lemma add_nan_l (x y : float) : is_nan x = true -> is_nan (x + y) = true.
Proof. rewrite add_comm. apply add_nan_r. Qed.

(** Rounding as Python prints it. *)
Example round_one_decimal :
  F64.round 6.04 1 = 6 /\ F64.round 7.65 1 = 7.7 /\ F64.round 0.15 1 = 0.1.
Proof. repeat split; vm_compute; reflexivity. Qed.

Example round_three_decimals :
  F64.round 0.8925 3 = 0.892 /\ F64.round 0.76912 3 = 0.769.
Proof. repeat split; vm_compute; reflexivity. Qed.

(** Rounding as NumPy does it, where it differs from Python's. *)
Example np_round_one_decimal :
  F64.np_round 6.35 1 = 6.4 /\ F64.round 6.35 1 = 6.3 /\
  F64.np_round 7.45 1 = 7.4 /\ F64.round 7.45 1 = 7.5 /\
  F64.np_round 6.04 1 = 6 /\ F64.np_round 7.6 1 = 7.6.
Proof. repeat split; vm_compute; reflexivity. Qed.

(** Integers are converted without wrapping around. *)
Example of_Z_large :
  F64.of_Z (2 ^ 70) = 1180591620717411303424 /\
  F64.of_Z (2 ^ 53 + 1) = 9007199254740992 /\ F64.of_Z (-3) = -3.
Proof. repeat split; vm_compute; reflexivity. Qed.

(** Against an integer of at most 48 bits the comparison is the one of
    the floats. *)
Lemma int_le_float_small (z : Z) (x : float) :
  (Z.abs z < 2 ^ 48)%Z -> int_le_float z x = (of_Z z <=? x).
Proof.
  intros H. unfold int_le_float.
  destruct (Z.ltb_spec (Z.abs z) (2 ^ 48)) as [_ | Hge]; [reflexivity | lia].
Qed.

Lemma int_le_float_60 (x : float) : int_le_float 60 x = (60 <=? x).
Proof. reflexivity. Qed.

(** A threshold beyond every float value is never reached, and a score
    is compared with the exact threshold. *)
Example int_le_float_large :
  int_le_float (2 ^ 70) 100 = false /\
  int_le_float (2 ^ 53 + 1) 9007199254740992 = false /\
  int_le_float (2 ^ 53 + 1) 9007199254740994 = true /\
  int_le_float (- 2 ^ 70) 0 = true.
Proof. repeat split; vm_compute; reflexivity. Qed.

End F64Facts.

(** ** Facts about the stable descending sort and [nlargest] *)

Section SortFacts.

Context {A : Type} (key : A -> float).

Local Abbreviation ranks := (ranks key).

Lemma ranks_trans (x y z : A) : ranks x y -> ranks y z -> ranks x z.
Proof. unfold ranks. apply F64Facts.fge_trans. Qed.

Lemma insert_desc_perm (x : A) (l : list A) :
  Permutation (insert_desc key x l) (x :: l).
Proof.
  induction l as [ | y l IH]; simpl.
  - apply Permutation_refl.
  - destruct (F64.fge (key x) (key y)).
    + apply Permutation_refl.
    + eapply perm_trans; [apply perm_skip, IH | apply perm_swap].
Qed.

Lemma sort_desc_perm (l : list A) : Permutation (sort_desc key l) l.
Proof.
  induction l as [ | x l IH]; simpl.
  - apply perm_nil.
  - eapply perm_trans; [apply insert_desc_perm | apply perm_skip, IH].
Qed.

Lemma insert_desc_sorted (x : A) (l : list A) :
  StronglySorted ranks l -> StronglySorted ranks (insert_desc key x l).
Proof.
  induction 1 as [ | y l Hs IH Hy]; simpl.
  - constructor; constructor.
  - destruct (F64.fge (key x) (key y)) eqn:E.
    + constructor.
      * constructor; assumption.
      * constructor; [exact E | ].
        eapply Forall_impl; [ | exact Hy].
        intros z Hz. eapply ranks_trans; [exact E | exact Hz].
    + constructor; [exact IH | ].
      assert (Hyx : ranks y x).
      { destruct (F64Facts.fge_total (key x) (key y)) as [H | H];
          [congruence | exact H]. }
      eapply Permutation_Forall.
      * apply Permutation_sym, insert_desc_perm.
      * constructor; assumption.
Qed.

Lemma sort_desc_sorted (l : list A) : StronglySorted ranks (sort_desc key l).
Proof.
  induction l as [ | x l IH]; simpl.
  - constructor.
  - apply insert_desc_sorted, IH.
Qed.

Lemma sort_desc_length (l : list A) : length (sort_desc key l) = length l.
Proof. apply Permutation_length, sort_desc_perm. Qed.

Lemma StronglySorted_app_inv (R : A -> A -> Prop) (l1 l2 : list A) :
  StronglySorted R (l1 ++ l2) ->
  StronglySorted R l1 /\
  Forall (fun x => Forall (fun y => R x y) l2) l1.
Proof.
  induction l1 as [ | x l1 IH]; simpl; intros H.
  - split; constructor.
  - inversion H as [ | ? ? Hs Hx]; subst.
    destruct (IH Hs) as [H1 H2]. split.
    + constructor; [exact H1 | ].
      apply Forall_app in Hx. tauto.
    + constructor; [ | exact H2].
      apply Forall_app in Hx. tauto.
Qed.

Lemma nlargest_length (n : Z) (l : list A) :
  length (nlargest key n l) = Nat.min (Z.to_nat n) (length l).
Proof. unfold nlargest. now rewrite length_firstn, sort_desc_length. Qed.

Lemma nlargest_incl (n : Z) (l : list A) (x : A) :
  In x (nlargest key n l) -> In x l.
Proof.
  unfold nlargest. intros H.
  eapply Permutation_in; [apply sort_desc_perm | ].
  rewrite <- (firstn_skipn (Z.to_nat n)). apply in_or_app. now left.
Qed.

(** The selection is ordered best first, and whatever is left out ranks
    no higher than anything selected. *)
Lemma nlargest_top (n : Z) (l : list A) :
  exists rest,
    Permutation (nlargest key n l ++ rest) l /\
    StronglySorted ranks (nlargest key n l) /\
    Forall (fun x => Forall (fun y => ranks x y) rest) (nlargest key n l).
Proof.
  exists (skipn (Z.to_nat n) (sort_desc key l)). unfold nlargest.
  pose proof (sort_desc_sorted l) as Hs.
  rewrite <- (firstn_skipn (Z.to_nat n) (sort_desc key l)) in Hs.
  apply StronglySorted_app_inv in Hs. destruct Hs as [H1 H2].
  repeat split; try assumption.
  rewrite firstn_skipn. apply sort_desc_perm.
Qed.

(** With room for every candidate, every candidate is selected. *)
Lemma nlargest_all (n : Z) (l : list A) (x : A) :
  (length l <= Z.to_nat n)%nat -> In x l -> In x (nlargest key n l).
Proof.
  intros Hn Hx. unfold nlargest.
  rewrite firstn_all2 by now rewrite sort_desc_length.
  eapply Permutation_in; [apply Permutation_sym, sort_desc_perm | exact Hx].
Qed.

End SortFacts.

(** ** Positions in a sequence *)

Lemma nth_error_indexed {A : Type} (l : list A) (i : nat) :
  nth_error (indexed l) i = option_map (pair i) (nth_error l i).
Proof.
  unfold indexed.
  assert (H : forall (l : list A) s i,
             nth_error (combine (seq s (length l)) l) i =
             option_map (pair (s + i)%nat) (nth_error l i)).
  { clear. induction l as [ | x l IH]; intros s i; simpl.
    - now destruct i.
    - destruct i as [ | i]; simpl.
      + now rewrite Nat.add_0_r.
      + rewrite IH. now rewrite Nat.add_succ_r. }
  apply (H l 0%nat i).
Qed.

Lemma indexed_length {A : Type} (l : list A) : length (indexed l) = length l.
Proof.
  unfold indexed. rewrite length_combine, length_seq. apply Nat.min_id.
Qed.

Lemma In_indexed {A : Type} (l : list A) (i : nat) (x : A) :
  In (i, x) (indexed l) <-> nth_error l i = Some x.
Proof.
  split.
  - intros H. apply In_nth_error in H. destruct H as [j Hj].
    rewrite nth_error_indexed in Hj.
    destruct (nth_error l j) eqn:E; simpl in Hj; [ | discriminate].
    now inversion Hj; subst.
  - intros H. apply (nth_error_In _ i).
    rewrite nth_error_indexed, H. reflexivity.
Qed.

(** ** The method monad and lazy loading *)

Section ServiceFacts.

Variable env : Env.

Ltac run_bind :=
  cbv beta iota delta [bind lift ret raise attr getitem set_model set_df
                       set_embeddings set_movie_titles Ok Raise] in *.

(** A successful load sets the four attributes from the bundle. *)
Lemma load_model_ok (self self1 : RecommendationService) (u : unit) :
  _load_model env self = (Ok u, self1) ->
  exists f m df e t,
    open_rb env (model_path self) = Some f /\
    pickle_load env f = Ok m /\
    dataframe m = Some df /\ embeddings m = Some e /\
    movie_titles m = Some t /\
    self1 = mkService (model_path self) (Some m) (Some df) (Some e) (Some t).
Proof.
  unfold _load_model. run_bind.
  destruct (open_rb env (model_path self)) as [f | ] eqn:Ef;
    simpl; [ | discriminate].
  destruct (pickle_load env f) as [ex | m] eqn:Em; simpl; [discriminate | ].
  destruct m as [[df | ] [e | ] [t | ]]; simpl; try discriminate.
  intros H. inversion H; subst.
  exists f, (mkBundle (Some df) (Some e) (Some t)), df, e, t.
  repeat split; assumption.
Qed.

(** When [model] succeeds the model is set, and asking again changes
    nothing. *)
Lemma model_ok (self self1 : RecommendationService) (mb : option Bundle) :
  model env self = (Ok mb, self1) ->
  mb = _model self1 /\ (exists m, _model self1 = Some m) /\
  (forall m, _model self = Some m -> self1 = self).
Proof.
  unfold model. destruct (_model self) as [m | ] eqn:E.
  - intros H. inversion H; subst. rewrite E. repeat split; eauto.
  - unfold bind at 1.
    destruct (_load_model env self) as [[ex | u] s1] eqn:El; [discriminate | ].
    intros H. inversion H; subst.
    apply load_model_ok in El.
    destruct El as (f & m & df & e & t & _ & _ & _ & _ & _ & ->). simpl.
    repeat split; eauto. discriminate.
Qed.

Lemma model_again (self self1 : RecommendationService) (mb : option Bundle) :
  model env self = (Ok mb, self1) -> model env self1 = (Ok mb, self1).
Proof.
  intros H. destruct (model_ok _ _ _ H) as (-> & [m Hm] & _).
  unfold model. now rewrite Hm.
Qed.

(** What each method does once [model] has returned. *)
Lemma search_movie_run (query : string) (limit : Z)
      (self : RecommendationService) :
  search_movie env query limit self =
  match model env self with
  | (inl e, self1) => (inl e, self1)
  | (inr _, self1) =>
      match _movie_titles self1 with
      | None => (Raise TypeError, self1)
      | Some titles =>
          match Fuzz.extract query titles limit with
          | inl e => (inl e, self1)
          | inr matches => (search_results (_df self1) matches, self1)
          end
      end
  end.
Proof.
  unfold search_movie. run_bind.
  destruct (model env self) as [[e | mb] self1]; [reflexivity | ].
  destruct (_movie_titles self1) as [titles | ]; [ | reflexivity].
  destruct (Fuzz.extract query titles limit); reflexivity.
Qed.

Lemma find_movie_run (title : string) (threshold : Z)
      (self : RecommendationService) :
  find_movie env title threshold self =
  match model env self with
  | (inl e, self1) => (inl e, self1)
  | (inr _, self1) =>
      match _movie_titles self1 with
      | None => (Raise TypeError, self1)
      | Some titles =>
          (Ok match Fuzz.extractOne title titles with
              | Some (choice, score, _) =>
                  if F64.int_le_float threshold score
                  then Some choice else None
              | None => None
              end, self1)
      end
  end.
Proof.
  unfold find_movie. run_bind.
  destruct (model env self) as [[e | mb] self1]; [reflexivity | ].
  destruct (_movie_titles self1); reflexivity.
Qed.

(** No method changes the attributes after [model] has returned. *)
Lemma find_movie_state (title : string) (threshold : Z)
      (self self' : RecommendationService) (r : result (option string)) :
  find_movie env title threshold self = (r, self') ->
  self' = snd (model env self).
Proof.
  rewrite find_movie_run.
  destruct (model env self) as [[e | mb] self1]; simpl.
  - now intros [= _ <-].
  - destruct (_movie_titles self1); now intros [= _ <-].
Qed.

End ServiceFacts.

(** ** Fuzzy matching *)

Module FuzzFacts.

Import Fuzz.
Local Open Scope float_scope.

Lemma score_all_length (query : string) (choices : list string) :
  length (score_all query choices) = length choices.
Proof. unfold score_all. now rewrite length_map, indexed_length. Qed.

(** Every scored match is a known title at its own position, with the
    ratio of the query to that title as its score. *)
Lemma In_score_all (query : string) (choices : list string) (m : match_t) :
  In m (score_all query choices) <->
  exists i c, nth_error choices i = Some c /\ m = (c, ratio query c, i).
Proof.
  unfold score_all. rewrite in_map_iff. split.
  - intros [[i c] [E H]]. apply In_indexed in H. exists i, c. now split.
  - intros (i & c & H & ->). exists (i, c). split; [reflexivity | ].
    now apply In_indexed.
Qed.

Lemma top_matches_length (query : string) (choices : list string)
      (limit : Z) :
  length (top_matches query choices limit) =
  Nat.min (Z.to_nat limit) (length choices).
Proof. unfold top_matches. now rewrite nlargest_length, score_all_length. Qed.

Lemma top_matches_In (query : string) (choices : list string) (limit : Z)
      (m : match_t) :
  In m (top_matches query choices limit) -> In m (score_all query choices).
Proof. apply nlargest_incl. Qed.

(** [process.extract] returns the best matches for a limit that is not
    negative, and raises for a negative one. *)
Lemma extract_nonneg (query : string) (choices : list string) (limit : Z) :
  (0 <= limit)%Z ->
  extract query choices limit = Ok (top_matches query choices limit).
Proof.
  intros Hl. unfold extract.
  destruct (Z.ltb_spec limit (- 2 ^ 63)); [lia | ].
  destruct (Z.ltb_spec limit 0); [lia | reflexivity].
Qed.

Lemma extract_negative (query : string) (choices : list string) (limit : Z) :
  (limit < 0)%Z -> exists e, extract query choices limit = Raise e.
Proof.
  intros Hl. unfold extract.
  destruct (Z.ltb_spec limit (- 2 ^ 63)); [eauto | ].
  destruct (Z.ltb_spec limit 0); [eauto | lia].
Qed.

Lemma extract_inv (query : string) (choices : list string) (limit : Z)
      (matches : list match_t) :
  extract query choices limit = Ok matches ->
  (0 <= limit)%Z /\ matches = top_matches query choices limit.
Proof.
  unfold extract.
  destruct (Z.ltb_spec limit (- 2 ^ 63)); [discriminate | ].
  destruct (Z.ltb_spec limit 0) as [Hl | Hl]; [discriminate | ].
  intros E. injection E as <-. now split.
Qed.

Lemma fold_better_In (l : list match_t) (best : option match_t) (m : match_t) :
  fold_left better l best = Some m -> best = Some m \/ In m l.
Proof.
  revert best. induction l as [ | x l IH]; simpl; intros best H.
  - now left.
  - apply IH in H. destruct H as [H | H]; [ | now right; right].
    unfold better in H. destruct best as [b | ].
    + destruct (match_score b <? match_score x).
      * inversion H; subst. right; now left.
      * now left.
    + destruct (0 <=? match_score x); [ | discriminate].
      inversion H; subst. right; now left.
Qed.

(** The single best match is one of the scored titles. *)
Lemma extractOne_In (query : string) (choices : list string) (m : match_t) :
  extractOne query choices = Some m -> In m (score_all query choices).
Proof.
  unfold extractOne. intros H. apply fold_better_In in H.
  destruct H as [H | H]; [discriminate | exact H].
Qed.

Lemma lcs_nil_l (s : list ascii) : lcs [] s = 0%nat.
Proof.
  unfold lcs. simpl. induction s as [ | c s IH]; [reflexivity | ].
  simpl. destruct s; [reflexivity | exact IH].
Qed.

(** Against the empty query the score depends only on the length of
    the title. *)
Lemma ratio_empty_query (t : string) :
  ratio "" t =
  let n := String.length t in
  (1 - (if Nat.eqb n 0 then 0
        else F64.of_Z (Z.of_nat n) / F64.of_Z (Z.of_nat n))) * 100.
Proof.
  unfold ratio, indel_distance. simpl list_ascii_of_string.
  rewrite lcs_nil_l. simpl length.
  assert (E : length (list_ascii_of_string t) = String.length t).
  { induction t as [ | c t IH]; simpl; congruence. }
  rewrite E. simpl. now rewrite Nat.sub_0_r.
Qed.

(** Lengths up to which the score against the empty query has been
    evaluated. *)
Lemma ratio_empty_small (n : nat) :
  (1 <= n <= 4096)%nat ->
  (1 - F64.of_Z (Z.of_nat n) / F64.of_Z (Z.of_nat n)) * 100 = 0.
Proof.
  intros Hn.
  assert (H : forallb (fun k => PrimFloat.Leibniz.eqb
                ((1 - F64.of_Z (Z.of_nat k) / F64.of_Z (Z.of_nat k)) * 100) 0)
                (seq 1 4096) = true) by (vm_compute; reflexivity).
  rewrite forallb_forall in H.
  apply FloatAxioms.Leibniz.eqb_spec, H, in_seq. lia.
Qed.

Lemma ratio_empty_zero (t : string) :
  (1 <= String.length t <= 4096)%nat -> ratio "" t = 0.
Proof.
  intros H. rewrite ratio_empty_query. cbv zeta.
  destruct (Nat.eqb_spec (String.length t) 0); [lia | ].
  now apply ratio_empty_small.
Qed.

Local Open Scope string_scope.

(** Scores the library is known to give. *)
Example ratio_case_difference : ratio "Iron man" "Iron Man" = 87.5.
Proof. vm_compute; reflexivity. Qed.

Example ratio_kitten_sitting : ratio "kitten" "sitting" = 61.53846153846154.
Proof. vm_compute; reflexivity. Qed.

Example ratio_both_empty : ratio "" "" = 100.
Proof. vm_compute; reflexivity. Qed.

Example extract_orders_by_score :
  extract "iro" ["The Matrix"; "Iron Man 2"; "Iron Man"] 2
  = Ok [("Iron Man", ratio "iro" "Iron Man", 2%nat);
        ("Iron Man 2", ratio "iro" "Iron Man 2", 1%nat)].
Proof. vm_compute; reflexivity. Qed.

Example extract_negative_limit :
  extract "iro" ["The Matrix"; "Iron Man 2"; "Iron Man"] (-1)
  = Raise RuntimeError.
Proof. reflexivity. Qed.

End FuzzFacts.

(** ** The loop of [search_movie] *)

Lemma search_results_inv (df : option DataFrame) (matches : list Fuzz.match_t)
      (results : list SearchResult.t) :
  search_results df matches = Ok results ->
  Forall2 (fun m r => exists rows, df = Some rows /\ entry_of rows m r)
          matches results.
Proof.
  revert results. induction matches as [ | [[c s] i] ms IH]; simpl; intros rs H.
  - inversion H. constructor.
  - destruct df as [rows | ]; [ | discriminate].
    destruct (nth_error rows i) as [movie | ] eqn:E; [ | discriminate].
    destruct (search_results (Some rows) ms) as [e | rs'] eqn:Er;
      simpl in H; [discriminate | ].
    inversion H; subst. constructor.
    + exists rows. split; [reflexivity | ]. exists movie. now split.
    + now apply IH.
Qed.

Lemma search_results_length (df : option DataFrame)
      (matches : list Fuzz.match_t) (results : list SearchResult.t) :
  search_results df matches = Ok results -> length results = length matches.
Proof.
  intros H. apply search_results_inv in H.
  symmetry. eapply Forall2_length, H.
Qed.

(** The loop succeeds when every position it looks up is a row. *)
Lemma search_results_total (rows : DataFrame) (matches : list Fuzz.match_t) :
  Forall (fun m => (snd m < length rows)%nat) matches ->
  exists results, search_results (Some rows) matches = Ok results.
Proof.
  induction 1 as [ | [[c s] i] ms Hi _ IH]; simpl.
  - now exists [].
  - simpl in Hi. apply nth_error_Some in Hi.
    destruct (nth_error rows i) as [movie | ]; [ | congruence].
    destruct IH as [rs ->]. simpl. eauto.
Qed.

(** ** Selecting the anchor row and building the working frame *)

Lemma filter_cons_inv {A : Type} (f : A -> bool) (l : list A) (x : A)
      (rest : list A) :
  filter f l = x :: rest ->
  exists l1 l2,
    l = l1 ++ x :: l2 /\ Forall (fun y => f y = false) l1 /\
    f x = true /\ rest = filter f l2.
Proof.
  induction l as [ | y l IH]; simpl; [discriminate | ].
  destruct (f y) eqn:E.
  - intros H. inversion H; subst. exists [], l. repeat split; auto.
  - intros H. destruct (IH H) as (l1 & l2 & -> & H1 & H2 & H3).
    exists (y :: l1), l2. repeat split; auto.
Qed.

Section EngineFacts.

Variable env : Env.

(** The first row of [rows_titled] is the lowest row bearing the title. *)
Lemma rows_titled_first (df : DataFrame) (t : string) (a : nat)
      (m0 : Movie.t) (rest : list (nat * Movie.t)) :
  rows_titled df t = (a, m0) :: rest ->
  nth_error df a = Some m0 /\ Movie.title m0 = t /\
  forall j m, (j < a)%nat -> nth_error df j = Some m -> Movie.title m <> t.
Proof.
  unfold rows_titled. intros H.
  apply filter_cons_inv in H. destruct H as (l1 & l2 & E & H1 & H2 & _).
  simpl in H2. apply String.eqb_eq in H2.
  assert (Ha : nth_error (indexed df) (length l1) = Some (a, m0)).
  { rewrite E, nth_error_app2, Nat.sub_diag by lia. reflexivity. }
  rewrite nth_error_indexed in Ha.
  destruct (nth_error df (length l1)) as [m' | ] eqn:Em; [ | discriminate].
  simpl in Ha. injection Ha as Ea Emm. subst a m'.
  repeat split; try assumption.
  intros j m Hj Hm Ht.
  assert (Hin : In (j, m) l1).
  { apply (nth_error_In _ j).
    rewrite <- (nth_error_app1 l1 ((length l1, m0) :: l2)) by assumption.
    rewrite <- E, nth_error_indexed, Hm. reflexivity. }
  rewrite Forall_forall in H1. specialize (H1 _ Hin). simpl in H1.
  apply String.eqb_neq in H1. contradiction.
Qed.

Lemma rows_titled_In (df : DataFrame) (t : string) (i : nat) (m : Movie.t) :
  In (i, m) (rows_titled df t) <->
  nth_error df i = Some m /\ Movie.title m = t.
Proof.
  unfold rows_titled. rewrite filter_In, In_indexed. simpl.
  now rewrite String.eqb_eq.
Qed.

(** [vote_count_max] is an upper bound that some row attains. *)
Lemma fold_max_spec (rest : list Movie.t) (v : Z) :
  let r := fold_left (fun acc r => Z.max acc (Movie.vote_count r)) rest v in
  (v <= r)%Z /\ Forall (fun m => (Movie.vote_count m <= r)%Z) rest /\
  (r = v \/ Exists (fun m => Movie.vote_count m = r) rest).
Proof.
  revert v. induction rest as [ | x rest IH]; intros v; simpl.
  - repeat split; [lia | constructor | now left].
  - destruct (IH (Z.max v (Movie.vote_count x))) as (H1 & H2 & H3).
    repeat split.
    + lia.
    + constructor; [lia | exact H2].
    + destruct H3 as [H3 | H3].
      * destruct (Z.max_spec v (Movie.vote_count x)) as [[_ E] | [_ E]].
        -- right. left. congruence.
        -- left. congruence.
      * right. now right.
Qed.

Lemma vote_count_max_spec (df : DataFrame) :
  df <> [] ->
  Forall (fun m => (Movie.vote_count m <= vote_count_max df)%Z) df /\
  Exists (fun m => Movie.vote_count m = vote_count_max df) df.
Proof.
  destruct df as [ | m rest]; [congruence | intros _]. simpl.
  destruct (fold_max_spec rest (Movie.vote_count m)) as (H1 & H2 & H3).
  split.
  - constructor; assumption.
  - destruct H3 as [H3 | H3]; [left; now symmetry | now right].
Qed.

(** The code's arithmetic is the specification's formula: the two
    differ only in the order of the factors. *)
Lemma quality_spec (m : Movie.t) (vmax : Z) :
  quality env m vmax =
  Spec.quality (log1p env) (Movie.vote_average m) (Movie.vote_count m) vmax.
Proof.
  unfold quality, Spec.quality.
  now rewrite (F64Facts.mul_comm 0.7), (F64Facts.mul_comm 0.3).
Qed.

Lemma final_spec (sim q : float) : final sim q = Spec.finalScore sim q.
Proof.
  unfold final, Spec.finalScore.
  now rewrite (F64Facts.mul_comm 0.6), (F64Facts.mul_comm 0.4).
Qed.

Lemma work_frame_nth (df : DataFrame) (sims : list float)
      (w : list WorkRow) (i : nat) :
  work_frame env df sims = Ok w ->
  length sims = length df /\ length w = length df /\
  nth_error w i =
  match nth_error df i, nth_error sims i with
  | Some m, Some sim => Some (work_row env df i m sim)
  | _, _ => None
  end.
Proof.
  unfold work_frame.
  destruct (Nat.eqb_spec (length sims) (length df)) as [E | E];
    [ | discriminate].
  intros H. inversion H; subst w. clear H.
  split; [exact E | ]. split.
  - rewrite length_map, length_combine, indexed_length. lia.
  - rewrite nth_error_map.
    assert (Hc : forall (A B : Type) (l1 : list A) (l2 : list B) k,
               nth_error (combine l1 l2) k =
               match nth_error l1 k, nth_error l2 k with
               | Some x, Some y => Some (x, y)
               | _, _ => None
               end).
    { clear. induction l1 as [ | x l1 IH]; intros [ | y l2] [ | k]; simpl;
        try reflexivity.
      - now destruct (nth_error l1 k).
      - apply IH. }
    rewrite Hc, nth_error_indexed.
    destruct (nth_error df i) as [m | ]; simpl; [ | reflexivity].
    destruct (nth_error sims i); reflexivity.
Qed.

Lemma work_frame_In (df : DataFrame) (sims : list float)
      (w : list WorkRow) (r : WorkRow) :
  work_frame env df sims = Ok w ->
  In r w <->
  exists i m sim, nth_error df i = Some m /\ nth_error sims i = Some sim /\
                  r = work_row env df i m sim.
Proof.
  intros H. split.
  - intros Hr. apply In_nth_error in Hr. destruct Hr as [i Hi].
    destruct (work_frame_nth df sims w i H) as (_ & _ & E).
    rewrite E in Hi.
    destruct (nth_error df i) as [m | ] eqn:Em; [ | discriminate].
    destruct (nth_error sims i) as [sim | ] eqn:Es; [ | discriminate].
    inversion Hi. exists i, m, sim. auto.
  - intros (i & m & sim & Hm & Hs & ->).
    apply (nth_error_In _ i).
    destruct (work_frame_nth df sims w i H) as (_ & _ & E).
    now rewrite E, Hm, Hs.
Qed.

(** What [recommended_rows] computed when it returned. *)
Lemma recommended_rows_inv (t : string) (top_n min_votes : Z)
      (min_rating : float) (self self' : RecommendationService)
      (rows : list WorkRow) :
  recommended_rows env t top_n min_votes min_rating self = (Ok rows, self') ->
  self' = self /\
  exists df emb anchor m0 rest anchor_emb df_work,
    _df self = Some df /\ _embeddings self = Some emb /\
    rows_titled df t = (anchor, m0) :: rest /\
    nth_error emb anchor = Some anchor_emb /\
    work_frame env df (map (Sklearn.cosine_similarity anchor_emb) emb)
      = Ok df_work /\
    rows = nlargest final_score top_n
             (filter (keep min_votes min_rating anchor) df_work).
Proof.
  unfold recommended_rows.
  cbv beta iota delta [bind lift ret raise attr Ok Raise].
  destruct (_df self) as [df | ] eqn:Edf; [ | discriminate].
  destruct (rows_titled df t) as [ | [anchor m0] rest] eqn:Et;
    [discriminate | ].
  destruct (_embeddings self) as [emb | ] eqn:Ee; [ | discriminate].
  destruct (nth_error emb anchor) as [anchor_emb | ] eqn:Ea; [ | discriminate].
  destruct (Sklearn.check_pairwise_arrays anchor_emb emb); [ | discriminate].
  destruct (work_frame env df _) as [ex | df_work] eqn:Ew; [discriminate | ].
  intros H. inversion H; subst. split; [reflexivity | ].
  exists df, emb, anchor, m0, rest, anchor_emb, df_work. repeat split; auto.
Qed.

(** [get_recommendations] after title resolution. *)
Lemma get_recommendations_run (movie_name : string) (top_n min_votes : Z)
      (min_rating : float) (self : RecommendationService) :
  get_recommendations env movie_name top_n min_votes min_rating self =
  match find_movie env movie_name 60 self with
  | (inl e, self1) => (inl e, self1)
  | (inr (Some t), self1) =>
      if truthy (Some t) then
        match recommended_rows env t top_n min_votes min_rating self1 with
        | (inl e, self2) => (inl e, self2)
        | (inr rows, self2) =>
            (Ok (Recommendations t (length (map format_row rows))
                                 (map format_row rows)), self2)
        end
      else
        match search_movie env movie_name 3 self1 with
        | (inl e, self2) => (inl e, self2)
        | (inr suggestions, self2) =>
            (Ok (NotFound ("Movie '" ++ movie_name ++ "' not found")
                          suggestions), self2)
        end
  | (inr None, self1) =>
      match search_movie env movie_name 3 self1 with
      | (inl e, self2) => (inl e, self2)
      | (inr suggestions, self2) =>
          (Ok (NotFound ("Movie '" ++ movie_name ++ "' not found")
                        suggestions), self2)
      end
  end.
Proof.
  unfold get_recommendations. unfold bind at 1.
  rewrite (find_movie_run env movie_name 60 self).
  destruct (model env self) as [[e | mb] self1] eqn:Em; [reflexivity | ].
  unfold bind at 1. rewrite (find_movie_run env movie_name 60 self1).
  rewrite (model_again env _ _ _ Em).
  destruct (_movie_titles self1) as [titles | ]; [ | reflexivity].
  destruct (match Fuzz.extractOne movie_name titles with
            | Some (choice, score, _) =>
                if F64.int_le_float 60 score then Some choice else None
            | None => None
            end) as [t | ]; [ | reflexivity].
  cbv beta iota delta [bind ret Ok].
  destruct (truthy (Some t)); reflexivity.
Qed.

Lemma get_movie_details_run (title : string) (self : RecommendationService) :
  get_movie_details env title self =
  match find_movie env title 60 self with
  | (inl e, self1) => (inl e, self1)
  | (inr (Some t), self1) =>
      if truthy (Some t) then
        match _df self1 with
        | None => (Raise TypeError, self1)
        | Some df =>
            match rows_titled df t with
            | [] => (Raise IndexError, self1)
            | (_, movie) :: _ =>
                (Ok (Some (MovieDetails.mk
                             (Movie.title movie)
                             (F64.np_round (Movie.vote_average movie) 1)
                             (Movie.vote_count movie)
                             (Movie.overview movie)
                             (Movie.genres movie))), self1)
            end
        end
      else (Ok None, self1)
  | (inr None, self1) => (Ok None, self1)
  end.
Proof.
  unfold get_movie_details. unfold bind at 1.
  rewrite (find_movie_run env title 60 self).
  destruct (model env self) as [[e | mb] self1] eqn:Em; [reflexivity | ].
  unfold bind at 1. rewrite (find_movie_run env title 60 self1).
  rewrite (model_again env _ _ _ Em).
  destruct (_movie_titles self1) as [titles | ]; [ | reflexivity].
  destruct (match Fuzz.extractOne title titles with
            | Some (choice, score, _) =>
                if F64.int_le_float 60 score then Some choice else None
            | None => None
            end) as [t | ]; [ | reflexivity].
  cbv beta iota delta [bind attr ret raise Ok Raise].
  destruct (truthy (Some t)); [ | reflexivity].
  destruct (_df self1) as [df | ]; [ | reflexivity].
  destruct (rows_titled df t) as [ | [i movie] rest]; reflexivity.
Qed.

End EngineFacts.

(** ** What a successful [get_recommendations] went through *)

Section RecommendFacts.

Variable env : Env.

Lemma get_recommendations_inv (movie_name : string) (top_n min_votes : Z)
      (min_rating : float) (self self' : RecommendationService)
      (t : string) (n : nat) (recs : list Recommendation.t) :
  get_recommendations env movie_name top_n min_votes min_rating self
    = (Ok (Recommendations t n recs), self') ->
  find_movie env movie_name 60 self = (Ok (Some t), self') /\
  t <> ""%string /\
  exists rows,
    recommended_rows env t top_n min_votes min_rating self' = (Ok rows, self') /\
    recs = map format_row rows /\ n = length recs.
Proof.
  rewrite get_recommendations_run.
  destruct (find_movie env movie_name 60 self) as [[e | [t0 | ]] self1];
    [discriminate | | ].
  - destruct (truthy (Some t0)) eqn:Et.
    + destruct (recommended_rows env t0 top_n min_votes min_rating self1)
        as [[e | rows] self2] eqn:Er; [discriminate | ].
      intros H. inversion H; subst.
      destruct (recommended_rows_inv _ _ _ _ _ _ _ _ Er) as [-> _].
      repeat split.
      * simpl in Et. intros ->. discriminate.
      * exists rows. repeat split. exact Er.
    + destruct (search_movie env movie_name 3 self1) as [[e | sg] self2];
        discriminate.
  - destruct (search_movie env movie_name 3 self1) as [[e | sg] self2];
      discriminate.
Qed.

(** The selected rows are rows of the working frame that pass the filter. *)
Lemma In_keep (min_votes : Z) (min_rating : float) (anchor : nat)
      (w : list WorkRow) (r : WorkRow) :
  In r (filter (keep min_votes min_rating anchor) w) <->
  In r w /\ (min_votes <= Movie.vote_count (movie r))%Z /\
  (min_rating <=? Movie.vote_average (movie r))%float = true /\
  index r <> anchor.
Proof.
  rewrite filter_In. unfold keep.
  rewrite !andb_true_iff, negb_true_iff, Z.leb_le, Nat.eqb_neq. tauto.
Qed.

End RecommendFacts.

(** ** An aligned service always answers *)

Section Totality.

Variable env : Env.

Lemma model_aligned (self : RecommendationService) :
  aligned self -> model env self = (Ok (_model self), self).
Proof.
  intros (m & df & emb & width & Hm & _). unfold model. now rewrite Hm.
Qed.

(** In a matrix of finite numbers every row passes the validation of
    [cosine_similarity] against the whole matrix. *)
Lemma check_pairwise_arrays_row (emb : Matrix) (width a : nat)
      (v : list float) :
  (1 <= width)%nat -> forallb (Sklearn.finite_row width) emb = true ->
  nth_error emb a = Some v ->
  Sklearn.check_pairwise_arrays v emb = true.
Proof.
  intros Hw Hfin Ha.
  pose proof Hfin as Hv. rewrite forallb_forall in Hv.
  specialize (Hv v (nth_error_In _ _ Ha)).
  unfold Sklearn.finite_row in Hv. apply andb_true_iff in Hv.
  destruct Hv as [Hlen Hv]. apply Nat.eqb_eq in Hlen.
  unfold Sklearn.check_pairwise_arrays. rewrite Hlen, Hv, Hfin.
  destruct (Nat.leb_spec 1 width); [reflexivity | lia].
Qed.

Lemma search_movie_returns (query : string) (limit : Z)
      (self : RecommendationService) :
  aligned self -> (0 <= limit)%Z ->
  exists results, search_movie env query limit self = (Ok results, self).
Proof.
  intros Ha Hl. pose proof (model_aligned self Ha) as Hm.
  destruct Ha as (m & df & emb & width & _ & Hdf & _ & Ht & _).
  rewrite search_movie_run, Hm, Ht, Hdf. cbv beta iota delta [Ok].
  rewrite (FuzzFacts.extract_nonneg _ _ _ Hl). cbv beta iota delta [Ok].
  destruct (search_results_total df
              (Fuzz.top_matches query (map Movie.title df) limit)) as [rs ->].
  - rewrite Forall_forall. intros x Hx.
    apply FuzzFacts.top_matches_In, FuzzFacts.In_score_all in Hx.
    destruct Hx as (i & c & Hi & ->). simpl.
    rewrite <- (length_map Movie.title). apply nth_error_Some. congruence.
  - now exists rs.
Qed.

(** On an aligned service [get_recommendations] raises nothing: it
    returns the recommendations or the error dictionary. *)
Lemma get_recommendations_returns (movie_name : string) (top_n min_votes : Z)
      (min_rating : float) (self : RecommendationService) :
  aligned self ->
  exists out,
    get_recommendations env movie_name top_n min_votes min_rating self
      = (Ok out, self).
Proof.
  intros Ha. pose proof (model_aligned self Ha) as Hm.
  destruct (search_movie_returns movie_name 3 self Ha) as [sg Hsg]; [lia | ].
  destruct Ha as (m & df & emb & width & _ & Hdf & Hemb & Ht & Hlen & Hw & Hfin
                  & _).
  rewrite get_recommendations_run, find_movie_run, Hm, Ht.
  cbv beta iota delta [Ok].
  destruct (Fuzz.extractOne movie_name (map Movie.title df))
    as [[[c s] i] | ] eqn:Ex;
    [ | rewrite Hsg; cbv beta iota delta [Ok]; eexists; reflexivity].
  destruct (F64.int_le_float 60 s);
    [ | rewrite Hsg; cbv beta iota delta [Ok]; eexists; reflexivity].
  destruct (truthy (Some c));
    [ | rewrite Hsg; cbv beta iota delta [Ok]; eexists; reflexivity].
  apply FuzzFacts.extractOne_In, FuzzFacts.In_score_all in Ex.
  destruct Ex as (j & c' & Hj & E). inversion E; subst c' s j. clear E.
  rewrite nth_error_map in Hj.
  destruct (nth_error df i) as [mv | ] eqn:Hi; [ | discriminate].
  simpl in Hj. injection Hj as Hc.
  assert (Hin : In (i, mv) (rows_titled df c)) by now apply rows_titled_In.
  unfold recommended_rows.
  cbv beta iota delta [bind lift ret raise attr Ok Raise].
  rewrite Hdf, Hemb.
  destruct (rows_titled df c) as [ | [a m0] rest] eqn:Er; [contradiction | ].
  destruct (rows_titled_first df c a m0 rest Er) as (Ha0 & _ & _).
  assert (Hlt : (a < length emb)%nat).
  { rewrite Hlen. apply nth_error_Some. congruence. }
  apply nth_error_Some in Hlt.
  destruct (nth_error emb a) as [v | ] eqn:Ev; [ | congruence].
  rewrite (check_pairwise_arrays_row emb width a v Hw Hfin Ev).
  unfold work_frame. rewrite length_map, Hlen, Nat.eqb_refl.
  cbv beta iota delta [Ok]. eexists; reflexivity.
Qed.

End Totality.

(* ================================================================= *)
(** * The claims *)

Section Claims.

Variable env : Env.

(** C1.  When [get_recommendations] returns a recommendation list, the
    working frame holds, for every catalog row [i], the similarity
    between the anchor's embedding and embedding [i], the quality
    [0.7 * (rating / 10) + 0.3 * (log1p(voteCount) / log1p(max voteCount))]
    and the final score [0.6 * similarity + 0.4 * quality]; the maximum is
    the largest vote count of the catalog; and the returned list is the
    formatting of the rows of highest final score among the rows that
    pass the filter, best first: it is sorted in descending order of
    final score and no row left out ranks above a returned one. *)
Theorem blended_score_and_ranking
        (movie_name : string) (top_n min_votes : Z) (min_rating : float)
        (self self' : RecommendationService)
        (t : string) (n : nat) (recs : list Recommendation.t) :
  get_recommendations env movie_name top_n min_votes min_rating self
    = (Ok (Recommendations t n recs), self') ->
  exists df emb anchor anchor_emb df_work rows rest,
    _df self' = Some df /\ _embeddings self' = Some emb /\
    (exists m0, nth_error df anchor = Some m0 /\ Movie.title m0 = t) /\
    nth_error emb anchor = Some anchor_emb /\
    (* the scores of every catalog row *)
    length df_work = length df /\
    (forall i m, nth_error df i = Some m ->
       exists e, nth_error emb i = Some e /\
         let sim := Sklearn.cosine_similarity anchor_emb e in
         let q := Spec.quality (log1p env) (Movie.vote_average m)
                               (Movie.vote_count m) (vote_count_max df) in
         nth_error df_work i =
           Some (mkWorkRow i m sim q (Spec.finalScore sim q))) /\
    Forall (fun m => (Movie.vote_count m <= vote_count_max df)%Z) df /\
    Exists (fun m => Movie.vote_count m = vote_count_max df) df /\
    (* the returned list *)
    Permutation (rows ++ rest)
                (filter (keep min_votes min_rating anchor) df_work) /\
    StronglySorted (ranks final_score) rows /\
    Forall (fun r => Forall (fun r' => ranks final_score r r') rest) rows /\
    length rows =
      Nat.min (Z.to_nat top_n)
              (length (filter (keep min_votes min_rating anchor) df_work)) /\
    recs = map format_row rows.
Proof.
  intros H. apply get_recommendations_inv in H.
  destruct H as (_ & _ & rows & Hr & -> & _).
  apply recommended_rows_inv in Hr.
  destruct Hr as (_ & df & emb & anchor & m0 & rest0 & anchor_emb & df_work
                  & Hdf & Hemb & Ht & Ha & Hw & ->).
  destruct (nlargest_top final_score top_n
              (filter (keep min_votes min_rating anchor) df_work))
    as (rest & Hp & Hs & Htop).
  destruct (rows_titled_first df t anchor m0 rest0 Ht) as (Hm0 & Htitle & _).
  exists df, emb, anchor, anchor_emb, df_work,
    (nlargest final_score top_n
       (filter (keep min_votes min_rating anchor) df_work)), rest.
  assert (Hne : df <> []).
  { intros ->. destruct anchor; discriminate. }
  destruct (vote_count_max_spec df Hne) as [Hmax1 Hmax2].
  destruct (work_frame_nth env df _ df_work 0 Hw) as (Hlen & Hlw & _).
  rewrite length_map in Hlen.
  repeat split; try assumption.
  - exists m0. now split.
  - intros i m Hi.
    assert (Hlt : (i < length emb)%nat).
    { rewrite Hlen. apply nth_error_Some. congruence. }
    apply nth_error_Some in Hlt.
    destruct (nth_error emb i) as [e | ] eqn:Ee; [ | congruence].
    exists e. split; [reflexivity | ]. cbv zeta.
    destruct (work_frame_nth env df _ df_work i Hw) as (_ & _ & E).
    rewrite E, Hi, nth_error_map, Ee. simpl. unfold work_row.
    now rewrite quality_spec, final_spec.
  - apply nlargest_length.
Qed.

(** C2 (amended).  Every returned recommendation is read off a catalog
    row whose vote count is at least [min_votes] and whose rating is at
    least [min_rating]; the votes returned are that vote count, and the
    rating returned is that rating rounded to one decimal. *)
Theorem filter_holds_on_catalog_rows
        (movie_name : string) (top_n min_votes : Z) (min_rating : float)
        (self self' : RecommendationService)
        (t : string) (n : nat) (recs : list Recommendation.t) :
  get_recommendations env movie_name top_n min_votes min_rating self
    = (Ok (Recommendations t n recs), self') ->
  exists df,
    _df self' = Some df /\
    Forall (fun rec =>
              exists i m,
                nth_error df i = Some m /\
                Recommendation.title rec = Movie.title m /\
                Recommendation.votes rec = Movie.vote_count m /\
                (min_votes <= Recommendation.votes rec)%Z /\
                (min_rating <=? Movie.vote_average m)%float = true /\
                Recommendation.rating rec
                  = F64.round (Movie.vote_average m) 1)
           recs.
Proof.
  intros H. apply get_recommendations_inv in H.
  destruct H as (_ & _ & rows & Hr & -> & _).
  apply recommended_rows_inv in Hr.
  destruct Hr as (_ & df & emb & anchor & m0 & rest0 & anchor_emb & df_work
                  & Hdf & Hemb & Ht & Ha & Hw & ->).
  exists df. split; [assumption | ].
  rewrite Forall_map, Forall_forall. intros r Hr.
  apply nlargest_incl, In_keep in Hr.
  destruct Hr as (Hin & Hv & Hrt & _).
  apply (work_frame_In env df _ df_work r Hw) in Hin.
  destruct Hin as (i & m & sim & Hi & _ & ->).
  exists i, m. simpl in *. repeat split; assumption.
Qed.

(** C3 (amended).  The anchor row, which is the lowest row bearing the
    resolved title, is never among the rows returned; when no two rows
    of the catalog share a title, no returned entry bears the resolved
    title. *)
Theorem anchor_row_excluded
        (movie_name : string) (top_n min_votes : Z) (min_rating : float)
        (self self' : RecommendationService)
        (t : string) (n : nat) (recs : list Recommendation.t) :
  get_recommendations env movie_name top_n min_votes min_rating self
    = (Ok (Recommendations t n recs), self') ->
  exists df anchor m0 rows,
    _df self' = Some df /\
    nth_error df anchor = Some m0 /\ Movie.title m0 = t /\
    (forall j m, (j < anchor)%nat -> nth_error df j = Some m ->
                 Movie.title m <> t) /\
    recommended_rows env t top_n min_votes min_rating self' = (Ok rows, self') /\
    recs = map format_row rows /\
    Forall (fun r => index r <> anchor /\
                     nth_error df (index r) = Some (movie r)) rows /\
    (NoDup (map Movie.title df) ->
     Forall (fun rec => Recommendation.title rec <> t) recs).
Proof.
  intros H. apply get_recommendations_inv in H.
  destruct H as (_ & _ & rows & Hr & -> & _).
  pose proof Hr as Hrows.
  apply recommended_rows_inv in Hr.
  destruct Hr as (_ & df & emb & anchor & m0 & rest0 & anchor_emb & df_work
                  & Hdf & Hemb & Ht & Ha & Hw & Erows).
  destruct (rows_titled_first df t anchor m0 rest0 Ht) as (Hm0 & Htitle & Hlow).
  assert (Hall : Forall (fun r => index r <> anchor /\
                                  nth_error df (index r) = Some (movie r)) rows).
  { subst rows. rewrite Forall_forall. intros r Hr.
    apply nlargest_incl, In_keep in Hr.
    destruct Hr as (Hin & _ & _ & Hne).
    apply (work_frame_In env df _ df_work r Hw) in Hin.
    destruct Hin as (i & m & sim & Hi & _ & ->). simpl in *. now split. }
  exists df, anchor, m0, rows. repeat split; try assumption.
  intros Hnd. rewrite Forall_map.
  eapply Forall_impl; [ | exact Hall].
  intros r [Hne Hi] Heq. simpl in Heq. apply Hne.
  rewrite NoDup_nth_error in Hnd.
  apply Hnd.
  - rewrite length_map. apply nth_error_Some. congruence.
  - rewrite !nth_error_map, Hi, Hm0. simpl. congruence.
Qed.

(** C10.  The recommendation is anchored on the lowest row bearing the
    resolved title: similarities are taken against that row's
    embedding, and that row alone is removed from the candidates.  Any
    other row, whatever its title, is a candidate as soon as it passes
    the vote and rating thresholds, and it is returned when [top_n]
    leaves room for all candidates. *)
Theorem anchor_is_first_row_with_title
        (movie_name : string) (top_n min_votes : Z) (min_rating : float)
        (self self' : RecommendationService)
        (t : string) (n : nat) (recs : list Recommendation.t) :
  get_recommendations env movie_name top_n min_votes min_rating self
    = (Ok (Recommendations t n recs), self') ->
  exists df emb anchor m0 anchor_emb df_work,
    _df self' = Some df /\ _embeddings self' = Some emb /\
    nth_error df anchor = Some m0 /\ Movie.title m0 = t /\
    (forall j m, (j < anchor)%nat -> nth_error df j = Some m ->
                 Movie.title m <> t) /\
    nth_error emb anchor = Some anchor_emb /\
    work_frame env df (map (Sklearn.cosine_similarity anchor_emb) emb)
      = Ok df_work /\
    let candidates := filter (keep min_votes min_rating anchor) df_work in
    recs = map format_row (nlargest final_score top_n candidates) /\
    (forall i m,
       nth_error df i = Some m ->
       (In i (map index candidates) <->
        i <> anchor /\ (min_votes <= Movie.vote_count m)%Z /\
        (min_rating <=? Movie.vote_average m)%float = true)) /\
    (forall i m,
       nth_error df i = Some m -> i <> anchor ->
       (min_votes <= Movie.vote_count m)%Z ->
       (min_rating <=? Movie.vote_average m)%float = true ->
       (length candidates <= Z.to_nat top_n)%nat ->
       exists rec, In rec recs /\
                   Recommendation.title rec = Movie.title m /\
                   Recommendation.votes rec = Movie.vote_count m).
Proof.
  intros H. apply get_recommendations_inv in H.
  destruct H as (_ & _ & rows & Hr & -> & _).
  apply recommended_rows_inv in Hr.
  destruct Hr as (_ & df & emb & anchor & m0 & rest0 & anchor_emb & df_work
                  & Hdf & Hemb & Ht & Ha & Hw & ->).
  destruct (rows_titled_first df t anchor m0 rest0 Ht) as (Hm0 & Htitle & Hlow).
  exists df, emb, anchor, m0, anchor_emb, df_work.
  destruct (work_frame_nth env df _ df_work 0 Hw) as (Hlen & _ & _).
  assert (Hrow : forall i m, nth_error df i = Some m ->
            exists sim, In (work_row env df i m sim) df_work).
  { intros i m Hi.
    assert (Hlt : (i < length (map (Sklearn.cosine_similarity anchor_emb) emb))%nat).
    { rewrite Hlen. apply nth_error_Some. congruence. }
    apply nth_error_Some in Hlt.
    destruct (nth_error (map (Sklearn.cosine_similarity anchor_emb) emb) i)
      as [sim | ] eqn:Es; [ | congruence].
    exists sim. apply (work_frame_In env df _ df_work _ Hw).
    exists i, m, sim. auto. }
  do 7 (split; [assumption | ]). cbv zeta.
  split; [reflexivity | ]. split.
  - intros i m Hi. split.
    + intros Hin. apply in_map_iff in Hin. destruct Hin as (r & Ei & Hr).
      apply In_keep in Hr. destruct Hr as (Hin & Hv & Hrt & Hne).
      apply (work_frame_In env df _ df_work r Hw) in Hin.
      destruct Hin as (i' & m' & sim & Hi' & _ & ->). simpl in *. subst i'.
      assert (m' = m) by congruence. subst m'. auto.
    + intros (Hne & Hv & Hrt).
      destruct (Hrow i m Hi) as [sim Hin].
      apply in_map_iff. exists (work_row env df i m sim).
      split; [reflexivity | ].
      apply In_keep. simpl. auto.
  - intros i m Hi Hne Hv Hrt Hroom.
    destruct (Hrow i m Hi) as [sim Hin].
    exists (format_row (work_row env df i m sim)). split.
    + apply in_map. apply nlargest_all; [exact Hroom | ].
      apply In_keep. simpl. auto.
    + split; reflexivity.
Qed.

(** C9.  For a non-negative [top_n], [get_recommendations] returns at
    most [top_n] recommendations (and reports their number); for a
    non-negative [limit], [search_movie] returns at most [limit]
    results. *)
Theorem bounded_size
        (movie_name query : string) (top_n min_votes limit : Z)
        (min_rating : float) (self : RecommendationService) :
  (0 <= top_n)%Z -> (0 <= limit)%Z ->
  (forall self' t n recs,
     get_recommendations env movie_name top_n min_votes min_rating self
       = (Ok (Recommendations t n recs), self') ->
     (Z.of_nat (length recs) <= top_n)%Z /\ n = length recs) /\
  (forall self' results,
     search_movie env query limit self = (Ok results, self') ->
     (Z.of_nat (length results) <= limit)%Z).
Proof.
  intros Hn Hl. split.
  - intros self' t n recs H. apply get_recommendations_inv in H.
    destruct H as (_ & _ & rows & Hr & -> & ->).
    apply recommended_rows_inv in Hr.
    destruct Hr as (_ & df & emb & anchor & m0 & rest0 & anchor_emb & df_work
                    & _ & _ & _ & _ & _ & ->).
    split; [ | reflexivity].
    rewrite length_map, nlargest_length. lia.
  - intros self' results. rewrite search_movie_run.
    destruct (model env self) as [[e | mb] self1]; [discriminate | ].
    destruct (_movie_titles self1) as [titles | ]; [ | discriminate].
    rewrite (FuzzFacts.extract_nonneg _ _ _ Hl). cbv beta iota delta [Ok].
    intros H. injection H as H _.
    apply search_results_length in H.
    rewrite H, FuzzFacts.top_matches_length. lia.
Qed.

End Claims.

Section ResolverClaims.

Variable env : Env.

Local Open Scope float_scope.

Lemma search_movie_loaded (query : string) (limit : Z)
      (self self1 : RecommendationService) (mb : option Bundle)
      (titles : list string) :
  model env self = (Ok mb, self1) -> _movie_titles self1 = Some titles ->
  (0 <= limit)%Z ->
  search_movie env query limit self =
    (search_results (_df self1) (Fuzz.top_matches query titles limit), self1) /\
  search_movie env query limit self1 =
    (search_results (_df self1) (Fuzz.top_matches query titles limit), self1).
Proof.
  intros Hm Ht Hl. rewrite !search_movie_run.
  rewrite (model_again env _ _ _ Hm), Hm, Ht.
  rewrite (FuzzFacts.extract_nonneg _ _ _ Hl). now split.
Qed.

Lemma find_movie_loaded (title : string) (threshold : Z)
      (self self1 : RecommendationService) (mb : option Bundle)
      (titles : list string) :
  model env self = (Ok mb, self1) -> _movie_titles self1 = Some titles ->
  find_movie env title threshold self =
    (Ok match Fuzz.extractOne title titles with
        | Some (choice, score, _) =>
            if F64.int_le_float threshold score then Some choice else None
        | None => None
        end, self1).
Proof.
  intros Hm Ht. rewrite find_movie_run, Hm, Ht. reflexivity.
Qed.

(** The matches handed to the loop of [search_movie] are positions of
    the title list. *)
Lemma top_matches_positions (query : string) (titles : list string)
      (limit : Z) :
  Forall (fun m => (snd m < length titles)%nat)
         (Fuzz.top_matches query titles limit).
Proof.
  rewrite Forall_forall. intros m Hm.
  apply FuzzFacts.top_matches_In, FuzzFacts.In_score_all in Hm.
  destruct Hm as (i & c & Hi & ->). simpl.
  apply nth_error_Some. congruence.
Qed.

(** C4 (amended).  On a loaded service whose title list is no longer
    than the dataframe, for every limit that is not negative,
    [search_movie] raises nothing and returns
    [min(limit, number of titles)] entries for every query, the empty
    and the whitespace-only ones included; [find_movie] returns [None]
    for every query against which all titles score below 60; and for
    the empty query over titles of 1 to 4096 characters every match
    score is 0 and [find_movie] returns [None]. *)
Theorem empty_query_is_scored
        (query : string) (limit : Z) (self self1 : RecommendationService)
        (mb : option Bundle) (titles : list string) (df : DataFrame) :
  model env self = (Ok mb, self1) ->
  _movie_titles self1 = Some titles -> _df self1 = Some df ->
  (length titles <= length df)%nat ->
  (0 <= limit)%Z ->
  (exists results,
     search_movie env query limit self = (Ok results, self1) /\
     length results = Nat.min (Z.to_nat limit) (length titles)) /\
  (Forall (fun t => (Fuzz.ratio query t <? 60) = true) titles ->
   find_movie env query 60 self = (Ok None, self1)) /\
  (Forall (fun t => (1 <= String.length t <= 4096)%nat) titles ->
   find_movie env "" 60 self = (Ok None, self1) /\
   forall results,
     search_movie env "" limit self = (Ok results, self1) ->
     Forall (fun r => SearchResult.match_score r = 0) results).
Proof.
  intros Hm Ht Hdf Hlen Hl.
  assert (Hlow : forall q,
             Forall (fun t => (Fuzz.ratio q t <? 60) = true) titles ->
             find_movie env q 60 self = (Ok None, self1)).
  { intros q Hq. rewrite (find_movie_loaded q 60 _ _ _ _ Hm Ht).
    destruct (Fuzz.extractOne q titles) as [[[c s] i] | ] eqn:E;
      [ | reflexivity].
    apply FuzzFacts.extractOne_In, FuzzFacts.In_score_all in E.
    destruct E as (j & c' & Hj & E). inversion E; subst.
    rewrite Forall_forall in Hq.
    specialize (Hq _ (nth_error_In _ _ Hj)).
    rewrite F64Facts.int_le_float_60.
    now rewrite (F64Facts.ltb_not_leb _ _ Hq). }
  split; [ | split].
  - destruct (search_movie_loaded query limit _ _ _ _ Hm Ht Hl) as [-> _].
    rewrite Hdf.
    destruct (search_results_total df (Fuzz.top_matches query titles limit))
      as [results Hr].
    { eapply Forall_impl; [ | apply top_matches_positions].
      simpl. intros m Hi. lia. }
    exists results. rewrite Hr. split; [reflexivity | ].
    apply search_results_length in Hr.
    now rewrite Hr, FuzzFacts.top_matches_length.
  - apply Hlow.
  - intros Hsz. split.
    + apply Hlow. eapply Forall_impl; [ | exact Hsz].
      intros t Hsize. simpl. now rewrite FuzzFacts.ratio_empty_zero.
    + intros results.
      destruct (search_movie_loaded "" limit _ _ _ _ Hm Ht Hl) as [-> _].
      intros H. injection H as H.
      apply search_results_inv in H.
      assert (Hz : Forall (fun m => Fuzz.match_score m = 0)
                          (Fuzz.top_matches "" titles limit)).
      { rewrite Forall_forall. intros m Hin.
        apply FuzzFacts.top_matches_In, FuzzFacts.In_score_all in Hin.
        destruct Hin as (i & c & Hi & ->). unfold Fuzz.match_score. simpl.
        apply FuzzFacts.ratio_empty_zero.
        rewrite Forall_forall in Hsz. apply Hsz.
        eapply nth_error_In, Hi. }
      revert Hz. induction H as [ | m r ms rs Hmr _ IH]; intros Hz.
      * constructor.
      * inversion Hz as [ | ? ? Hz1 Hz2]; subst. constructor; [ | now apply IH].
        destruct Hmr as (rows & _ & movie & _ & ->). simpl.
        now rewrite Hz1.
Qed.

(** C7.  With the threshold 60 of [get_recommendations], [find_movie]
    returns the best fuzzy match exactly when its score is at least 60:
    a best score equal to 60 is accepted, a best score strictly below 60
    is rejected, and [get_recommendations] then answers with the
    suggestions of [search_movie(movie_name, limit=3)]. *)
Theorem threshold_boundary
        (title : string) (top_n min_votes : Z) (min_rating : float)
        (self self1 : RecommendationService) (mb : option Bundle)
        (titles : list string) (choice : string) (score : float) (idx : nat) :
  model env self = (Ok mb, self1) ->
  _movie_titles self1 = Some titles ->
  Fuzz.extractOne title titles = Some (choice, score, idx) ->
  (score = 60 -> find_movie env title 60 self = (Ok (Some choice), self1)) /\
  ((60 <=? score) = true ->
   find_movie env title 60 self = (Ok (Some choice), self1)) /\
  ((score <? 60) = true ->
   find_movie env title 60 self = (Ok None, self1) /\
   get_recommendations env title top_n min_votes min_rating self =
     match search_results (_df self1) (Fuzz.top_matches title titles 3) with
     | inl e => (inl e, self1)
     | inr suggestions =>
         (Ok (NotFound ("Movie '" ++ title ++ "' not found") suggestions),
          self1)
     end).
Proof.
  intros Hm Ht He.
  pose proof (find_movie_loaded title 60 _ _ _ _ Hm Ht) as Hf.
  rewrite He, F64Facts.int_le_float_60 in Hf.
  split; [ | split].
  - intros ->. exact Hf.
  - intros Hge. now rewrite Hge in Hf.
  - intros Hlt. rewrite (F64Facts.ltb_not_leb _ _ Hlt) in Hf.
    split; [exact Hf | ].
    rewrite get_recommendations_run, Hf.
    destruct (search_movie_loaded title 3 _ _ _ _ Hm Ht) as [_ ->]; [lia | ].
    destruct (search_results (_df self1) (Fuzz.top_matches title titles 3));
      reflexivity.
Qed.

(** C8.  When title resolution fails ([find_movie] returns [None] or an
    empty title), [get_movie_details] returns [None], and whatever
    [get_recommendations] returns is the error dictionary: no
    recommendation list, and [min(3, number of titles)] suggestions,
    hence at most 3, which are the catalog rows at the positions of the
    best-scoring titles, best first, no title left out scoring higher
    than a suggested one; it does return whenever the title list is no
    longer than the dataframe. *)
Theorem not_found_carries_suggestions
        (movie_name : string) (top_n min_votes : Z) (min_rating : float)
        (self self1 : RecommendationService) (matched : option string) :
  find_movie env movie_name 60 self = (Ok matched, self1) ->
  truthy matched = false ->
  get_movie_details env movie_name self = (Ok None, self1) /\
  (forall out self2,
     get_recommendations env movie_name top_n min_votes min_rating self
       = (Ok out, self2) ->
     self2 = self1 /\
     exists suggestions titles rest,
       out = NotFound ("Movie '" ++ movie_name ++ "' not found") suggestions /\
       (length suggestions <= 3)%nat /\
       _movie_titles self1 = Some titles /\
       length suggestions = Nat.min 3 (length titles) /\
       Forall2 (fun m r => exists rows, _df self1 = Some rows /\
                                        entry_of rows m r)
               (Fuzz.top_matches movie_name titles 3) suggestions /\
       Permutation (Fuzz.top_matches movie_name titles 3 ++ rest)
                   (Fuzz.score_all movie_name titles) /\
       StronglySorted (ranks Fuzz.match_score)
                      (Fuzz.top_matches movie_name titles 3) /\
       Forall (fun m => Forall (fun m' => ranks Fuzz.match_score m m') rest)
              (Fuzz.top_matches movie_name titles 3)) /\
  (forall titles df,
     _movie_titles self1 = Some titles -> _df self1 = Some df ->
     (length titles <= length df)%nat ->
     exists suggestions,
       get_recommendations env movie_name top_n min_votes min_rating self
         = (Ok (NotFound ("Movie '" ++ movie_name ++ "' not found")
                         suggestions), self1) /\
       length suggestions = Nat.min 3 (length titles)).
Proof.
  intros Hf Hfalse.
  assert (Hm : exists mb titles,
             model env self = (Ok mb, self1) /\
             _movie_titles self1 = Some titles).
  { rewrite find_movie_run in Hf.
    destruct (model env self) as [[e | mb] s1]; [discriminate | ].
    destruct (_movie_titles s1) as [titles | ] eqn:Et; [ | discriminate].
    injection Hf as _ <-. eauto. }
  destruct Hm as (mb & titles & Hm & Ht).
  assert (Hrun :
            get_recommendations env movie_name top_n min_votes min_rating self =
            match search_results (_df self1)
                                 (Fuzz.top_matches movie_name titles 3) with
            | inl e => (inl e, self1)
            | inr suggestions =>
                (Ok (NotFound ("Movie '" ++ movie_name ++ "' not found")
                              suggestions), self1)
            end).
  { rewrite get_recommendations_run, Hf.
    destruct (search_movie_loaded movie_name 3 _ _ _ _ Hm Ht) as [_ Hs];
      [lia | ].
    cbv beta iota delta [Ok].
    destruct matched as [t | ]; [rewrite Hfalse | ]; rewrite Hs;
      destruct (search_results (_df self1)
                               (Fuzz.top_matches movie_name titles 3));
      reflexivity. }
  split; [ | split].
  - rewrite get_movie_details_run, Hf. cbv beta iota delta [Ok].
    destruct matched as [t | ]; [now rewrite Hfalse | reflexivity].
  - intros out self2. rewrite Hrun.
    destruct (search_results (_df self1) (Fuzz.top_matches movie_name titles 3))
      as [e | suggestions] eqn:Es; [discriminate | ].
    intros H. injection H as <- <-. split; [reflexivity | ].
    destruct (nlargest_top Fuzz.match_score 3
                           (Fuzz.score_all movie_name titles))
      as (rest & Hp & Hs & Htop).
    exists suggestions, titles, rest.
    assert (Hlen : length suggestions = Nat.min 3 (length titles)).
    { apply search_results_length in Es.
      now rewrite Es, FuzzFacts.top_matches_length. }
    split; [reflexivity | ]. split; [lia | ].
    split; [exact Ht | ]. split; [exact Hlen | ]. split.
    { now apply search_results_inv. }
    repeat split; assumption.
  - intros titles' df Ht' Hdf Hlen.
    rewrite Ht in Ht'. injection Ht' as <-.
    rewrite Hrun, Hdf.
    destruct (search_results_total df (Fuzz.top_matches movie_name titles 3))
      as [suggestions Hs].
    { eapply Forall_impl; [ | apply top_matches_positions].
      simpl. intros m Hi. lia. }
    rewrite Hs. exists suggestions. split; [reflexivity | ].
    apply search_results_length in Hs.
    now rewrite Hs, FuzzFacts.top_matches_length.
Qed.

(** C6 (amended).  [_load_model] raises [FileNotFoundError] when the
    path does not resolve, re-raises the exception of [pickle.load]
    when deserialization fails, raises [KeyError] when one of the three
    keys is missing, and otherwise succeeds and stores the three
    collections as they are: their lengths are not compared. *)
Theorem load_model_outcomes (self : RecommendationService) :
  (open_rb env (model_path self) = None ->
   _load_model env self = (Raise FileNotFoundError, self)) /\
  (forall f e,
     open_rb env (model_path self) = Some f ->
     pickle_load env f = Raise e ->
     _load_model env self = (Raise e, self)) /\
  (forall f m,
     open_rb env (model_path self) = Some f ->
     pickle_load env f = Ok m ->
     (dataframe m = None \/ embeddings m = None \/ movie_titles m = None ->
      exists key self1, _load_model env self = (Raise (KeyError key), self1)) /\
     (forall df emb titles,
        dataframe m = Some df -> embeddings m = Some emb ->
        movie_titles m = Some titles ->
        _load_model env self =
          (Ok tt, mkService (model_path self) (Some m) (Some df) (Some emb)
                            (Some titles)))).
Proof.
  unfold _load_model.
  cbv beta iota delta [bind lift ret raise attr getitem set_model set_df
                       set_embeddings set_movie_titles Ok Raise].
  split; [ | split].
  - intros ->. reflexivity.
  - intros f e -> ->. reflexivity.
  - intros f m -> ->. split.
    + intros H. destruct m as [[df | ] [emb | ] [t | ]]; simpl in *;
        eauto; destruct H as [H | [H | H]]; discriminate.
    + intros df emb titles -> -> ->. reflexivity.
Qed.

(** In a catalog whose largest vote count is 0, the quality of a row
    without votes is not a number, and so is its final score. *)
Lemma degenerate_quality_nan (df : DataFrame) (m : Movie.t) (sim : float) :
  log1p env 0 = 0 ->
  vote_count_max df = 0%Z -> Movie.vote_count m = 0%Z ->
  is_nan (quality env m (vote_count_max df)) = true /\
  is_nan (final sim (quality env m (vote_count_max df))) = true.
Proof.
  intros H0 Hmax Hm. unfold quality, final. rewrite Hmax, Hm.
  change (F64.of_Z 0) with 0. rewrite H0.
  assert (Hq : forall x, is_nan (x + 0 / 0 * 0.3) = true).
  { intros x. apply F64Facts.add_nan_r. reflexivity. }
  split; [apply Hq | ].
  apply F64Facts.add_nan_r, F64Facts.mul_nan_l, Hq.
Qed.

End ResolverClaims.

(* ================================================================= *)
(** * The claims on concrete catalogs *)

Section Runs.

Import Examples.
Local Open Scope string_scope.
Local Open Scope float_scope.

(** [blended_score_and_ranking] on the Iron Man catalog: the request
    for "Iron man" returns its two sequels, formatted from rows sorted
    by final score. *)
Lemma blended_score_and_ranking_witness :
  fst (get_recommendations (env_of iron_man_bundle) "Iron man" 2 0 0 fresh)
    = Ok (Recommendations "Iron Man" 2
            [ Recommendation.mk "Iron Man 2" 6.8 9000 0.994 0.903;
              Recommendation.mk "Iron Man 3" 6.9 8806 0.97 0.891 ]) /\
  exists rows,
    [ Recommendation.mk "Iron Man 2" 6.8 9000 0.994 0.903;
      Recommendation.mk "Iron Man 3" 6.9 8806 0.97 0.891 ]
      = map format_row rows /\
    StronglySorted (ranks final_score) rows.
Proof.
  split; [vm_compute; reflexivity | ].
  destruct (blended_score_and_ranking
              (env_of iron_man_bundle) "Iron man" 2 0 0 fresh
              (loaded iron_man_bundle) "Iron Man" 2
              [ Recommendation.mk "Iron Man 2" 6.8 9000 0.994 0.903;
                Recommendation.mk "Iron Man 3" 6.9 8806 0.97 0.891 ])
    as (df & emb & anchor & anchor_emb & df_work & rows & rest & H).
  - vm_compute; reflexivity.
  - exists rows. intuition.
Defined.

(** C2, as stated, fails: with [min_rating = 6.04] the row rated 6.04
    passes the filter and is returned with the rating 6.0, below the
    minimum. *)
Lemma rounded_rating_below_min_rating :
  fst (get_recommendations (env_of heat_ronin) "Heat" 10 50 6.04 fresh)
    = Ok (Recommendations "Heat" 1
            [ Recommendation.mk "Ronin" 6 100 0.8 0.769 ]) /\
  (6.04 <=? 6) = false.
Proof. split; vm_compute; reflexivity. Qed.

(** [filter_holds_on_catalog_rows] on the same request: the entry
    returned is read off a row rated at least 6.04. *)
Lemma filter_holds_on_catalog_rows_witness :
  exists df,
    _df (loaded heat_ronin) = Some df /\
    Forall (fun rec =>
              exists i m,
                nth_error df i = Some m /\
                Recommendation.title rec = Movie.title m /\
                Recommendation.votes rec = Movie.vote_count m /\
                (50 <= Recommendation.votes rec)%Z /\
                (6.04 <=? Movie.vote_average m) = true /\
                Recommendation.rating rec = F64.round (Movie.vote_average m) 1)
           [ Recommendation.mk "Ronin" 6 100 0.8 0.769 ].
Proof.
  apply (filter_holds_on_catalog_rows
           (env_of heat_ronin) "Heat" 10 50 6.04 fresh
           (loaded heat_ronin) "Heat" 1).
  vm_compute; reflexivity.
Defined.

(** C3, as stated, fails: in a catalog with two rows titled "Heat", the
    recommendations for "Heat" contain an entry titled "Heat". *)
Lemma duplicate_title_recommended :
  fst (get_recommendations (env_of heat_twice) "Heat" 10 50 6.0 fresh)
    = Ok (Recommendations "Heat" 2
            [ Recommendation.mk "Ronin" 7 90 0.8 0.793;
              Recommendation.mk "Heat" 6.5 80 0 0.296 ]).
Proof. vm_compute; reflexivity. Qed.

(** [anchor_row_excluded] on the Iron Man catalog, whose titles are
    pairwise distinct: no entry is titled "Iron Man". *)
Lemma anchor_row_excluded_witness :
  Forall (fun rec => Recommendation.title rec <> "Iron Man")
         (recommendations_of
            (fst (get_recommendations (env_of iron_man_bundle) "Iron man"
                                      10 50 6.0 fresh))).
Proof.
  destruct (anchor_row_excluded
              (env_of iron_man_bundle) "Iron man" 10 50 6.0 fresh
              (loaded iron_man_bundle) "Iron Man" 3
              (recommendations_of
                 (fst (get_recommendations (env_of iron_man_bundle) "Iron man"
                                           10 50 6.0 fresh))))
    as (df & anchor & m0 & rows & Hdf & _ & _ & _ & _ & _ & _ & H).
  - vm_compute; reflexivity.
  - apply H. injection Hdf as <-.
    repeat constructor; simpl; intuition discriminate.
Defined.

(** [anchor_is_first_row_with_title] on the catalog with two rows
    titled "Heat": the anchor is row 0, and row 1, which bears the same
    title, is returned. *)
Lemma anchor_is_first_row_with_title_witness :
  exists rec,
    In rec (recommendations_of
              (fst (get_recommendations (env_of heat_twice) "Heat"
                                        10 50 6.0 fresh))) /\
    Recommendation.title rec = "Heat" /\ Recommendation.votes rec = 80%Z.
Proof.
  destruct (anchor_is_first_row_with_title
              (env_of heat_twice) "Heat" 10 50 6.0 fresh
              (loaded heat_twice) "Heat" 2
              (recommendations_of
                 (fst (get_recommendations (env_of heat_twice) "Heat"
                                           10 50 6.0 fresh))))
    as (df & emb & anchor & m0 & anchor_emb & df_work & Hdf & _ & Ha & _
        & Hlow & _ & Hw & _ & _ & H).
  - vm_compute; reflexivity.
  - injection Hdf as <-.
    assert (anchor = 0%nat) as ->.
    { destruct anchor as [ | j]; [reflexivity | ].
      exfalso. apply (Hlow 0%nat (Movie.mk "Heat" 8.2 100 "" ""));
        [lia | reflexivity | reflexivity]. }
    apply (H 1%nat (Movie.mk "Heat" 6.5 80 "" ""));
      try reflexivity; try discriminate; try (simpl; lia).
    eapply Nat.le_trans; [apply filter_length_le | ].
    destruct (work_frame_nth _ _ _ _ 0 Hw) as (_ & -> & _). simpl. lia.
Defined.

(** [bounded_size] on the Iron Man catalog. *)
Lemma bounded_size_witness :
  (Z.of_nat (length (recommendations_of
     (fst (get_recommendations (env_of iron_man_bundle) "Iron man"
                               2 0 0 fresh)))) <= 2)%Z /\
  (forall results,
     fst (search_movie (env_of iron_man_bundle) "iro" 3 fresh) = Ok results ->
     (Z.of_nat (length results) <= 3)%Z).
Proof.
  destruct (bounded_size (env_of iron_man_bundle) "Iron man" "iro" 2 0 3 0
                         fresh) as [H1 H2]; [lia | lia | ].
  split.
  - apply (H1 (loaded iron_man_bundle) "Iron Man" 2%nat).
    vm_compute; reflexivity.
  - intros results Hr. apply (H2 (loaded iron_man_bundle)).
    rewrite <- Hr. vm_compute; reflexivity.
Defined.

(** C4, as stated, fails: for the empty query and for a query of two
    spaces [search_movie] returns the whole catalog with its scores,
    not an empty list. *)
Lemma empty_query_returns_matches :
  fst (search_movie (env_of iron_man_bundle) "" 5 fresh)
    = Ok [ SearchResult.mk "Iron Man" 0 7.6 12000;
           SearchResult.mk "Iron Man 2" 0 6.8 9000;
           SearchResult.mk "Iron Man 3" 0 6.9 8806;
           SearchResult.mk "The Matrix" 0 8.1 9500 ] /\
  fst (search_movie (env_of iron_man_bundle) "  " 5 fresh)
    = Ok [ SearchResult.mk "Iron Man 2" 33.3 6.8 9000;
           SearchResult.mk "Iron Man 3" 33.3 6.9 8806;
           SearchResult.mk "Iron Man" 20 7.6 12000;
           SearchResult.mk "The Matrix" 16.7 8.1 9500 ].
Proof. split; vm_compute; reflexivity. Qed.

(** [empty_query_is_scored] on the Iron Man catalog. *)
Lemma empty_query_is_scored_witness :
  (exists results,
     search_movie (env_of iron_man_bundle) "  " 5 fresh
       = (Ok results, loaded iron_man_bundle) /\
     length results = 4%nat) /\
  find_movie (env_of iron_man_bundle) "" 60 fresh
    = (Ok None, loaded iron_man_bundle).
Proof.
  destruct (empty_query_is_scored
              (env_of iron_man_bundle) "  " 5 fresh (loaded iron_man_bundle)
              (Some iron_man_bundle) (map Movie.title iron_man) iron_man)
    as (H1 & _ & H3); try (vm_compute; reflexivity); [lia | ].
  split; [exact H1 | ].
  apply H3. repeat constructor; simpl; lia.
Defined.

(** C5: what the code returns for a catalog in which no movie has any
    vote.  No exception is raised, but the popularity term is 0/0: the
    quality of the returned row is not a number, whereas the value
    [0.7 * (rating / 10)] that the claim gives is one, and the score
    returned is NaN. *)
Lemma degenerate_catalog_scores_nan :
  fst (get_recommendations (env_of no_votes) "Heat" 10 0 0 fresh)
    = Ok (Recommendations "Heat" 1
            [ Recommendation.mk "Ronin" 7 0 0.8 nan ]) /\
  is_nan (quality (env_of no_votes) (Movie.mk "Ronin" 7.0 0 "" "") 0) = true /\
  is_nan (0.7 * (7.0 / 10)) = false.
Proof. repeat split; vm_compute; reflexivity. Qed.

(** C6, as stated, fails: a bundle holding 2 catalog rows, 1 embedding
    and 3 titles is loaded without any error. *)
Lemma misaligned_bundle_loads :
  fst (_load_model (env_of misaligned) fresh) = Ok tt /\
  option_map (@length _) (_df (snd (_load_model (env_of misaligned) fresh)))
    = Some 2%nat /\
  option_map (@length _)
             (_embeddings (snd (_load_model (env_of misaligned) fresh)))
    = Some 1%nat /\
  option_map (@length _)
             (_movie_titles (snd (_load_model (env_of misaligned) fresh)))
    = Some 3%nat.
Proof. repeat split; vm_compute; reflexivity. Qed.

(** [load_model_outcomes] on the example platform: a service pointed at
    a path that does not exist fails with [FileNotFoundError], and the
    misaligned bundle is stored as it is. *)
Lemma load_model_outcomes_witness :
  _load_model (env_of misaligned) (__init__ "./nowhere.pkl")
    = (Raise FileNotFoundError, __init__ "./nowhere.pkl") /\
  _load_model (env_of misaligned) fresh
    = (Ok tt, mkService default_path (Some misaligned)
                        (dataframe misaligned) (embeddings misaligned)
                        (movie_titles misaligned)).
Proof.
  split.
  - apply (load_model_outcomes (env_of misaligned) (__init__ "./nowhere.pkl")).
    reflexivity.
  - destruct (load_model_outcomes (env_of misaligned) fresh) as (_ & _ & H).
    destruct (H pickled misaligned eq_refl eq_refl) as [_ H'].
    apply H'; reflexivity.
Defined.

(** [threshold_boundary] on a catalog holding "Ghost": "Ghoul" scores
    exactly 60 and resolves, "Ghoul!" scores 54.5 and does not. *)
Lemma threshold_boundary_witness :
  Fuzz.ratio "Ghoul" "Ghost" = 60 /\
  find_movie (env_of ghost) "Ghoul" 60 fresh = (Ok (Some "Ghost"), loaded ghost) /\
  (Fuzz.ratio "Ghoul!" "Ghost" <? 60) = true /\
  find_movie (env_of ghost) "Ghoul!" 60 fresh = (Ok None, loaded ghost).
Proof.
  split; [vm_compute; reflexivity | ]. split.
  - apply (threshold_boundary (env_of ghost) "Ghoul" 10 50 6.0 fresh
                              (loaded ghost) (Some ghost) ["Ghost"]
                              "Ghost" 60 0%nat);
      vm_compute; reflexivity.
  - split; [vm_compute; reflexivity | ].
    apply (threshold_boundary (env_of ghost) "Ghoul!" 10 50 6.0 fresh
                              (loaded ghost) (Some ghost) ["Ghost"]
                              "Ghost" (Fuzz.ratio "Ghoul!" "Ghost") 0%nat);
      vm_compute; reflexivity.
Defined.

(** [not_found_carries_suggestions] on the Iron Man catalog: an unknown
    title yields no details and an error dictionary with 3 suggestions. *)
Lemma not_found_carries_suggestions_witness :
  get_movie_details (env_of iron_man_bundle) "Nonexistent Movie Title XYZ" fresh
    = (Ok None, loaded iron_man_bundle) /\
  exists suggestions,
    get_recommendations (env_of iron_man_bundle) "Nonexistent Movie Title XYZ"
                        10 50 6.0 fresh
      = (Ok (NotFound "Movie 'Nonexistent Movie Title XYZ' not found"
                      suggestions), loaded iron_man_bundle) /\
    length suggestions = 3%nat.
Proof.
  destruct (not_found_carries_suggestions
              (env_of iron_man_bundle) "Nonexistent Movie Title XYZ" 10 50 6.0
              fresh (loaded iron_man_bundle) None)
    as (H1 & _ & H3); try (vm_compute; reflexivity).
  split; [exact H1 | ].
  apply (H3 (map Movie.title iron_man) iron_man); vm_compute; reflexivity.
Defined.

End Runs.

(* ================================================================= *)
(** * Further properties of the service and of the HTTP layer *)

(** ** More facts about binary64 comparison *)

Module F64Order.

Import F64.
Local Open Scope float_scope.

Lemma SFltb_key (x y : spec_float) :
  SFltb x y = true <->
  SFnan x = false /\ SFnan y = false /\ lex3 (SFkey x) (SFkey y) = Lt.
Proof.
  unfold SFltb. split.
  - intros H.
    assert (Hx : SFnan x = false).
    { destruct x; try reflexivity. simpl in H. discriminate. }
    assert (Hy : SFnan y = false).
    { destruct y; try reflexivity. destruct x; simpl in H; discriminate. }
    rewrite (F64Facts.SFcompare_key _ _ Hx Hy) in H.
    repeat split; try assumption.
    destruct (lex3 (SFkey x) (SFkey y)); congruence.
  - intros (Hx & Hy & H). now rewrite (F64Facts.SFcompare_key _ _ Hx Hy), H.
Qed.

Lemma lex3_lt_le_trans (a b c : Z * (Z * Z)) :
  lex3 a b = Lt -> lex3 b c <> Gt -> lex3 a c = Lt.
Proof.
  destruct a as [a1 [a2 a3]], b as [b1 [b2 b3]], c as [c1 [c2 c3]].
  unfold lex3; simpl.
  destruct (Z.compare_spec a1 b1), (Z.compare_spec b1 c1),
    (Z.compare_spec a1 c1); try lia; try congruence;
  destruct (Z.compare_spec a2 b2), (Z.compare_spec b2 c2),
    (Z.compare_spec a2 c2); try lia; try congruence;
  destruct (Z.compare_spec a3 b3), (Z.compare_spec b3 c3),
    (Z.compare_spec a3 c3); try lia; congruence.
Qed.

Lemma ltb_leb_trans (x y z : float) :
  (x <? y) = true -> (y <=? z) = true -> (x <? z) = true.
Proof.
  rewrite !ltb_spec, leb_spec, !SFltb_key, F64Facts.SFleb_key.
  intros (Hx & Hy & H1) (_ & Hz & H2). repeat split; try assumption.
  eapply lex3_lt_le_trans; eassumption.
Qed.

Lemma ltb_leb (x y : float) : (x <? y) = true -> (x <=? y) = true.
Proof.
  rewrite ltb_spec, leb_spec, SFltb_key, F64Facts.SFleb_key.
  intros (Hx & Hy & H). repeat split; try assumption. congruence.
Qed.

(** Among comparable values, not being below means being at or above. *)
Lemma not_ltb_leb (x y : float) :
  is_nan x = false -> is_nan y = false ->
  (x <? y) = false -> (y <=? x) = true.
Proof.
  intros Hx Hy H. destruct (y <=? x) eqn:E; [reflexivity | ].
  rewrite (F64Facts.leb_false_ltb x y Hx Hy E) in H. discriminate.
Qed.

End F64Order.

(** ** The single best match *)

Module BestMatch.

Import Fuzz.
Local Open Scope float_scope.

Lemma ltb_irrefl (x : float) : (x <? x) = false.
Proof.
  destruct (x <? x) eqn:E; [ | reflexivity].
  pose proof (F64Facts.ltb_not_leb _ _ E) as H1.
  pose proof (F64Order.ltb_leb _ _ E) as H2. congruence.
Qed.

Lemma better_keeps_invariant (seen : list match_t) (best : option match_t)
      (x : match_t) :
  best_so_far seen best -> best_so_far (seen ++ [x]) (better best x).
Proof.
  unfold best_so_far, better. destruct best as [b | ].
  - intros (H0 & before & after & -> & Hb & Ha).
    destruct (match_score b <? match_score x) eqn:E.
    + split.
      * eapply F64Facts.leb_trans; [exact H0 | ].
        now apply F64Order.ltb_leb.
      * exists (before ++ b :: after), []. split; [reflexivity | ].
        split; [ | constructor].
        apply Forall_app. split; [ | constructor].
        -- eapply Forall_impl; [ | exact Hb]. intros y Hy. simpl in Hy.
           destruct (match_score x <=? match_score y) eqn:Exy;
             [ | reflexivity].
           pose proof (F64Order.ltb_leb_trans _ _ _ E Exy) as Hlt.
           apply F64Order.ltb_leb in Hlt. congruence.
        -- now apply F64Facts.ltb_not_leb.
        -- eapply Forall_impl; [ | exact Ha]. intros y Hy. simpl in Hy.
           destruct (match_score x <=? match_score y) eqn:Exy;
             [ | reflexivity].
           pose proof (F64Order.ltb_leb_trans _ _ _ E Exy). congruence.
    + split; [exact H0 | ].
      exists before, (after ++ [x]). split.
      * now rewrite <- app_assoc.
      * split; [exact Hb | ]. apply Forall_app. split; [exact Ha | ].
        constructor; [exact E | constructor].
  - intros Hs. destruct (0 <=? match_score x) eqn:E.
    + split; [exact E | ]. exists seen, []. split; [reflexivity | ].
      split; [ | constructor].
      eapply Forall_impl; [ | exact Hs]. intros y Hy. simpl in Hy.
      destruct (match_score x <=? match_score y) eqn:Exy; [ | reflexivity].
      pose proof (F64Facts.leb_trans _ _ _ E Exy). congruence.
    + apply Forall_app. split; [exact Hs | ].
      constructor; [exact E | constructor].
Qed.

Lemma fold_better_invariant (l seen : list match_t) (best : option match_t) :
  best_so_far seen best -> best_so_far (seen ++ l) (fold_left better l best).
Proof.
  revert seen best. induction l as [ | x l IH]; intros seen best H; simpl.
  - now rewrite app_nil_r.
  - replace (seen ++ x :: l) with ((seen ++ [x]) ++ l)
      by now rewrite <- app_assoc.
    apply IH, better_keeps_invariant, H.
Qed.

Lemma extractOne_invariant (query : string) (choices : list string) :
  best_so_far (score_all query choices) (extractOne query choices).
Proof.
  unfold extractOne.
  apply (fold_better_invariant (score_all query choices) [] None).
  constructor.
Qed.

Lemma nth_error_score_all (query : string) (choices : list string) (j : nat) :
  nth_error (score_all query choices) j =
  option_map (fun c => (c, ratio query c, j)) (nth_error choices j).
Proof.
  unfold score_all. rewrite nth_error_map, nth_error_indexed.
  now destruct (nth_error choices j).
Qed.

(** The match returned by [extractOne] is a title at its own position,
    no title scores strictly higher, and no earlier title scores as
    high. *)
Lemma extractOne_best (query : string) (choices : list string)
      (c : string) (s : float) (i : nat) :
  extractOne query choices = Some (c, s, i) ->
  nth_error choices i = Some c /\ s = ratio query c /\ (0 <=? s) = true /\
  (forall j c', nth_error choices j = Some c' ->
                (s <? ratio query c') = false) /\
  (forall j c', (j < i)%nat -> nth_error choices j = Some c' ->
                (s <=? ratio query c') = false).
Proof.
  intros H. pose proof (extractOne_invariant query choices) as Hinv.
  rewrite H in Hinv. destruct Hinv as (H0 & before & after & Hsplit & Hb & Ha).
  unfold match_score in *. simpl in *.
  assert (Hi : nth_error (score_all query choices) (length before)
               = Some (c, s, i)).
  { rewrite Hsplit, nth_error_app2, Nat.sub_diag by lia. reflexivity. }
  rewrite nth_error_score_all in Hi.
  destruct (nth_error choices (length before)) as [c0 | ] eqn:Ec;
    [ | discriminate].
  simpl in Hi. injection Hi as E1 E2 E3. subst c0 i. symmetry in E2.
  assert (Hearly : forall j c', (j < length before)%nat ->
            nth_error choices j = Some c' -> (s <=? ratio query c') = false).
  { intros j c' Hj Hc.
    assert (Hin : In (c', ratio query c', j) before).
    { apply (nth_error_In _ j).
      assert (E : nth_error (score_all query choices) j
                  = Some (c', ratio query c', j)).
      { rewrite nth_error_score_all, Hc. reflexivity. }
      rewrite Hsplit, nth_error_app1 in E by assumption. exact E. }
    rewrite Forall_forall in Hb. apply (Hb _ Hin). }
  split; [assumption | ]. split; [assumption | ]. split; [assumption | ].
  split; [ | exact Hearly].
  intros j c' Hc.
  destruct (Nat.lt_trichotomy j (length before)) as [Hj | [-> | Hj]].
  - specialize (Hearly j c' Hj Hc).
    destruct (s <? ratio query c') eqn:E; [ | reflexivity].
    apply F64Order.ltb_leb in E. congruence.
  - assert (c' = c) by congruence. subst c'. rewrite <- E2. apply ltb_irrefl.
  - assert (Hin : In (c', ratio query c', j) after).
    { apply (nth_error_In _ (j - S (length before))).
      assert (E : nth_error (score_all query choices) j
                  = Some (c', ratio query c', j)).
      { rewrite nth_error_score_all, Hc. reflexivity. }
      rewrite Hsplit, nth_error_app2 in E by lia.
      replace (j - length before)%nat
        with (S (j - S (length before))) in E by lia.
      exact E. }
    rewrite Forall_forall in Ha. apply (Ha _ Hin).
Qed.

(** [extractOne] finds nothing only when no title scores 0 or more. *)
Lemma extractOne_none (query : string) (choices : list string) (c : string) :
  extractOne query choices = None -> In c choices ->
  (0 <=? ratio query c) = false.
Proof.
  intros H Hin. pose proof (extractOne_invariant query choices) as Hinv.
  rewrite H in Hinv. simpl in Hinv. rewrite Forall_forall in Hinv.
  apply In_nth_error in Hin. destruct Hin as [j Hj].
  apply (Hinv (c, ratio query c, j)).
  apply (nth_error_In _ j). rewrite nth_error_score_all, Hj. reflexivity.
Qed.

End BestMatch.

(** ** Lazy loading: what a first use does and what later uses do *)

Section Loading.

Variable env : Env.

Ltac run_all :=
  cbv beta iota delta [bind lift ret raise attr getitem set_model set_df
                       set_embeddings set_movie_titles Ok Raise] in *.

Lemma model_loaded (self : RecommendationService) (m : Bundle) :
  _model self = Some m -> model env self = (Ok (Some m), self).
Proof. intros H. unfold model. now rewrite H. Qed.

Lemma recommended_rows_state (t : string) (top_n min_votes : Z)
      (min_rating : float) (self : RecommendationService) :
  snd (recommended_rows env t top_n min_votes min_rating self) = self.
Proof.
  unfold recommended_rows. run_all.
  destruct (_df self) as [df | ]; [ | reflexivity].
  destruct (rows_titled df t) as [ | [a m0] rest]; [reflexivity | ].
  destruct (_embeddings self) as [emb | ]; [ | reflexivity].
  destruct (nth_error emb a) as [v | ]; [ | reflexivity].
  destruct (Sklearn.check_pairwise_arrays v emb); [ | reflexivity].
  destruct (work_frame env df _); reflexivity.
Qed.

Lemma search_movie_state_loaded (self : RecommendationService) (m : Bundle)
      (query : string) (limit : Z) :
  _model self = Some m -> snd (search_movie env query limit self) = self.
Proof.
  intros Hm. rewrite search_movie_run, (model_loaded self m Hm).
  cbv beta iota delta [Ok].
  destruct (_movie_titles self) as [titles | ]; [ | reflexivity].
  destruct (Fuzz.extract query titles limit); reflexivity.
Qed.

Lemma find_movie_state_loaded (self : RecommendationService) (m : Bundle)
      (title : string) (threshold : Z) :
  _model self = Some m -> snd (find_movie env title threshold self) = self.
Proof.
  intros Hm. rewrite find_movie_run, (model_loaded self m Hm).
  cbv beta iota delta [Ok]. destruct (_movie_titles self); reflexivity.
Qed.

(** X1.  Once the model is set, no method modifies the service: the
    property [model] and the four operations all leave it as it is. *)
Theorem loaded_service_is_never_modified
        (self : RecommendationService) (m : Bundle)
        (query : string) (limit threshold top_n min_votes : Z)
        (min_rating : float) :
  _model self = Some m ->
  snd (model env self) = self /\
  snd (search_movie env query limit self) = self /\
  snd (find_movie env query threshold self) = self /\
  snd (get_recommendations env query top_n min_votes min_rating self) = self /\
  snd (get_movie_details env query self) = self.
Proof.
  intros Hm. pose proof (model_loaded self m Hm) as Hmod.
  assert (Hs : forall q l, snd (search_movie env q l self) = self)
    by (intros; now apply (search_movie_state_loaded self m)).
  assert (Hf : forall q th, snd (find_movie env q th self) = self)
    by (intros; now apply (find_movie_state_loaded self m)).
  split; [now rewrite Hmod | ]. split; [apply Hs | ]. split; [apply Hf | ].
  split.
  - rewrite get_recommendations_run.
    specialize (Hf query 60%Z).
    destruct (find_movie env query 60 self) as [[e | [t | ]] s1];
      simpl in Hf; subst s1; [reflexivity | | ].
    + destruct (truthy (Some t)).
      * pose proof (recommended_rows_state t top_n min_votes min_rating self)
          as Hr.
        destruct (recommended_rows env t top_n min_votes min_rating self)
          as [[e | rows] s2]; simpl in Hr; subst s2; reflexivity.
      * specialize (Hs query 3%Z).
        destruct (search_movie env query 3 self) as [[e | sg] s2];
          simpl in Hs; subst s2; reflexivity.
    + specialize (Hs query 3%Z).
      destruct (search_movie env query 3 self) as [[e | sg] s2];
        simpl in Hs; subst s2; reflexivity.
  - rewrite get_movie_details_run.
    specialize (Hf query 60%Z).
    destruct (find_movie env query 60 self) as [[e | [t | ]] s1];
      simpl in Hf; subst s1; [reflexivity | | reflexivity].
    destruct (truthy (Some t)); [ | reflexivity].
    destruct (_df self) as [df | ]; [ | reflexivity].
    destruct (rows_titled df t) as [ | [i mv] rest]; reflexivity.
Qed.

(** X2.  Once the model is set, the file system and the unpickler are
    not consulted any more: on two platforms that agree on [log1p],
    every operation gives the same answer. *)
Theorem loaded_service_ignores_file_system
        (env' : Env) (self : RecommendationService) (m : Bundle)
        (query : string) (limit threshold top_n min_votes : Z)
        (min_rating : float) :
  _model self = Some m ->
  log1p env' = log1p env ->
  search_movie env' query limit self = search_movie env query limit self /\
  find_movie env' query threshold self = find_movie env query threshold self /\
  get_recommendations env' query top_n min_votes min_rating self
    = get_recommendations env query top_n min_votes min_rating self /\
  get_movie_details env' query self = get_movie_details env query self.
Proof.
  intros Hm Hlog.
  assert (Hmod : model env' self = model env self).
  { unfold model. now rewrite Hm. }
  assert (Hs : forall q l, search_movie env' q l self
                           = search_movie env q l self).
  { intros q l. now rewrite !search_movie_run, Hmod. }
  assert (Hf : forall q th, find_movie env' q th self
                            = find_movie env q th self).
  { intros q th. now rewrite !find_movie_run, Hmod. }
  assert (Hr : forall t s, recommended_rows env' t top_n min_votes min_rating s
                           = recommended_rows env t top_n min_votes min_rating s).
  { intros t s. unfold recommended_rows, work_frame, quality.
    now rewrite Hlog. }
  split; [apply Hs | ]. split; [apply Hf | ]. split.
  - rewrite !get_recommendations_run, Hf.
    pose proof (find_movie_state_loaded self m query 60 Hm) as Hst.
    destruct (find_movie env query 60 self) as [[e | [t | ]] s1];
      simpl in Hst; subst s1; [reflexivity | | now rewrite Hs].
    now rewrite Hr, Hs.
  - now rewrite !get_movie_details_run, Hf.
Qed.

Lemma load_model_success (self : RecommendationService)
      (f : list Byte.byte) (m : Bundle) (df : DataFrame) (emb : Matrix)
      (titles : list string) :
  open_rb env (model_path self) = Some f -> pickle_load env f = Ok m ->
  dataframe m = Some df -> embeddings m = Some emb ->
  movie_titles m = Some titles ->
  _load_model env self =
    (Ok tt, mkService (model_path self) (Some m) (Some df) (Some emb)
                      (Some titles)).
Proof.
  intros Hf Hp Hd He Ht. unfold _load_model. run_all.
  rewrite Hf, Hp. cbv beta iota. now rewrite Hd, He, Ht.
Qed.

(** X3.  The first use of an unloaded service loads the model: every
    operation answers as on the service that holds the three
    collections of the bundle, and leaves that service behind. *)
Theorem first_use_loads_the_model
        (self : RecommendationService) (f : list Byte.byte) (m : Bundle)
        (df : DataFrame) (emb : Matrix) (titles : list string)
        (query : string) (limit threshold top_n min_votes : Z)
        (min_rating : float) :
  _model self = None ->
  open_rb env (model_path self) = Some f -> pickle_load env f = Ok m ->
  dataframe m = Some df -> embeddings m = Some emb ->
  movie_titles m = Some titles ->
  let self1 := mkService (model_path self) (Some m) (Some df) (Some emb)
                         (Some titles) in
  search_movie env query limit self = search_movie env query limit self1 /\
  find_movie env query threshold self = find_movie env query threshold self1 /\
  get_recommendations env query top_n min_votes min_rating self
    = get_recommendations env query top_n min_votes min_rating self1 /\
  get_movie_details env query self = get_movie_details env query self1 /\
  snd (search_movie env query limit self) = self1.
Proof.
  intros Hn Hf Hp Hd He Ht self1.
  assert (Hmod : model env self = (Ok (Some m), self1)).
  { unfold model. rewrite Hn. unfold bind.
    rewrite (load_model_success self f m df emb titles Hf Hp Hd He Ht).
    reflexivity. }
  assert (Hmod1 : model env self1 = (Ok (Some m), self1))
    by now apply model_loaded.
  assert (Hs : forall q l, search_movie env q l self
                           = search_movie env q l self1).
  { intros q l. now rewrite !search_movie_run, Hmod, Hmod1. }
  assert (Hfm : forall q th, find_movie env q th self
                             = find_movie env q th self1).
  { intros q th. now rewrite !find_movie_run, Hmod, Hmod1. }
  split; [apply Hs | ]. split; [apply Hfm | ]. split; [ | split].
  - now rewrite !get_recommendations_run, Hfm.
  - now rewrite !get_movie_details_run, Hfm.
  - rewrite Hs. now apply (search_movie_state_loaded self1 m).
Qed.

End Loading.

(** ** Failed loads *)

Section FailedLoads.

Variable env : Env.

Ltac run_all :=
  cbv beta iota delta [bind lift ret raise attr getitem set_model set_df
                       set_embeddings set_movie_titles Ok Raise] in *.

(** When [model] raises, every operation raises the same exception and
    leaves the same service behind. *)
Lemma operations_propagate_model_error
      (self self1 : RecommendationService) (e : exn)
      (query : string) (limit threshold top_n min_votes : Z)
      (min_rating : float) :
  model env self = (Raise e, self1) ->
  search_movie env query limit self = (Raise e, self1) /\
  find_movie env query threshold self = (Raise e, self1) /\
  get_recommendations env query top_n min_votes min_rating self
    = (Raise e, self1) /\
  get_movie_details env query self = (Raise e, self1).
Proof.
  intros Hm.
  assert (Hf : forall th, find_movie env query th self = (Raise e, self1)).
  { intros th. rewrite find_movie_run, Hm. reflexivity. }
  split; [rewrite search_movie_run, Hm; reflexivity | ].
  split; [apply Hf | ]. split.
  - rewrite get_recommendations_run, Hf. reflexivity.
  - rewrite get_movie_details_run, Hf. reflexivity.
Qed.

(** On a service whose model is set but whose title list is not, every
    operation raises [TypeError]. *)
Lemma operations_without_titles
      (self : RecommendationService) (m : Bundle)
      (query : string) (limit threshold top_n min_votes : Z)
      (min_rating : float) :
  _model self = Some m -> _movie_titles self = None ->
  search_movie env query limit self = (Raise TypeError, self) /\
  find_movie env query threshold self = (Raise TypeError, self) /\
  get_recommendations env query top_n min_votes min_rating self
    = (Raise TypeError, self) /\
  get_movie_details env query self = (Raise TypeError, self).
Proof.
  intros Hm Ht.
  assert (Hmod : model env self = (Ok (Some m), self)).
  { unfold model. now rewrite Hm. }
  assert (Hf : forall th, find_movie env query th self
                          = (Raise TypeError, self)).
  { intros th. rewrite find_movie_run, Hmod. cbv beta iota delta [Ok].
    now rewrite Ht. }
  split.
  { rewrite search_movie_run, Hmod. cbv beta iota delta [Ok]. now rewrite Ht. }
  split; [apply Hf | ]. split.
  - rewrite get_recommendations_run, Hf. reflexivity.
  - rewrite get_movie_details_run, Hf. reflexivity.
Qed.

(** X4.  A load that fails before the model is assigned (the file is
    missing, or [pickle.load] raises) leaves the service untouched:
    every operation raises that exception, [/health] reports it, and the
    service is still unloaded, so the next call tries to load again. *)
Theorem failed_load_is_retried
        (self : RecommendationService) (e : exn)
        (query : string) (limit threshold top_n min_votes : Z)
        (min_rating : float) :
  _model self = None ->
  (open_rb env (model_path self) = None /\ e = FileNotFoundError) \/
  (exists f, open_rb env (model_path self) = Some f /\
             pickle_load env f = Raise e) ->
  search_movie env query limit self = (Raise e, self) /\
  find_movie env query threshold self = (Raise e, self) /\
  get_recommendations env query top_n min_votes min_rating self
    = (Raise e, self) /\
  get_movie_details env query self = (Raise e, self) /\
  health_check env self = (Unhealthy e, self).
Proof.
  intros Hn Hfail.
  assert (Hm : model env self = (Raise e, self)).
  { unfold model. rewrite Hn. unfold _load_model. run_all.
    destruct Hfail as [[Ho ->] | (f & Ho & Hp)].
    - now rewrite Ho.
    - rewrite Ho. cbv beta iota. now rewrite Hp. }
  destruct (operations_propagate_model_error
              self self e query limit threshold top_n min_votes min_rating Hm)
    as (H1 & H2 & H3 & H4).
  repeat split; try assumption.
  unfold health_check. now rewrite Hm.
Qed.

(** What a load leaves behind when the bundle lacks a key. *)
Lemma model_missing_key (path : string) (f : list Byte.byte) (m : Bundle) :
  open_rb env path = Some f -> pickle_load env f = Ok m ->
  dataframe m = None \/ embeddings m = None \/ movie_titles m = None ->
  exists key self1,
    model env (__init__ path) = (Raise (KeyError key), self1) /\
    _model self1 = Some m /\ _movie_titles self1 = None /\
    _df self1 = (match dataframe m with
                 | Some df => Some df
                 | None => None
                 end).
Proof.
  intros Ho Hp Hk. unfold model, __init__. simpl _model. cbv iota.
  unfold _load_model. run_all. cbn [model_path]. rewrite Ho. cbv beta iota.
  rewrite Hp. cbv beta iota.
  destruct m as [[df | ] [emb | ] [t | ]]; simpl in *;
    try (destruct Hk as [Hk | [Hk | Hk]]; discriminate);
    eexists; eexists; (split; [reflexivity | ]); simpl; auto.
Qed.

(** X5.  When the bundle lacks one of the three keys, the first use of
    a new service raises [KeyError], but the model stays assigned: the
    load is never tried again, and every later operation raises
    [TypeError] instead. *)
Theorem missing_key_is_not_retried
        (path : string) (f : list Byte.byte) (m : Bundle)
        (query : string) (limit threshold top_n min_votes : Z)
        (min_rating : float) :
  open_rb env path = Some f -> pickle_load env f = Ok m ->
  dataframe m = None \/ embeddings m = None \/ movie_titles m = None ->
  exists key self1,
    _model self1 = Some m /\
    (* the first use *)
    search_movie env query limit (__init__ path)
      = (Raise (KeyError key), self1) /\
    find_movie env query threshold (__init__ path)
      = (Raise (KeyError key), self1) /\
    get_recommendations env query top_n min_votes min_rating (__init__ path)
      = (Raise (KeyError key), self1) /\
    get_movie_details env query (__init__ path)
      = (Raise (KeyError key), self1) /\
    (* every later use *)
    search_movie env query limit self1 = (Raise TypeError, self1) /\
    find_movie env query threshold self1 = (Raise TypeError, self1) /\
    get_recommendations env query top_n min_votes min_rating self1
      = (Raise TypeError, self1) /\
    get_movie_details env query self1 = (Raise TypeError, self1).
Proof.
  intros Ho Hp Hk.
  destruct (model_missing_key path f m Ho Hp Hk)
    as (key & self1 & Hm & Hmodel & Ht & _).
  exists key, self1.
  destruct (operations_propagate_model_error
              (__init__ path) self1 (KeyError key) query limit threshold
              top_n min_votes min_rating Hm) as (H1 & H2 & H3 & H4).
  destruct (operations_without_titles
              self1 m query limit threshold top_n min_votes min_rating
              Hmodel Ht) as (H5 & H6 & H7 & H8).
  repeat split; assumption.
Qed.

(** X6.  After a first use that failed on a missing ['embeddings'] or
    ['movie_titles'] key, [/health] reports the service healthy, with
    the number of catalog rows, although [/search], [/recommend] and
    [/movie] all answer 500. *)
Theorem health_reports_healthy_when_half_loaded
        (path : string) (f : list Byte.byte) (m : Bundle) (df : DataFrame)
        (query : string) (limit : Z) (req : RecommendationRequest.t) :
  open_rb env path = Some f -> pickle_load env f = Ok m ->
  dataframe m = Some df ->
  embeddings m = None \/ movie_titles m = None ->
  (2 <= String.length query)%nat ->
  exists self1,
    snd (health_check env (__init__ path)) = self1 /\
    health_check env self1 = (Healthy (length df), self1) /\
    search env query limit self1 = (HTTPException 500 (Str TypeError), self1) /\
    recommend env req self1 = (HTTPException 500 (Str TypeError), self1) /\
    get_movie env query self1 = (HTTPException 500 (Str TypeError), self1).
Proof.
  intros Ho Hp Hd Hk Hlen.
  destruct (model_missing_key path f m Ho Hp (or_intror Hk))
    as (key & self1 & Hm & Hmodel & Ht & Hdf).
  rewrite Hd in Hdf. exists self1.
  assert (Hmod : model env self1 = (Ok (Some m), self1)).
  { unfold model. now rewrite Hmodel. }
  split; [unfold health_check; now rewrite Hm | ].
  split; [unfold health_check; rewrite Hmod; cbv beta iota delta [Ok];
          now rewrite Hdf | ].
  split; [ | split].
  - unfold search.
    destruct (Nat.ltb_spec (String.length query) 2) as [Hlt | _]; [lia | ].
    destruct (operations_without_titles
                self1 m query (if (20 <? limit)%Z then 20%Z else limit)
                0 0 0 0%float Hmodel Ht) as (-> & _). reflexivity.
  - unfold recommend.
    destruct (operations_without_titles
                self1 m (RecommendationRequest.title req) 0 0
                (RecommendationRequest.top_n req)
                (RecommendationRequest.min_votes req)
                (RecommendationRequest.min_rating req) Hmodel Ht)
      as (_ & _ & -> & _). reflexivity.
  - unfold get_movie.
    destruct (operations_without_titles
                self1 m query 0 0 0 0 0%float Hmodel Ht)
      as (_ & _ & _ & ->). reflexivity.
Qed.

End FailedLoads.

(** ** Title resolution and search on a loaded service *)

Section Resolution.

Variable env : Env.

Local Open Scope float_scope.

(** X7.  [find_movie] returns the best match or nothing.  For a
    threshold of at most 48 bits that is not negative (Python then
    compares it with the score as the float of the same value), a title
    it returns is a known title whose score reaches the threshold, that
    no title beats and that no earlier title equals; it returns [None]
    only when no title reaches the threshold. *)
Theorem find_movie_returns_best_title
        (title : string) (threshold : Z)
        (self self1 : RecommendationService) (mb : option Bundle)
        (titles : list string) :
  model env self = (Ok mb, self1) -> _movie_titles self1 = Some titles ->
  (Z.abs threshold < 2 ^ 48)%Z ->
  (0 <=? F64.of_Z threshold) = true ->
  (exists r, find_movie env title threshold self = (Ok r, self1)) /\
  (forall t,
     find_movie env title threshold self = (Ok (Some t), self1) ->
     exists i,
       nth_error titles i = Some t /\
       (F64.of_Z threshold <=? Fuzz.ratio title t) = true /\
       (forall j c, nth_error titles j = Some c ->
                    (Fuzz.ratio title t <? Fuzz.ratio title c) = false) /\
       (forall j c, (j < i)%nat -> nth_error titles j = Some c ->
                    (Fuzz.ratio title t <=? Fuzz.ratio title c) = false)) /\
  (find_movie env title threshold self = (Ok None, self1) ->
   forall c, In c titles ->
             (F64.of_Z threshold <=? Fuzz.ratio title c) = false).
Proof.
  intros Hm Ht Hsmall Hthr.
  rewrite (find_movie_loaded env title threshold _ _ _ _ Hm Ht).
  split; [eauto | ].
  destruct (Fuzz.extractOne title titles) as [[[c s] i] | ] eqn:Ex.
  - destruct (BestMatch.extractOne_best _ _ _ _ _ Ex)
      as (Hi & -> & H0 & Hbest & Hfirst).
    rewrite (F64Facts.int_le_float_small _ _ Hsmall).
    destruct (F64.of_Z threshold <=? Fuzz.ratio title c) eqn:Ege; split.
    + intros t [= <-]. exists i. auto.
    + discriminate.
    + discriminate.
    + intros _ c' Hin.
      destruct (F64.of_Z threshold <=? Fuzz.ratio title c') eqn:E';
        [ | reflexivity].
      apply In_nth_error in Hin. destruct Hin as [j Hj].
      specialize (Hbest j c' Hj).
      destruct (F64Facts.leb_not_nan _ _ H0) as [_ Hn].
      destruct (F64Facts.leb_not_nan _ _ E') as [_ Hn'].
      pose proof (F64Order.not_ltb_leb _ _ Hn Hn' Hbest) as Hle.
      pose proof (F64Facts.leb_trans _ _ _ E' Hle). congruence.
  - split; [discriminate | ].
    intros _ c' Hin.
    destruct (F64.of_Z threshold <=? Fuzz.ratio title c') eqn:E';
      [ | reflexivity].
    pose proof (BestMatch.extractOne_none _ _ _ Ex Hin) as Hneg.
    pose proof (F64Facts.leb_trans _ _ _ Hthr E'). congruence.
Qed.

(** On an aligned service a resolved title is the title of some row. *)
Lemma resolved_title_has_row (title t : string) (threshold : Z)
      (self self' : RecommendationService) :
  aligned self ->
  find_movie env title threshold self = (Ok (Some t), self') ->
  self' = self /\
  exists df i movie rest,
    _df self = Some df /\ rows_titled df t = (i, movie) :: rest.
Proof.
  intros Ha Hf.
  pose proof (model_aligned env self Ha) as Hm.
  destruct Ha as (m & df & emb & width & _ & Hdf & _ & Ht & _).
  rewrite (find_movie_loaded env title threshold _ _ _ _ Hm Ht) in Hf.
  destruct (Fuzz.extractOne title (map Movie.title df))
    as [[[c s] k] | ] eqn:Ex; [ | discriminate].
  destruct (BestMatch.extractOne_best _ _ _ _ _ Ex) as (Hk & _).
  cbv delta [Ok] in Hf.
  destruct (F64.int_le_float threshold s); [ | discriminate].
  injection Hf as -> <-. split; [reflexivity | ].
  rewrite nth_error_map in Hk.
  destruct (nth_error df k) as [mk | ] eqn:Emk; [ | discriminate].
  simpl in Hk. injection Hk as Hk.
  assert (Hin : In (k, mk) (rows_titled df t)) by now apply rows_titled_In.
  destruct (rows_titled df t) as [ | [i movie] rest] eqn:Er; [contradiction | ].
  exists df, i, movie, rest. auto.
Qed.

(** X8.  On an aligned service, a title that [find_movie] resolves has
    its details returned: they are read off the lowest row bearing that
    title, with the rating rounded to one decimal as NumPy rounds it
    ([rint(10 x) / 10], so that 6.35 becomes 6.4). *)
Theorem get_movie_details_of_resolved_title
        (title t : string) (self : RecommendationService) :
  aligned self ->
  find_movie env title 60 self = (Ok (Some t), self) -> t <> ""%string ->
  exists df i movie,
    _df self = Some df /\ nth_error df i = Some movie /\
    Movie.title movie = t /\
    (forall j m, (j < i)%nat -> nth_error df j = Some m ->
                 Movie.title m <> t) /\
    get_movie_details env title self =
      (Ok (Some (MovieDetails.mk t (F64.np_round (Movie.vote_average movie) 1)
                                 (Movie.vote_count movie)
                                 (Movie.overview movie)
                                 (Movie.genres movie))), self).
Proof.
  intros Ha Hf Hne.
  destruct (resolved_title_has_row title t 60 self self Ha Hf)
    as (_ & df & i & movie & rest & Hdf & Er).
  destruct (rows_titled_first df t i movie rest Er) as (Hi & Htitle & Hlow).
  exists df, i, movie. repeat split; try assumption.
  rewrite get_movie_details_run, Hf. cbv beta iota delta [Ok].
  assert (Htr : truthy (Some t) = true).
  { simpl. destruct (String.eqb_spec t ""); [contradiction | reflexivity]. }
  rewrite Htr, Hdf, Er. now rewrite Htitle.
Qed.

(** X9.  On an aligned service, for a limit that is not negative,
    [search_movie] raises nothing and returns the
    [min(limit, catalog size)] best matches, best first: the matches
    behind the entries are taken from the scored titles, they are
    sorted by descending score, and no title left out scores higher
    than one of them; entry [k] bears the title of the [k]-th match,
    its match score is the ratio of the query to that title rounded to
    one decimal, and its rating (rounded as NumPy does) and votes are
    those of the catalog row at the position of the match. *)
Theorem search_movie_returns_best_matches
        (query : string) (limit : Z) (self : RecommendationService) :
  aligned self -> (0 <= limit)%Z ->
  exists df matches rest results,
    _df self = Some df /\
    matches = Fuzz.top_matches query (map Movie.title df) limit /\
    search_movie env query limit self = (Ok results, self) /\
    length results = Nat.min (Z.to_nat limit) (length df) /\
    Permutation (matches ++ rest)
                (Fuzz.score_all query (map Movie.title df)) /\
    StronglySorted (ranks Fuzz.match_score) matches /\
    Forall (fun m => Forall (fun m' => ranks Fuzz.match_score m m') rest)
           matches /\
    Forall2 (fun m r =>
               exists movie,
                 nth_error df (snd m) = Some movie /\
                 fst (fst m) = Movie.title movie /\
                 SearchResult.title r = fst (fst m) /\
                 SearchResult.match_score r
                   = F64.round (Fuzz.ratio query (fst (fst m))) 1 /\
                 SearchResult.rating r
                   = F64.np_round (Movie.vote_average movie) 1 /\
                 SearchResult.votes r = Movie.vote_count movie)
            matches results.
Proof.
  intros Ha Hl.
  destruct (search_movie_returns env query limit self Ha Hl) as [results Hs].
  pose proof (model_aligned env self Ha) as Hm.
  destruct Ha as (m & df & emb & width & _ & Hdf & _ & Ht & _).
  destruct (nlargest_top Fuzz.match_score limit
              (Fuzz.score_all query (map Movie.title df)))
    as (rest & Hperm & Hsorted & Htop).
  exists df, (Fuzz.top_matches query (map Movie.title df) limit), rest, results.
  split; [exact Hdf | ]. split; [reflexivity | ]. split; [exact Hs | ].
  destruct (search_movie_loaded env query limit _ _ _ _ Hm Ht Hl) as [Hrun _].
  rewrite Hrun in Hs. injection Hs as Hs.
  split.
  { apply search_results_length in Hs.
    now rewrite Hs, FuzzFacts.top_matches_length, length_map. }
  split; [exact Hperm | ]. split; [exact Hsorted | ]. split; [exact Htop | ].
  apply search_results_inv in Hs.
  assert (Hmatch : Forall (fun x => exists j c,
              nth_error (map Movie.title df) j = Some c /\
              x = (c, Fuzz.ratio query c, j))
            (Fuzz.top_matches query (map Movie.title df) limit)).
  { rewrite Forall_forall. intros x Hx.
    now apply FuzzFacts.top_matches_In, FuzzFacts.In_score_all in Hx. }
  clear Hperm Hsorted Htop.
  remember (Fuzz.top_matches query (map Movie.title df) limit) as ms0 eqn:Ems.
  clear Ems Hrun.
  revert Hmatch. induction Hs as [ | x r ms rs Hxr _ IH]; intros Hmatch.
  - constructor.
  - inversion Hmatch as [ | ? ? Hx Hrest]; subst.
    constructor; [ | now apply IH].
    destruct Hxr as (rows & Hrows & movie & Hmovie & ->).
    rewrite Hdf in Hrows. injection Hrows as <-.
    destruct Hx as (j & c & Hj & ->). simpl in *.
    rewrite nth_error_map, Hmovie in Hj. simpl in Hj. injection Hj as Hj.
    exists movie. unfold Fuzz.match_score. simpl. subst c.
    repeat split; auto.
Qed.

End Resolution.

(** ** More about the recommendation list *)

Section Recommending.

Variable env : Env.

Local Open Scope float_scope.

Lemma find_movie_some_inv (title t : string) (threshold : Z)
      (self self' : RecommendationService) :
  find_movie env title threshold self = (Ok (Some t), self') ->
  exists titles s i,
    _movie_titles self' = Some titles /\
    Fuzz.extractOne title titles = Some (t, s, i) /\
    F64.int_le_float threshold s = true.
Proof.
  rewrite find_movie_run.
  destruct (model env self) as [[e | mb] s1]; [discriminate | ].
  destruct (_movie_titles s1) as [titles | ] eqn:Et; [ | discriminate].
  destruct (Fuzz.extractOne title titles) as [[[c s] i] | ] eqn:Ex;
    [ | discriminate].
  destruct (F64.int_le_float threshold s) eqn:E; [ | discriminate].
  cbv delta [Ok]. intros H. injection H as -> <-.
  exists titles, s, i. auto.
Qed.

(** X10.  The ['input_movie'] of a recommendation answer is a known,
    non-empty title that scores at least 60 against the requested name;
    no title scores higher and no earlier title scores as high. *)
Theorem input_movie_is_the_best_known_title
        (movie_name : string) (top_n min_votes : Z) (min_rating : float)
        (self self' : RecommendationService)
        (t : string) (n : nat) (recs : list Recommendation.t) :
  get_recommendations env movie_name top_n min_votes min_rating self
    = (Ok (Recommendations t n recs), self') ->
  exists titles i,
    _movie_titles self' = Some titles /\
    nth_error titles i = Some t /\ t <> ""%string /\
    (60 <=? Fuzz.ratio movie_name t) = true /\
    (forall j c, nth_error titles j = Some c ->
                 (Fuzz.ratio movie_name t <? Fuzz.ratio movie_name c) = false) /\
    (forall j c, (j < i)%nat -> nth_error titles j = Some c ->
                 (Fuzz.ratio movie_name t <=? Fuzz.ratio movie_name c) = false).
Proof.
  intros H. apply get_recommendations_inv in H.
  destruct H as (Hf & Hne & _).
  apply find_movie_some_inv in Hf.
  destruct Hf as (titles & s & i & Ht & Ex & Hge).
  destruct (BestMatch.extractOne_best _ _ _ _ _ Ex)
    as (Hi & -> & _ & Hbest & Hfirst).
  exists titles, i. repeat split; assumption.
Qed.

Lemma NoDup_map_filter {A B : Type} (f : A -> B) (g : A -> bool)
      (l : list A) :
  NoDup (map f l) -> NoDup (map f (filter g l)).
Proof.
  induction l as [ | x l IH]; simpl; intros H; [constructor | ].
  inversion H as [ | ? ? Hx Hl]; subst.
  destruct (g x); simpl; [ | now apply IH].
  constructor; [ | now apply IH].
  intros Hin. apply Hx. apply in_map_iff in Hin.
  destruct Hin as (y & Ey & Hy). apply filter_In in Hy.
  apply in_map_iff. exists y. tauto.
Qed.

Lemma work_frame_indices (df : DataFrame) (sims : list float)
      (w : list WorkRow) :
  work_frame env df sims = Ok w -> map index w = seq 0 (length df).
Proof.
  intros H. apply nth_error_ext. intros i.
  destruct (work_frame_nth env df sims w i H) as (Hlen & _ & E).
  rewrite nth_error_map, E.
  destruct (nth_error df i) as [m | ] eqn:Em.
  - assert (Hi : (i < length df)%nat) by (apply nth_error_Some; congruence).
    assert (Hs : (i < length sims)%nat) by lia.
    apply nth_error_Some in Hs.
    destruct (nth_error sims i) as [sim | ]; [ | congruence]. simpl.
    symmetry. rewrite nth_error_seq.
    destruct (Nat.ltb_spec i (length df)); [reflexivity | lia].
  - simpl. symmetry. apply nth_error_None.
    rewrite length_seq. now apply nth_error_None.
Qed.

(** X11.  No catalog row is recommended twice: the rows returned have
    pairwise distinct positions in the catalog. *)
Theorem recommended_rows_are_distinct
        (movie_name : string) (top_n min_votes : Z) (min_rating : float)
        (self self' : RecommendationService)
        (t : string) (n : nat) (recs : list Recommendation.t) :
  get_recommendations env movie_name top_n min_votes min_rating self
    = (Ok (Recommendations t n recs), self') ->
  exists rows,
    recommended_rows env t top_n min_votes min_rating self' = (Ok rows, self') /\
    recs = map format_row rows /\
    NoDup (map index rows).
Proof.
  intros H. apply get_recommendations_inv in H.
  destruct H as (_ & _ & rows & Hr & -> & _).
  exists rows. split; [exact Hr | ]. split; [reflexivity | ].
  apply recommended_rows_inv in Hr.
  destruct Hr as (_ & df & emb & anchor & m0 & rest0 & anchor_emb & df_work
                  & _ & _ & _ & _ & Hw & ->).
  unfold nlargest.
  set (cands := filter (keep min_votes min_rating anchor) df_work).
  assert (Hnd : NoDup (map index (sort_desc final_score cands))).
  { eapply Permutation_NoDup.
    - apply Permutation_map, Permutation_sym, sort_desc_perm.
    - apply NoDup_map_filter.
      rewrite (work_frame_indices df _ df_work Hw). apply seq_NoDup. }
  rewrite <- (firstn_skipn (Z.to_nat top_n) (sort_desc final_score cands)),
    map_app in Hnd.
  eapply NoDup_app_remove_r, Hnd.
Qed.

Lemma search_results_firstn (df : option DataFrame)
      (matches : list Fuzz.match_t) (results : list SearchResult.t)
      (k : nat) :
  search_results df matches = Ok results ->
  search_results df (firstn k matches) = Ok (firstn k results).
Proof.
  revert results k. induction matches as [ | [[c s] i] ms IH];
    intros results k H.
  - simpl in H. injection H as <-. now rewrite !firstn_nil.
  - destruct k as [ | k]; [reflexivity | ].
    simpl in H. simpl.
    destruct df as [rows | ]; [ | discriminate].
    destruct (nth_error rows i) as [movie | ]; [ | discriminate].
    destruct (search_results (Some rows) ms) as [e | rs] eqn:Er;
      simpl in H; [discriminate | ].
    injection H as <-. rewrite (IH rs k eq_refl). reflexivity.
Qed.

Lemma firstn_nlargest {A : Type} (key : A -> float) (a b : Z) (l : list A) :
  (a <= b)%Z ->
  nlargest key a l = firstn (Z.to_nat a) (nlargest key b l).
Proof.
  intros Hab. unfold nlargest. rewrite firstn_firstn.
  f_equal. lia.
Qed.

(** X12.  Asking [search_movie] for fewer results gives a prefix of the
    longer answer: for limits [0 <= a <= b], the results for the limit
    [a] are the first [a] results for the limit [b]. *)
Theorem fewer_results_are_a_prefix
        (name : string) (a b : Z) (self self' : RecommendationService)
        (results : list SearchResult.t) :
  (0 <= a <= b)%Z ->
  search_movie env name b self = (Ok results, self') ->
  search_movie env name a self
    = (Ok (firstn (Z.to_nat a) results), self').
Proof.
  intros [Ha Hab]. rewrite !search_movie_run.
  destruct (model env self) as [[e | mb] s1]; [discriminate | ].
  destruct (_movie_titles s1) as [titles | ]; [ | discriminate].
  rewrite !FuzzFacts.extract_nonneg by lia. cbv beta iota delta [Ok].
  intros H. injection H as H <-.
  unfold Fuzz.top_matches in *.
  rewrite (firstn_nlargest Fuzz.match_score a b) by assumption.
  now rewrite (search_results_firstn _ _ _ (Z.to_nat a) H).
Qed.

End Recommending.

(** ** Request validation *)

Module RequestFacts.

Import RecommendationRequest.

Lemma lstrip_all_space (s : string) :
  forallb is_space (list_ascii_of_string s) = true -> lstrip s = EmptyString.
Proof.
  induction s as [ | c s IH]; simpl; [reflexivity | ].
  intros H. apply andb_true_iff in H. destruct H as [Hc Hs].
  rewrite Hc. now apply IH.
Qed.

(** A string of whitespace is stripped to the empty string. *)
Lemma strip_all_space (s : string) :
  forallb is_space (list_ascii_of_string s) = true -> strip s = EmptyString.
Proof. intros H. unfold strip. now rewrite (lstrip_all_space s H). Qed.

(** The whitespace beyond ASCII is stripped as well. *)
Example strip_no_break_space :
  strip (String (ascii_of_nat 160) ("Heat" ++ String (ascii_of_nat 133) " "))
  = "Heat"%string.
Proof. reflexivity. Qed.

(** What validation checked when it accepted a body. *)
Lemma validate_inv (title : string) (top_n min_votes : option Z)
      (min_rating : option float) (req : t) :
  validate title top_n min_votes min_rating = Some req ->
  (1 <= String.length title <= 200)%nat /\
  (1 <= RecommendationRequest.top_n req <= 50)%Z /\
  (0 <= RecommendationRequest.min_votes req)%Z /\
  RecommendationRequest.title req = strip title.
Proof.
  unfold validate.
  destruct (((1 <=? String.length title)%nat
             && (String.length title <=? 200)%nat)
            && _ && _ && _) eqn:E; [ | discriminate].
  intros H. injection H as <-. simpl.
  repeat rewrite andb_true_iff in E.
  destruct E as ((((Hl1 & Hl2) & (Hn1 & Hn2)) & Hv) & (Hr1 & Hr2)).
  apply Nat.leb_le in Hl1, Hl2. apply Z.leb_le in Hn1, Hn2, Hv.
  unfold clean_title. repeat split; assumption.
Qed.

(** Validation accepts a title of 1 to 200 characters together with
    optional fields that are absent or within their bounds. *)
Lemma validate_accepts (title : string) (top_n min_votes : option Z)
      (min_rating : option float) :
  (1 <= String.length title <= 200)%nat ->
  (forall n, top_n = Some n -> (1 <= n <= 50)%Z) ->
  (forall n, min_votes = Some n -> (0 <= n)%Z) ->
  (forall r, min_rating = Some r ->
             (0 <=? r)%float = true /\ (r <=? 10)%float = true) ->
  exists req,
    validate title top_n min_votes min_rating = Some req /\
    RecommendationRequest.title req = strip title.
Proof.
  intros [Hl1 Hl2] Hn Hv Hr. unfold validate.
  apply Nat.leb_le in Hl1, Hl2. rewrite Hl1, Hl2.
  assert (En : ((1 <=? match top_n with Some n => n | None => 10 end)
                && (match top_n with Some n => n | None => 10 end <=? 50))%Z
               = true).
  { destruct top_n as [n | ]; [ | reflexivity].
    destruct (Hn n eq_refl) as [H1 H2].
    apply Z.leb_le in H1, H2. now rewrite H1, H2. }
  assert (Ev : (0 <=? match min_votes with Some n => n | None => 50 end)%Z
               = true).
  { destruct min_votes as [n | ]; [ | reflexivity].
    apply Z.leb_le. now apply Hv. }
  assert (Er : ((0 <=? match min_rating with Some r => r | None => 6.0 end)
                && (match min_rating with Some r => r | None => 6.0 end <=? 10))
               %float = true).
  { destruct min_rating as [r | ]; [ | reflexivity].
    destruct (Hr r eq_refl) as [H1 H2]. now rewrite H1, H2. }
  cbv zeta. rewrite En, Ev, Er. simpl. eexists. split; reflexivity.
Qed.

End RequestFacts.

(** ** The endpoints *)

Section Endpoints.

Variable env : Env.

Local Open Scope string_scope.

(** The error dictionary of [get_recommendations] carries the message
    built from the requested name and at most 3 suggestions. *)
Lemma get_recommendations_not_found_inv
      (movie_name : string) (top_n min_votes : Z) (min_rating : float)
      (self self' : RecommendationService) (error : string)
      (suggestions : list SearchResult.t) :
  get_recommendations env movie_name top_n min_votes min_rating self
    = (Ok (NotFound error suggestions), self') ->
  error = "Movie '" ++ movie_name ++ "' not found" /\
  (length suggestions <= 3)%nat.
Proof.
  rewrite get_recommendations_run.
  assert (Hs : forall s1 s2 sg,
             search_movie env movie_name 3 s1 = (inr sg, s2) ->
             (length sg <= 3)%nat).
  { intros s1 s2 sg. rewrite search_movie_run.
    destruct (model env s1) as [[e | mb] s3]; [discriminate | ].
    destruct (_movie_titles s3) as [titles | ]; [ | discriminate].
    rewrite FuzzFacts.extract_nonneg by lia. cbv beta iota delta [Ok].
    intros H. injection H as H _. apply search_results_length in H.
    rewrite H, FuzzFacts.top_matches_length. lia. }
  cbv delta [Ok].
  destruct (find_movie env movie_name 60 self) as [[e | [t | ]] s1];
    [discriminate | | ].
  - destruct (truthy (Some t)).
    + destruct (recommended_rows env t top_n min_votes min_rating s1)
        as [[e | rows] s2]; discriminate.
    + destruct (search_movie env movie_name 3 s1) as [[e | sg] s2] eqn:E;
        [discriminate | ].
      intros H. injection H as <- <- <-. split; [reflexivity | ].
      eapply Hs, E.
  - destruct (search_movie env movie_name 3 s1) as [[e | sg] s2] eqn:E;
      [discriminate | ].
    intros H. injection H as <- <- <-. split; [reflexivity | ].
    eapply Hs, E.
Qed.

(** X15.  [GET /search] answers 400, without touching the service, when
    the query has fewer than 2 characters.  A body it returns echoes
    the query, counts its results, and never holds more than 20 of
    them, whatever the limit asked for; nor more than a non-negative
    limit.  On an aligned service a query of 2 characters or more is
    answered with a body when the limit is not negative, and with a 500
    when it is: only a limit above 20 is brought back into range. *)
Theorem search_endpoint_answers
        (query : string) (limit : Z) (service : RecommendationService) :
  ((String.length query < 2)%nat ->
   search env query limit service
     = (HTTPException 400 (Text "Query must be at least 2 characters"),
        service)) /\
  (forall body service',
     search env query limit service = (Returned body, service') ->
     (2 <= String.length query)%nat /\
     SearchResponse.query body = query /\
     SearchResponse.total_results body
       = length (SearchResponse.results body) /\
     (length (SearchResponse.results body) <= 20)%nat /\
     (Z.of_nat (length (SearchResponse.results body)) <= Z.max 0 limit)%Z) /\
  (forall status d service',
     search env query limit service = (HTTPException status d, service') ->
     status = 400%Z \/ status = 500%Z) /\
  (aligned service -> (2 <= String.length query)%nat -> (0 <= limit)%Z ->
   exists body, search env query limit service = (Returned body, service)) /\
  (aligned service -> (2 <= String.length query)%nat -> (limit < 0)%Z ->
   exists e,
     search env query limit service = (HTTPException 500 (Str e), service)).
Proof.
  unfold search.
  destruct (Nat.ltb_spec (String.length query) 2) as [Hlt | Hge].
  - split; [reflexivity | ]. split; [discriminate | ].
    split; [ | split; intros; lia].
    intros status d s' H. injection H as <- _ _. now left.
  - split; [lia | ].
    set (lim := if (20 <? limit)%Z then 20%Z else limit).
    assert (Hlim : (lim <= 20)%Z /\ (lim <= Z.max 0 limit)%Z /\
                   ((0 <= limit)%Z -> (0 <= lim)%Z) /\
                   ((limit < 0)%Z -> (lim < 0)%Z)).
    { unfold lim. destruct (Z.ltb_spec 20 limit); lia. }
    split; [ | split; [ | split]].
    + intros body s'.
      destruct (search_movie env query lim service) as [[e | rs] s1] eqn:E;
        [discriminate | ].
      intros H. injection H as <- <-. simpl.
      rewrite search_movie_run in E.
      destruct (model env service) as [[e | mb] s2]; [discriminate | ].
      destruct (_movie_titles s2) as [titles | ]; [ | discriminate].
      destruct (Fuzz.extract query titles lim) as [e | ms] eqn:Ex;
        [discriminate | ].
      apply FuzzFacts.extract_inv in Ex. destruct Ex as [Hl ->].
      injection E as E _. apply search_results_length in E.
      rewrite E, FuzzFacts.top_matches_length. repeat split; lia.
    + intros status d s'.
      destruct (search_movie env query lim service) as [[e | rs] s1];
        [ | discriminate].
      intros H. injection H as <- _ _. now right.
    + intros Ha _ Hl.
      destruct (search_movie_returns env query lim service Ha) as [rs Hrs];
        [lia | ].
      cbv delta [Ok] in Hrs. rewrite Hrs. eauto.
    + intros Ha _ Hl.
      pose proof (model_aligned env service Ha) as Hm.
      destruct Ha as (m & df & emb & width & _ & _ & _ & Ht & _).
      rewrite search_movie_run, Hm. cbv beta iota delta [Ok]. rewrite Ht.
      destruct (FuzzFacts.extract_negative query (map Movie.title df) lim)
        as [e He]; [lia | ].
      cbv delta [Raise] in He. rewrite He. eauto.
Qed.

(** X16.  [POST /recommend] on a validated request: a body it returns
    is a recommendation list of at most [top_n], hence at most 50,
    entries; a 404 carries the not-found message for the stripped title
    and at most 3 suggestions; any other answer is a 500.  On an
    aligned service, whose embeddings are finite numbers, it never
    answers 500. *)
Theorem recommend_endpoint_answers
        (title : string) (top_n min_votes : option Z)
        (min_rating : option float) (req : RecommendationRequest.t)
        (service : RecommendationService) :
  RecommendationRequest.validate title top_n min_votes min_rating = Some req ->
  (forall body service',
     recommend env req service = (Returned body, service') ->
     exists t recs,
       body = Recommendations t (length recs) recs /\
       (Z.of_nat (length recs) <= RecommendationRequest.top_n req)%Z /\
       (length recs <= 50)%nat) /\
  (forall status d service',
     recommend env req service = (HTTPException status d, service') ->
     (status = 404%Z /\
      exists suggestions,
        d = Suggest ("Movie '" ++ RecommendationRequest.strip title
                               ++ "' not found") suggestions /\
        (length suggestions <= 3)%nat) \/
     (status = 500%Z /\ exists e, d = Str e)) /\
  (aligned service ->
   forall status d service',
     recommend env req service = (HTTPException status d, service') ->
     status = 404%Z).
Proof.
  intros Hv.
  destruct (RequestFacts.validate_inv _ _ _ _ _ Hv) as (_ & Hn & _ & Ht).
  unfold recommend.
  destruct (get_recommendations env (RecommendationRequest.title req)
              (RecommendationRequest.top_n req)
              (RecommendationRequest.min_votes req)
              (RecommendationRequest.min_rating req) service)
    as [[e | [err sg | t n recs]] s1] eqn:E.
  - split; [discriminate | ]. split.
    + intros status d s' H. injection H as <- <- _. right. eauto.
    + intros Ha.
      destruct (get_recommendations_returns env
                  (RecommendationRequest.title req)
                  (RecommendationRequest.top_n req)
                  (RecommendationRequest.min_votes req)
                  (RecommendationRequest.min_rating req) service Ha)
        as [out Hout].
      rewrite E in Hout. discriminate.
  - apply get_recommendations_not_found_inv in E. destruct E as [-> Hsg].
    split; [discriminate | ]. split.
    + intros status d s' H. injection H as <- <- _. left.
      split; [reflexivity | ]. exists sg. now rewrite Ht.
    + intros _ status d s' H. now injection H as <- _ _.
  - split; [ | split; [discriminate | intros _; discriminate]].
    intros body s' H. injection H as <- _.
    apply get_recommendations_inv in E.
    destruct E as (_ & _ & rows & Hr & -> & ->).
    apply recommended_rows_inv in Hr.
    destruct Hr as (_ & df & emb & anchor & m0 & rest0 & anchor_emb & df_work
                    & _ & _ & _ & _ & _ & ->).
    exists t, (map format_row
                 (nlargest final_score (RecommendationRequest.top_n req)
                    (filter (keep (RecommendationRequest.min_votes req)
                                  (RecommendationRequest.min_rating req)
                                  anchor) df_work))).
    split; [reflexivity | ].
    rewrite length_map, nlargest_length. split; lia.
Qed.

(** X17.  [GET /movie/{title}] on an aligned service never answers 500:
    it returns the details of a catalog row, with the rating rounded to
    one decimal as NumPy rounds it, or answers 404 with the message
    naming the requested title. *)
Theorem get_movie_endpoint_answers
        (title : string) (service : RecommendationService) :
  aligned service ->
  (exists df movie,
     _df service = Some df /\ In movie df /\
     get_movie env title service =
       (Returned (MovieDetails.mk (Movie.title movie)
                                  (F64.np_round (Movie.vote_average movie) 1)
                                  (Movie.vote_count movie)
                                  (Movie.overview movie)
                                  (Movie.genres movie)), service)) \/
  get_movie env title service
    = (HTTPException 404 (Text ("Movie '" ++ title ++ "' not found")),
       service).
Proof.
  intros Ha. unfold get_movie. rewrite get_movie_details_run.
  pose proof (model_aligned env service Ha) as Hm.
  assert (Hf : exists r, find_movie env title 60 service = (inr r, service)).
  { destruct Ha as (m & df & emb & width & _ & _ & _ & Ht & _).
    rewrite find_movie_run, Hm. cbv beta iota delta [Ok]. rewrite Ht. eauto. }
  destruct Hf as [[t | ] Hf]; rewrite Hf; [ | now right].
  destruct (truthy (Some t)); [ | now right].
  destruct (resolved_title_has_row env title t 60 service service Ha Hf)
    as (_ & df & i & movie & rest & Hdf & Er).
  left. exists df, movie.
  split; [exact Hdf | ]. split; [ | rewrite Hdf, Er; reflexivity].
  destruct (rows_titled_first df t i movie rest Er) as (Hi & _).
  eapply nth_error_In, Hi.
Qed.

Lemma Forall_firstn_keep {A : Type} (P : A -> Prop) (k : nat) (l : list A) :
  Forall P l -> Forall P (firstn k l).
Proof.
  intros H. rewrite <- (firstn_skipn k l) in H.
  apply Forall_app in H. tauto.
Qed.

(** X18.  A title of 1 to 200 whitespace characters passes validation,
    whatever valid values the optional fields take, and reaches the
    service as the empty string.  On an aligned service whose titles
    have 1 to 4096 characters, [POST /recommend] then answers 404 with
    the first [min(3, catalog size)] titles as suggestions, each with
    match score 0. *)
Theorem blank_title_is_answered_with_suggestions
        (title : string) (top_n min_votes : option Z)
        (min_rating : option float)
        (service : RecommendationService) (df : DataFrame) :
  (1 <= String.length title <= 200)%nat ->
  forallb RecommendationRequest.is_space (list_ascii_of_string title) = true ->
  (forall n, top_n = Some n -> (1 <= n <= 50)%Z) ->
  (forall n, min_votes = Some n -> (0 <= n)%Z) ->
  (forall r, min_rating = Some r ->
             (0 <=? r)%float = true /\ (r <=? 10)%float = true) ->
  aligned service -> _df service = Some df ->
  Forall (fun m => (1 <= String.length (Movie.title m) <= 4096)%nat) df ->
  exists req suggestions,
    RecommendationRequest.validate title top_n min_votes min_rating
      = Some req /\
    RecommendationRequest.title req = "" /\
    recommend env req service
      = (HTTPException 404 (Suggest "Movie '' not found" suggestions),
         service) /\
    length suggestions = Nat.min 3 (length df) /\
    Forall (fun r => SearchResult.match_score r = 0%float) suggestions /\
    map SearchResult.title suggestions = firstn 3 (map Movie.title df).
Proof.
  intros Hlen Hsp Hn Hvotes Hrating Ha Hdf Hsz.
  destruct (RequestFacts.validate_accepts title top_n min_votes min_rating
              Hlen Hn Hvotes Hrating) as (req & Hv & Htitle).
  rewrite (RequestFacts.strip_all_space title Hsp) in Htitle.
  pose proof (model_aligned env service Ha) as Hm.
  assert (Hsearch : exists sg, search_movie env "" 3 service = (Ok sg, service))
    by (apply (search_movie_returns env "" 3 service Ha); lia).
  destruct Ha as (m & df' & emb & width & _ & Hdf' & _ & Ht & _).
  rewrite Hdf in Hdf'. injection Hdf' as <-.
  set (titles := map Movie.title df) in *.
  assert (Hzero : forall c, In c titles -> Fuzz.ratio "" c = 0%float).
  { intros c Hc. apply FuzzFacts.ratio_empty_zero.
    unfold titles in Hc. apply in_map_iff in Hc. destruct Hc as (mv & <- & Hmv).
    rewrite Forall_forall in Hsz. now apply Hsz. }
  (* every score is 0, so the matches come in catalog order *)
  assert (Hsorted : forall l : list Fuzz.match_t,
             Forall (fun x => Fuzz.match_score x = 0%float) l ->
             sort_desc Fuzz.match_score l = l).
  { induction l as [ | x l IH]; intros Hl; [reflexivity | ].
    inversion Hl as [ | ? ? Hx Hl']; subst. simpl. rewrite (IH Hl').
    destruct l as [ | y l]; [reflexivity | ].
    inversion Hl' as [ | ? ? Hy _]; subst. simpl.
    now rewrite Hx, Hy. }
  assert (Hall : Forall (fun x => Fuzz.match_score x = 0%float)
                        (Fuzz.score_all "" titles)).
  { rewrite Forall_forall. intros x Hx.
    apply FuzzFacts.In_score_all in Hx. destruct Hx as (i & c & Hi & ->).
    unfold Fuzz.match_score. simpl. eapply Hzero, nth_error_In, Hi. }
  assert (Hext : Fuzz.top_matches "" titles 3
                 = firstn 3 (Fuzz.score_all "" titles)).
  { unfold Fuzz.top_matches, nlargest. now rewrite (Hsorted _ Hall). }
  assert (Hfind : find_movie env "" 60 service = (inr None, service)).
  { rewrite find_movie_run, Hm. cbv beta iota delta [Ok]. rewrite Ht.
    destruct (Fuzz.extractOne "" titles) as [[[c s] i] | ] eqn:Ex;
      [ | reflexivity].
    apply FuzzFacts.extractOne_In, FuzzFacts.In_score_all in Ex.
    destruct Ex as (j & c' & Hj & E). inversion E; subst.
    rewrite (Hzero c' (nth_error_In _ _ Hj)). reflexivity. }
  destruct Hsearch as [sg Hsg].
  exists req, sg.
  assert (Hres : search_results (Some df) (Fuzz.top_matches "" titles 3)
                 = Ok sg).
  { rewrite search_movie_run, Hm in Hsg. cbv beta iota delta [Ok] in Hsg.
    rewrite Ht, Hdf in Hsg. now injection Hsg as Hsg. }
  split; [exact Hv | ]. split; [exact Htitle | ].
  split; [ | split; [ | split]].
  - unfold recommend. rewrite Htitle, get_recommendations_run, Hfind.
    cbv delta [Ok] in Hsg. rewrite Hsg. reflexivity.
  - apply search_results_length in Hres.
    rewrite Hres, FuzzFacts.top_matches_length. unfold titles.
    now rewrite length_map.
  - apply search_results_inv in Hres.
    assert (Hz : Forall (fun x => Fuzz.match_score x = 0%float)
                        (Fuzz.top_matches "" titles 3)).
    { rewrite Hext. now apply Forall_firstn_keep. }
    clear Hext Hsg.
    remember (Fuzz.top_matches "" titles 3) as ms0 eqn:Ems. clear Ems.
    revert Hz. induction Hres as [ | x r ms rs Hxr _ IH]; intros Hz.
    + constructor.
    + inversion Hz as [ | ? ? Hz1 Hz2]; subst.
      constructor; [ | now apply IH].
      destruct Hxr as (rows & _ & movie & _ & ->). simpl. now rewrite Hz1.
  - apply search_results_inv in Hres. rewrite Hext in Hres.
    assert (Hpos : Forall (fun x => nth_error titles (snd x) = Some (fst (fst x)))
                          (firstn 3 (Fuzz.score_all "" titles))).
    { apply Forall_firstn_keep. rewrite Forall_forall. intros x Hx.
      apply FuzzFacts.In_score_all in Hx. destruct Hx as (i & c & Hi & ->).
      exact Hi. }
    assert (Hmap : map (fun x : Fuzz.match_t => fst (fst x))
                       (firstn 3 (Fuzz.score_all "" titles))
                   = firstn 3 titles).
    { rewrite <- firstn_map. f_equal. unfold Fuzz.score_all.
      apply nth_error_ext. intros i.
      rewrite !nth_error_map, nth_error_indexed.
      now destruct (nth_error titles i). }
    rewrite <- Hmap. clear Hmap Hext Hsg.
    remember (firstn 3 (Fuzz.score_all "" titles)) as ms0 eqn:Ems. clear Ems.
    revert Hpos.
    induction Hres as [ | x r ms rs Hxr _ IH]; intros Hpos; [reflexivity | ].
    inversion Hpos as [ | ? ? Hp1 Hp2]; subst. simpl.
    rewrite (IH Hp2). f_equal.
    destruct Hxr as (rows & Hrows & movie & Hmovie & ->). simpl.
    injection Hrows as <-. unfold titles in Hp1.
    rewrite nth_error_map, Hmovie in Hp1. simpl in Hp1. congruence.
Qed.

End Endpoints.

(** ** The further properties on concrete catalogs *)

Section MoreRuns.

Import Examples Scenarios.
Local Open Scope string_scope.
Local Open Scope float_scope.

Lemma iron_man_service_aligned : aligned iron_man_service.
Proof.
  exists iron_man_bundle, iron_man, iron_man_embeddings, 3%nat.
  do 5 (split; [reflexivity | ]). split; [lia | ]. split; [reflexivity | ].
  repeat constructor; simpl; lia.
Qed.

Lemma loaded_service_is_never_modified_witness :
  snd (get_recommendations (env_of iron_man_bundle) "Iron man" 2 0 0
                           iron_man_service) = iron_man_service /\
  snd (search_movie (env_of iron_man_bundle) "Iron man" 5 iron_man_service)
    = iron_man_service.
Proof.
  destruct (loaded_service_is_never_modified
              (env_of iron_man_bundle) iron_man_service iron_man_bundle
              "Iron man" 5 60 2 0 0 eq_refl) as (_ & H2 & _ & H4 & _).
  split; assumption.
Defined.

Lemma loaded_service_ignores_file_system_witness :
  get_recommendations no_file "Iron man" 2 0 0 iron_man_service
    = get_recommendations (env_of iron_man_bundle) "Iron man" 2 0 0
                          iron_man_service.
Proof.
  apply (loaded_service_ignores_file_system
           (env_of iron_man_bundle) no_file iron_man_service iron_man_bundle
           "Iron man" 5 60 2 0 0 eq_refl eq_refl).
Defined.

Lemma first_use_loads_the_model_witness :
  search_movie (env_of iron_man_bundle) "iro" 3 fresh
    = search_movie (env_of iron_man_bundle) "iro" 3 iron_man_service /\
  snd (search_movie (env_of iron_man_bundle) "iro" 3 fresh) = iron_man_service.
Proof.
  destruct (first_use_loads_the_model
              (env_of iron_man_bundle) fresh pickled iron_man_bundle
              iron_man iron_man_embeddings (map Movie.title iron_man)
              "iro" 3 60 2 0 0 eq_refl eq_refl eq_refl eq_refl eq_refl eq_refl)
    as (H1 & _ & _ & _ & H5).
  split; assumption.
Defined.

Lemma failed_load_is_retried_witness :
  get_recommendations no_file "Iron man" 2 0 0 fresh
    = (Raise FileNotFoundError, fresh) /\
  health_check no_file fresh = (Unhealthy FileNotFoundError, fresh).
Proof.
  destruct (failed_load_is_retried
              no_file fresh FileNotFoundError "Iron man" 5 60 2 0 0 eq_refl
              (or_introl (conj eq_refl eq_refl)))
    as (_ & _ & H3 & _ & H5).
  split; assumption.
Defined.

Lemma missing_key_is_not_retried_witness :
  exists key self1,
    search_movie (env_of no_embeddings) "iro" 3 fresh
      = (Raise (KeyError key), self1) /\
    search_movie (env_of no_embeddings) "iro" 3 self1
      = (Raise TypeError, self1).
Proof.
  destruct (missing_key_is_not_retried
              (env_of no_embeddings) default_path pickled no_embeddings
              "iro" 3 60 2 0 0 eq_refl eq_refl
              (or_intror (or_introl eq_refl)))
    as (key & self1 & _ & H1 & _ & _ & _ & H5 & _).
  exists key, self1. split; assumption.
Defined.

Lemma health_reports_healthy_when_half_loaded_witness :
  exists self1,
    health_check (env_of no_embeddings) self1 = (Healthy 4, self1) /\
    search (env_of no_embeddings) "iro" 3 self1
      = (HTTPException 500 (Str TypeError), self1).
Proof.
  destruct (health_reports_healthy_when_half_loaded
              (env_of no_embeddings) default_path pickled no_embeddings
              iron_man "iro" 3
              (RecommendationRequest.mk "Iron man" 2 0 0)
              eq_refl eq_refl eq_refl (or_introl eq_refl))
    as (self1 & _ & H2 & H3 & _).
  - simpl. lia.
  - exists self1. split; assumption.
Defined.

Lemma find_movie_returns_best_title_witness :
  exists i,
    nth_error (map Movie.title iron_man) i = Some "Iron Man" /\
    (60 <=? Fuzz.ratio "Iron man" "Iron Man") = true.
Proof.
  destruct (find_movie_returns_best_title
              (env_of iron_man_bundle) "Iron man" 60 fresh iron_man_service
              (Some iron_man_bundle) (map Movie.title iron_man))
    as (_ & H & _); try (vm_compute; reflexivity).
  destruct (H "Iron Man") as (i & Hi & Hge & _); [vm_compute; reflexivity | ].
  exists i. split; assumption.
Defined.

(** The same rating is returned as 7.4 by [search_movie] and as 7.5 in
    a recommendation, and [get_movie_details] returns 6.35 as 6.4. *)
Example ratings_rounded_by_numpy_and_by_python :
  fst (search_movie (env_of half_ratings) "Ronin" 1 fresh)
    = Ok [ SearchResult.mk "Ronin" 100 7.4 90 ] /\
  fst (get_recommendations (env_of half_ratings) "Heat" 10 50 6.0 fresh)
    = Ok (Recommendations "Heat" 1
            [ Recommendation.mk "Ronin" 7.5 90 0.8 0.806 ]) /\
  fst (get_movie_details (env_of half_ratings) "Heat" fresh)
    = Ok (Some (MovieDetails.mk "Heat" 6.4 100 "" "")).
Proof. repeat split; vm_compute; reflexivity. Qed.

Lemma half_ratings_aligned : aligned (loaded half_ratings).
Proof.
  exists half_ratings,
    [ Movie.mk "Heat" 6.35 100 "" ""; Movie.mk "Ronin" 7.45 90 "" "" ],
    [ [1; 0]; [0.8; 0.6] ], 2%nat.
  do 5 (split; [reflexivity | ]). split; [lia | ]. split; [reflexivity | ].
  repeat constructor; simpl; lia.
Qed.

Lemma get_movie_details_of_resolved_title_witness :
  get_movie_details (env_of half_ratings) "heat" (loaded half_ratings)
    = (Ok (Some (MovieDetails.mk "Heat" 6.4 100 "" "")), loaded half_ratings).
Proof.
  destruct (get_movie_details_of_resolved_title
              (env_of half_ratings) "heat" "Heat" (loaded half_ratings)
              half_ratings_aligned)
    as (df & i & movie & Hdf & Hi & Ht & Hlow & H).
  - vm_compute; reflexivity.
  - discriminate.
  - rewrite H. injection Hdf as <-.
    destruct i as [ | [ | i]]; simpl in Hi.
    + injection Hi as <-. vm_compute; reflexivity.
    + injection Hi as <-. discriminate.
    + destruct i; discriminate.
Defined.

Lemma search_movie_returns_best_matches_witness :
  exists results,
    search_movie (env_of iron_man_bundle) "iro" 3 iron_man_service
      = (Ok results, iron_man_service) /\
    length results = 3%nat /\
    StronglySorted (ranks Fuzz.match_score)
                   (Fuzz.top_matches "iro" (map Movie.title iron_man) 3).
Proof.
  destruct (search_movie_returns_best_matches
              (env_of iron_man_bundle) "iro" 3 iron_man_service
              iron_man_service_aligned)
    as (df & matches & rest & results & Hdf & -> & Hs & Hlen & _ & Hsorted & _);
    [lia | ].
  injection Hdf as <-. exists results. repeat split; assumption.
Defined.

Lemma input_movie_is_the_best_known_title_witness :
  exists titles i,
    _movie_titles iron_man_service = Some titles /\
    nth_error titles i = Some "Iron Man" /\
    (60 <=? Fuzz.ratio "Iron man" "Iron Man") = true.
Proof.
  destruct (input_movie_is_the_best_known_title
              (env_of iron_man_bundle) "Iron man" 2 0 0 fresh
              iron_man_service "Iron Man" 2
              (recommendations_of
                 (fst (get_recommendations (env_of iron_man_bundle) "Iron man"
                                           2 0 0 fresh))))
    as (titles & i & Ht & Hi & _ & Hge & _); [vm_compute; reflexivity | ].
  exists titles, i. repeat split; assumption.
Defined.

Lemma recommended_rows_are_distinct_witness :
  exists rows,
    recommendations_of
      (fst (get_recommendations (env_of iron_man_bundle) "Iron man"
                                10 50 6.0 fresh))
      = map format_row rows /\
    NoDup (map index rows).
Proof.
  destruct (recommended_rows_are_distinct
              (env_of iron_man_bundle) "Iron man" 10 50 6.0 fresh
              iron_man_service "Iron Man" 3
              (recommendations_of
                 (fst (get_recommendations (env_of iron_man_bundle) "Iron man"
                                           10 50 6.0 fresh))))
    as (rows & _ & H1 & H2); [vm_compute; reflexivity | ].
  exists rows. split; assumption.
Defined.

Lemma fewer_results_are_a_prefix_witness :
  search_movie (env_of iron_man_bundle) "iro" 1 fresh
    = (Ok [ SearchResult.mk "Iron Man" 36.4 7.6 12000 ], iron_man_service).
Proof.
  apply (fewer_results_are_a_prefix
           (env_of iron_man_bundle) "iro" 1 2 fresh iron_man_service
           [ SearchResult.mk "Iron Man" 36.4 7.6 12000;
             SearchResult.mk "Iron Man 2" 30.8 6.8 9000 ]).
  - lia.
  - vm_compute; reflexivity.
Defined.

Lemma search_endpoint_answers_witness :
  search (env_of iron_man_bundle) "i" 5 fresh
    = (HTTPException 400 (Text "Query must be at least 2 characters"), fresh) /\
  (exists body,
     search (env_of iron_man_bundle) "iro" 1000 iron_man_service
       = (Returned body, iron_man_service)) /\
  (exists e,
     search (env_of iron_man_bundle) "iro" (-1) iron_man_service
       = (HTTPException 500 (Str e), iron_man_service)).
Proof.
  destruct (search_endpoint_answers (env_of iron_man_bundle) "i" 5 fresh)
    as (H1 & _).
  destruct (search_endpoint_answers (env_of iron_man_bundle) "iro" 1000
                                    iron_man_service) as (_ & _ & _ & H4 & _).
  destruct (search_endpoint_answers (env_of iron_man_bundle) "iro" (-1)
                                    iron_man_service) as (_ & _ & _ & _ & H5).
  split; [ | split].
  - apply H1. simpl. lia.
  - apply H4; [exact iron_man_service_aligned | simpl; lia | lia].
  - apply H5; [exact iron_man_service_aligned | simpl; lia | lia].
Defined.

Lemma recommend_endpoint_answers_witness :
  recommend (env_of iron_man_bundle)
            (RecommendationRequest.mk "Zzz" 10 50 6.0) iron_man_service
    = (HTTPException 404
         (Suggest "Movie 'Zzz' not found"
                  [ SearchResult.mk "Iron Man" 0 7.6 12000;
                    SearchResult.mk "Iron Man 2" 0 6.8 9000;
                    SearchResult.mk "Iron Man 3" 0 6.9 8806 ]),
       iron_man_service) /\
  (length [ SearchResult.mk "Iron Man" 0 7.6 12000;
            SearchResult.mk "Iron Man 2" 0 6.8 9000;
            SearchResult.mk "Iron Man 3" 0 6.9 8806 ] <= 3)%nat.
Proof.
  assert (E : recommend (env_of iron_man_bundle)
                        (RecommendationRequest.mk "Zzz" 10 50 6.0)
                        iron_man_service
              = (HTTPException 404
                   (Suggest "Movie 'Zzz' not found"
                            [ SearchResult.mk "Iron Man" 0 7.6 12000;
                              SearchResult.mk "Iron Man 2" 0 6.8 9000;
                              SearchResult.mk "Iron Man 3" 0 6.9 8806 ]),
                 iron_man_service)) by (vm_compute; reflexivity).
  split; [exact E | ].
  destruct (recommend_endpoint_answers
              (env_of iron_man_bundle) " Zzz " None None None
              (RecommendationRequest.mk "Zzz" 10 50 6.0) iron_man_service)
    as (_ & H & _); [vm_compute; reflexivity | ].
  destruct (H _ _ _ E) as [[_ (sg & Hd & Hlen)] | [Hs _]].
  - injection Hd as <-. exact Hlen.
  - discriminate.
Defined.

Lemma get_movie_endpoint_answers_witness :
  (exists df movie,
     _df iron_man_service = Some df /\ In movie df /\
     get_movie (env_of iron_man_bundle) "Iron man" iron_man_service =
       (Returned (MovieDetails.mk (Movie.title movie)
                                  (F64.np_round (Movie.vote_average movie) 1)
                                  (Movie.vote_count movie)
                                  (Movie.overview movie)
                                  (Movie.genres movie)), iron_man_service)) \/
  get_movie (env_of iron_man_bundle) "Iron man" iron_man_service
    = (HTTPException 404 (Text "Movie 'Iron man' not found"),
       iron_man_service).
Proof.
  exact (get_movie_endpoint_answers (env_of iron_man_bundle) "Iron man"
                                    iron_man_service iron_man_service_aligned).
Defined.

Lemma blank_title_is_answered_with_suggestions_witness :
  exists req suggestions,
    RecommendationRequest.validate (String (ascii_of_nat 160) " ")
                                   (Some 5%Z) None None = Some req /\
    recommend (env_of iron_man_bundle) req iron_man_service
      = (HTTPException 404 (Suggest "Movie '' not found" suggestions),
         iron_man_service) /\
    map SearchResult.title suggestions
      = [ "Iron Man"; "Iron Man 2"; "Iron Man 3" ].
Proof.
  destruct (blank_title_is_answered_with_suggestions
              (env_of iron_man_bundle) (String (ascii_of_nat 160) " ")
              (Some 5%Z) None None iron_man_service iron_man)
    as (req & sg & H1 & _ & H2 & _ & _ & H4).
  - simpl. lia.
  - reflexivity.
  - intros n [= <-]. lia.
  - discriminate.
  - discriminate.
  - exact iron_man_service_aligned.
  - reflexivity.
  - repeat constructor; simpl; lia.
  - exists req, sg. repeat split; assumption.
Defined.

End MoreRuns.
